(** * A shallow embedding of the goftp server (package [ftp])

    The development follows the Go sources: the pieces of the standard
    packages [strings], [fmt], [net] and [path] that the program calls are
    modelled first, then the wire types, the address codec, the
    configuration loader, the server data connection and the per-session
    handler with its two dispatch tables.  Go strings are byte strings, so
    they are embedded as [string] (a list of 8-bit [ascii]). *)

From Stdlib Require Import ZArith Ascii String List Bool Lia.
From stdpp Require Import base option strings gmap.

Local Open Scope string_scope.
Local Open Scope list_scope.
Local Open Scope Z_scope.

(** ** Bytes *)

Definition TAB : ascii := "009"%char.
Definition LF : ascii := "010"%char.
Definition CR : ascii := "013"%char.
Definition DQUOTE : ascii := "034"%char.
Definition CRLF : string := String CR (String LF "").

Definition byte_val (c : ascii) : Z := Z.of_N (N_of_ascii c).

Definition is_ascii (c : ascii) : bool := byte_val c <? 128.
Definition is_digit (c : ascii) : bool :=
  (48 <=? byte_val c) && (byte_val c <=? 57).
Definition is_letter (c : ascii) : bool :=
  ((65 <=? byte_val c) && (byte_val c <=? 90))
  || ((97 <=? byte_val c) && (byte_val c <=? 122)).

(** ** Results, errors and run-time faults *)

(** The [error] values the program tells apart: the package-level sentinel
    [errInvalidAddrFamily] (compared with [==] in [HandleEPRT]) and every
    other error, which only carries its text. *)
Inductive error : Type :=
  | errInvalidAddrFamily
  | errorf (msg : string).

Inductive result (A : Type) : Type :=
  | Ok (a : A)
  | Err (e : error).
Arguments Ok {A} a.
Arguments Err {A} e.

(** A Go function either returns or faults at run time (here: an index out
    of range). *)
Inductive outcome (A : Type) : Type :=
  | Ret (a : A)
  | Panic.
Arguments Ret {A} a.
Arguments Panic {A}.

#[global] Instance outcome_ret : MRet outcome := fun A a => Ret a.
#[global] Instance outcome_bind : MBind outcome := fun A B k o =>
  match o with
  | Ret a => k a
  | Panic => Panic
  end.

(** ** Package [strings] *)

Module strings.

Definition len (s : string) : Z := Z.of_nat (String.length s).

Fixpoint mem (c : ascii) (s : string) : bool :=
  match s with
  | "" => false
  | String d s' => Ascii.eqb c d || mem c s'
  end.

Fixpoint all_ascii (s : string) : bool :=
  match s with
  | "" => true
  | String c s' => is_ascii c && all_ascii s'
  end.

(** [IndexByte s c]: index of the first [c] in [s], or [-1]. *)
Fixpoint IndexByte (s : string) (c : ascii) : Z :=
  match s with
  | "" => -1
  | String d s' =>
      if Ascii.eqb d c then 0
      else let i := IndexByte s' c in if i <? 0 then -1 else i + 1
  end.

(** [Contains s sub] at a one-byte [sub]. *)
Definition ContainsByte (s : string) (c : ascii) : bool :=
  0 <=? IndexByte s c.

(** Slices [s[:i]] and [s[i:]] for an index within bounds. *)
Fixpoint take (n : nat) (s : string) : string :=
  match n, s with
  | S n', String c s' => String c (take n' s')
  | _, _ => ""
  end.

Fixpoint drop (n : nat) (s : string) : string :=
  match n, s with
  | S n', String _ s' => drop n' s'
  | _, _ => s
  end.

(** [Split s sep] at a one-byte separator: [n+1] fields for [n]
    separators; the empty string gives one empty field. *)
Fixpoint Split (s : string) (sep : ascii) : list string :=
  match s with
  | "" => [""]
  | String c s' =>
      if Ascii.eqb c sep then "" :: Split s' sep
      else match Split s' sep with
           | f :: fs => String c f :: fs
           | [] => [String c ""]
           end
  end.

Fixpoint Join (a : list string) (sep : string) : string :=
  match a with
  | [] => ""
  | [x] => x
  | x :: xs => x +:+ sep +:+ Join xs sep
  end.

(** [Replace s old new (-1)] at a one-byte [old]: every occurrence is
    replaced. *)
Fixpoint Replace (s : string) (old : ascii) (new : string) : string :=
  match s with
  | "" => ""
  | String c s' =>
      if Ascii.eqb c old then new +:+ Replace s' old new
      else String c (Replace s' old new)
  end.

(** Trimming.  For a cutset of ASCII bytes Go trims byte by byte. *)
Fixpoint trimLeftBytes (s cutset : string) : string :=
  match s with
  | "" => ""
  | String c s' => if mem c cutset then trimLeftBytes s' cutset else s
  end.

Fixpoint trimRightBytes (s cutset : string) : string :=
  match s with
  | "" => ""
  | String c s' =>
      match trimRightBytes s' cutset with
      | "" => if mem c cutset then "" else String c ""
      | t => String c t
      end
  end.

Fixpoint has_prefix (p s : string) : bool :=
  match p, s with
  | "", _ => true
  | String a p', String b s' => Ascii.eqb a b && has_prefix p' s'
  | _, _ => false
  end.

(** For a cutset that is one multi-byte rune, Go decodes [s] rune by rune
    and removes the leading and trailing copies of that rune, that is of
    its UTF-8 encoding. *)
Fixpoint trimLeftRune (fuel : nat) (s r : string) : string :=
  match fuel with
  | O => s
  | S fuel' =>
      if has_prefix r s
      then trimLeftRune fuel' (drop (String.length r) s) r
      else s
  end.

Fixpoint rev (s : string) : string :=
  match s with
  | "" => ""
  | String c s' => rev s' +:+ String c ""
  end.

Definition trimRightRune (s r : string) : string :=
  rev (trimLeftRune (String.length s) (rev s) (rev r)).

(** [Trim s cutset]: right end first, then left end, as in Go. *)
Definition Trim (s cutset : string) : string :=
  if all_ascii cutset
  then trimLeftBytes (trimRightBytes s cutset) cutset
  else trimLeftRune (String.length s) (trimRightRune s cutset) cutset.

(** [ToUpper].  The ASCII letters are mapped byte by byte.  Two other
    runes have an ASCII upper case, U+017F (long s, bytes C5 BF), which
    becomes [S], and U+0131 (dotless i, bytes C4 B1), which becomes [I];
    the remaining non-ASCII runes, whose upper case is not ASCII either,
    are kept as they are here. *)
Definition upper_byte (c : ascii) : ascii :=
  if (97 <=? byte_val c) && (byte_val c <=? 122)
  then ascii_of_N (Z.to_N (byte_val c - 32)) else c.

Fixpoint ToUpper (s : string) : string :=
  match s with
  | "" => ""
  | String c1 t =>
      match t with
      | String c2 t' =>
          if (byte_val c1 =? 197) && (byte_val c2 =? 191)
          then String "S"%char (ToUpper t')
          else if (byte_val c1 =? 196) && (byte_val c2 =? 177)
          then String "I"%char (ToUpper t')
          else String (upper_byte c1) (ToUpper t)
      | "" => String (upper_byte c1) ""
      end
  end.

End strings.

(** ** Package [fmt]: the [%d] verb *)

Module fmt.

Definition bytes (l : list Z) : string :=
  fold_right (fun b s => String (ascii_of_N (Z.to_N b)) s) "" l.

(** White space as [fmt] sees it: U+0009..U+000D and U+0020, and the
    multi-byte runes U+0085, U+00A0 (two bytes) and U+1680, U+2000..U+200A,
    U+2028, U+2029, U+202F, U+205F, U+3000 (three bytes). *)
Definition space1 (c : ascii) : bool :=
  ((9 <=? byte_val c) && (byte_val c <=? 13)) || (byte_val c =? 32).

Definition space2 (c1 c2 : ascii) : bool :=
  (byte_val c1 =? 194) && ((byte_val c2 =? 133) || (byte_val c2 =? 160)).

Definition space3 (c1 c2 c3 : ascii) : bool :=
  let a := byte_val c1 in let b := byte_val c2 in let c := byte_val c3 in
  ((a =? 225) && (b =? 154) && (c =? 128))
  || ((a =? 226) && (b =? 128)
      && (((128 <=? c) && (c <=? 138)) || (c =? 168) || (c =? 169) || (c =? 175)))
  || ((a =? 226) && (b =? 129) && (c =? 159))
  || ((a =? 227) && (b =? 128) && (c =? 128)).

(** [SkipSpace] of a [Sscanf] scanner: a newline is an error ([None]),
    other white space is passed over. *)
Fixpoint SkipSpace (s : string) : option string :=
  match s with
  | "" => Some ""
  | String c1 s1 =>
      if Ascii.eqb c1 LF then None
      else if space1 c1 then SkipSpace s1
      else match s1 with
           | String c2 s2 =>
               if space2 c1 c2 then SkipSpace s2
               else match s2 with
                    | String c3 s3 =>
                        if space3 c1 c2 c3 then SkipSpace s3 else Some s
                    | "" => Some s
                    end
           | "" => Some s
           end
  end.

(** [scanNumber]: the longest prefix made of decimal digits and [_]. *)
Definition is_digit_or_underscore (c : ascii) : bool :=
  is_digit c || Ascii.eqb c "_"%char.

Fixpoint scanNumber (s : string) : string :=
  match s with
  | String c s' =>
      if is_digit_or_underscore c then String c (scanNumber s') else ""
  | "" => ""
  end.

(** [strconv.ParseUint tok 10 64] without its range check: digits only. *)
Fixpoint parse_digits (tok : string) (acc : Z) : option Z :=
  match tok with
  | "" => Some acc
  | String c tok' =>
      if is_digit c then parse_digits tok' (acc * 10 + (byte_val c - 48))
      else None
  end.

(** [Sscanf s "%d" &v] for an unsigned [v] of [bits] bits: the value
    stored, or [None] when the scan fails and [v] is left as it was. *)
Definition Sscanf_d_uint (bits : Z) (s : string) : option Z :=
  match SkipSpace s with
  | None | Some "" => None
  | Some s1 =>
      match scanNumber s1 with
      | "" => None
      | tok =>
          match parse_digits tok 0 with
          | None => None
          | Some i =>
              if (i <? 2 ^ 64) && (i <? 2 ^ bits) then Some i else None
          end
      end
  end.

(** [Sscanf s "%d" &v] for [v] of type [int] (64 bits): an optional sign,
    then the number. *)
Definition Sscanf_d_int (s : string) : option Z :=
  match SkipSpace s with
  | None | Some "" => None
  | Some (String c s2 as s1) =>
      let '(neg, rest) :=
        if Ascii.eqb c "-"%char then (true, s2)
        else if Ascii.eqb c "+"%char then (false, s2)
        else (false, s1) in
      match scanNumber rest with
      | "" => None
      | tok =>
          match parse_digits tok 0 with
          | None => None
          | Some i =>
              let v := if neg then - i else i in
              if (- 2 ^ 63 <=? v) && (v <? 2 ^ 63) then Some v else None
          end
      end
  end.

(** [Sprintf "%d" n]. *)
Fixpoint digits (fuel : nat) (n : Z) (acc : string) : string :=
  let acc' := String (ascii_of_N (Z.to_N (48 + n mod 10))) acc in
  match fuel with
  | O => acc'
  | S fuel' => if n <? 10 then acc' else digits fuel' (n / 10) acc'
  end.

Definition Sprintf_d (n : Z) : string :=
  if n <? 0 then String "-"%char (digits (Z.to_nat (Z.log2 (- n))) (- n) "")
  else digits (Z.to_nat (Z.log2 n)) n "".

End fmt.

(** ** Package [path] *)

Module path.

Definition slash : ascii := "/"%char.
Definition dot : ascii := "."%char.

Definition IsAbs (p : string) : bool :=
  match p with
  | String c _ => Ascii.eqb c slash
  | "" => false
  end.

(** [at_end p]: the read index is at the end of the path or at a [/]. *)
Definition at_end (p : string) : bool :=
  match p with
  | "" => true
  | String c _ => Ascii.eqb c slash
  end.

(** The [..] case moves the write index back over one element, never
    below [dotdot]. *)
Fixpoint backtrack (w : nat) (out : string) (dotdot : nat) : nat :=
  match w with
  | O => O
  | S w' =>
      if (dotdot <? w)%nat
         && negb (match String.get w out with
                  | Some c => Ascii.eqb c slash
                  | None => false
                  end)
      then backtrack w' out dotdot
      else w
  end.

(** The next path element and what follows it. *)
Fixpoint element (p : string) : string * string :=
  match p with
  | "" => ("", "")
  | String c p' =>
      if Ascii.eqb c slash then ("", p)
      else let '(e, r) := element p' in (String c e, r)
  end.

(** The default case: a real path element is copied, after a [/] when
    one is needed; the result is the buffer and the unread rest. *)
Definition real_element (p : string) (rooted : bool) (out : string)
    : string * string :=
  let out1 :=
    if (rooted && negb (String.length out =? 1)%nat)
       || (negb rooted && negb (String.length out =? 0)%nat)
    then out +:+ "/" else out in
  let '(e, r) := element p in (out1 +:+ e, r).

(** The loop of [Clean]: [p] is the unread part of the path and [out] the
    bytes written so far. *)
Fixpoint clean_loop (fuel : nat) (p : string) (rooted : bool)
    (out : string) (dotdot : nat) : string :=
  match fuel with
  | O => out
  | S fuel' =>
      match p with
      | "" => out
      | String c p1 =>
          if Ascii.eqb c slash then clean_loop fuel' p1 rooted out dotdot
          else if Ascii.eqb c dot && at_end p1
          then clean_loop fuel' p1 rooted out dotdot
          else if Ascii.eqb c dot
                  && match p1 with
                     | String c1 p2 => Ascii.eqb c1 dot && at_end p2
                     | "" => false
                     end
          then
            let p2 := strings.drop 1 p1 in
            if (dotdot <? String.length out)%nat
            then
              let w := backtrack (String.length out - 1) out dotdot in
              clean_loop fuel' p2 rooted (strings.take w out) dotdot
            else if negb rooted
            then
              let out1 :=
                if (0 <? String.length out)%nat then out +:+ "/" else out in
              let out2 := out1 +:+ ".." in
              clean_loop fuel' p2 rooted out2 (String.length out2)
            else clean_loop fuel' p2 rooted out dotdot
          else
            let '(out', r) := real_element p rooted out in
            clean_loop fuel' r rooted out' dotdot
      end
  end.

Definition Clean (p : string) : string :=
  match p with
  | "" => "."
  | String c _ =>
      let rooted := Ascii.eqb c slash in
      let out :=
        if rooted
        then clean_loop (String.length p) (strings.drop 1 p) true "/" 1
        else clean_loop (String.length p) p false "" 0 in
      match out with
      | "" => "."
      | _ => out
      end
  end.

(** [Join a b]: the non-empty elements joined by [/], then cleaned. *)
Definition Join (a b : string) : string :=
  match a, b with
  | "", "" => ""
  | "", _ => Clean b
  | _, _ => Clean (a +:+ "/" +:+ b)
  end.

End path.

(** ** Package [net] *)

Module net.

Definition colon : ascii := ":"%char.

(** [JoinHostPort]: a host with a colon is taken to be an IPv6 literal
    and bracketed. *)
Definition JoinHostPort (host port : string) : string :=
  if 0 <=? strings.IndexByte host colon
  then "[" +:+ host +:+ "]:" +:+ port
  else host +:+ ":" +:+ port.

(** Index of the last [c] in [s], or [-1]. *)
Fixpoint last (s : string) (c : ascii) : Z :=
  match s with
  | "" => -1
  | String d s' =>
      let i := last s' c in
      if 0 <=? i then i + 1 else if Ascii.eqb d c then 0 else -1
  end.

Definition slice (s : string) (i j : Z) : string :=
  strings.take (Z.to_nat (j - i)) (strings.drop (Z.to_nat i) s).

Definition byte_at (s : string) (i : Z) : option ascii :=
  String.get (Z.to_nat i) s.

(** [SplitHostPort]: [host:port], [[host]:port]; [None] stands for its
    [AddrError]. *)
Definition SplitHostPort (hostport : string) : option (string * string) :=
  let i := last hostport colon in
  if i <? 0 then None
  else
    let n := strings.len hostport in
    let bracketed :=
      match hostport with
      | String c _ => Ascii.eqb c "["%char
      | "" => false
      end in
    let parts : option (string * Z * Z) :=
      if bracketed then
        let e := strings.IndexByte hostport "]"%char in
        if e <? 0 then None
        else if e + 1 =? n then None
        else if e + 1 =? i then Some (slice hostport 1 e, 1, e + 1)
        else None
      else
        let host := slice hostport 0 i in
        if 0 <=? strings.IndexByte host colon then None
        else Some (host, 0, 0) in
    match parts with
    | None => None
    | Some (host, j, k) =>
        if 0 <=? strings.IndexByte (slice hostport j n) "["%char then None
        else if 0 <=? strings.IndexByte (slice hostport k n) "]"%char then None
        else Some (host, slice hostport (i + 1) n)
    end.

(** An [IP] is a byte slice; [nil] is the empty one. *)
Definition IP : Type := list Z.

(** [parseIPv4Fields]: dotted decimal, four fields of at most 255 without
    leading zeros.  [prev] is the byte before the current one. *)
Fixpoint parseIPv4Fields (s : string) (prev : option ascii)
    (val digLen : Z) (fields : list Z) : option (list Z) :=
  match s with
  | "" =>
      if (Z.of_nat (List.length fields) <? 3) then None
      else Some (fields ++ [val])
  | String c s' =>
      if is_digit c then
        if (digLen =? 1) && (val =? 0) then None
        else
          let val' := val * 10 + (byte_val c - 48) in
          if 255 <? val' then None
          else parseIPv4Fields s' (Some c) val' (digLen + 1) fields
      else if Ascii.eqb c "."%char then
        match prev, s' with
        | None, _ => None
        | _, "" => None
        | Some p, _ =>
            if Ascii.eqb p "."%char then None
            else if Z.of_nat (List.length fields) =? 3 then None
            else parseIPv4Fields s' (Some c) 0 0 (fields ++ [val])
        end
      else None
  end.

Definition parseIPv4 (s : string) : option (list Z) :=
  parseIPv4Fields s None 0 0 [].

Definition hex_val (c : ascii) : option Z :=
  let v := byte_val c in
  if (48 <=? v) && (v <=? 57) then Some (v - 48)
  else if (97 <=? v) && (v <=? 102) then Some (v - 97 + 10)
  else if (65 <=? v) && (v <=? 70) then Some (v - 65 + 10)
  else None.

(** The hexadecimal group at the head of [s]: its value, the number of
    digits read and the rest; [None] once a fifth digit is read. *)
Fixpoint hex_group (s : string) (acc off : Z) : option (Z * Z * string) :=
  match s with
  | "" => Some (acc, off, "")
  | String c s' =>
      match hex_val c with
      | Some v =>
          let acc' := acc * 16 + v in
          if 3 <? off then None
          else if 65535 <? acc' then None
          else hex_group s' acc' (off + 1)
      | None => Some (acc, off, s)
      end
  end.

(** The loop of [parseIPv6]: [ip] holds the [i] bytes written so far and
    [ellipsis] the position of [::], or [-1].  The loop runs while
    [i < 16] and every turn adds two bytes, so eight turns are enough. *)
Fixpoint parseIPv6_loop (fuel : nat) (s : string) (ip : list Z)
    (ellipsis : Z) : option (string * list Z * Z) :=
  let i := Z.of_nat (List.length ip) in
  match fuel with
  | O => Some (s, ip, ellipsis)
  | S fuel' =>
      if negb (i <? 16) then Some (s, ip, ellipsis)
      else
        match hex_group s 0 0 with
        | None => None
        | Some (acc, off, rest) =>
            if off =? 0 then None
            else
              match rest with
              | String c rest' =>
                  if Ascii.eqb c "."%char then
                    if (ellipsis <? 0) && negb (i =? 12) then None
                    else if 16 <? i + 4 then None
                    else
                      match parseIPv4 s with
                      | None => None
                      | Some f => Some ("", ip ++ f, ellipsis)
                      end
                  else
                    let ip' := ip ++ [acc / 256; acc mod 256] in
                    if negb (Ascii.eqb c colon) then None
                    else
                      match rest' with
                      | "" => None
                      | String c' rest'' =>
                          if Ascii.eqb c' colon then
                            if 0 <=? ellipsis then None
                            else
                              match rest'' with
                              | "" => Some ("", ip', i + 2)
                              | _ => parseIPv6_loop fuel' rest'' ip' (i + 2)
                              end
                          else parseIPv6_loop fuel' rest' ip' ellipsis
                      end
              | "" => Some ("", ip ++ [acc / 256; acc mod 256], ellipsis)
              end
        end
  end.

Definition zeros (n : nat) : list Z := repeat 0 n.

(** [parseIPv6] as [ParseIP] uses it: a zone ([%]) makes the literal
    invalid. *)
Definition parseIPv6 (s : string) : option (list Z) :=
  if 0 <=? strings.IndexByte s "%"%char then None
  else
    let '(s1, ellipsis0) :=
      match s with
      | String c1 (String c2 s') =>
          if Ascii.eqb c1 colon && Ascii.eqb c2 colon then (s', 0)
          else (s, -1)
      | _ => (s, -1)
      end in
    if (ellipsis0 =? 0) && (String.eqb s1 "") then Some (zeros 16)
    else
      match parseIPv6_loop 8 s1 [] ellipsis0 with
      | None => None
      | Some (rest, ip, ellipsis) =>
          if negb (String.eqb rest "") then None
          else
            let i := List.length ip in
            if (i <? 16)%nat then
              if ellipsis <? 0 then None
              else
                let e := Z.to_nat ellipsis in
                Some (firstn e ip ++ zeros (16 - i) ++ skipn e ip)
            else if 0 <=? ellipsis then None
            else Some ip
      end.

Definition v4InV6Prefix : list Z := zeros 10 ++ [255; 255].

(** [netip.ParseAddr] looks for the first [.], [:] or [%]. *)
Fixpoint first_sep (s : string) : option ascii :=
  match s with
  | "" => None
  | String c s' =>
      if Ascii.eqb c "."%char || Ascii.eqb c colon || Ascii.eqb c "%"%char
      then Some c else first_sep s'
  end.

(** [ParseIP]: the 16-byte form of the address, or [nil]. *)
Definition ParseIP (s : string) : IP :=
  match first_sep s with
  | Some c =>
      if Ascii.eqb c "."%char then
        match parseIPv4 s with
        | Some f => v4InV6Prefix ++ f
        | None => []
        end
      else if Ascii.eqb c colon then
        match parseIPv6 s with
        | Some ip => ip
        | None => []
        end
      else []
  | None => []
  end.

Definition list_eqb (a b : list Z) : bool :=
  (List.length a =? List.length b)%nat
  && forallb (fun '(x, y) => x =? y) (combine a b).

Definition To4 (ip : IP) : IP :=
  if (List.length ip =? 4)%nat then ip
  else if (List.length ip =? 16)%nat && list_eqb (firstn 12 ip) v4InV6Prefix
  then skipn 12 ip
  else [].

Definition IPv6loopback : IP := zeros 15 ++ [1].

Definition IsLoopback (ip : IP) : bool :=
  match To4 ip with
  | [] => list_eqb ip IPv6loopback
  | b :: _ => b =? 127
  end.

End net.

(** ** Commands and replies (the wire types) *)

(** [CommandCode] and [StatusCode] are string types. *)
Abbreviation CommandCode := string (only parsing).

Definition CommandUSER : CommandCode := "USER".
Definition CommandPASS : CommandCode := "PASS".
Definition CommandCWD : CommandCode := "CWD".
Definition CommandCDUP : CommandCode := "CDUP".
Definition CommandQUIT : CommandCode := "QUIT".
Definition CommandPASV : CommandCode := "PASV".
Definition CommandEPSV : CommandCode := "EPSV".
Definition CommandPORT : CommandCode := "PORT".
Definition CommandEPRT : CommandCode := "EPRT".
Definition CommandRETR : CommandCode := "RETR".
Definition CommandPWD : CommandCode := "PWD".
Definition CommandLIST : CommandCode := "LIST".
Definition CommandHELP : CommandCode := "HELP".

(** The thirteen recognized command codes. *)
Definition recognized : list CommandCode :=
  [CommandUSER; CommandPASS; CommandCWD; CommandCDUP; CommandQUIT;
   CommandPASV; CommandEPSV; CommandPORT; CommandEPRT; CommandRETR;
   CommandPWD; CommandLIST; CommandHELP].

Record Command : Type := newCommand { Code : CommandCode; Arugment : string }.

Abbreviation StatusCode := string (only parsing).

Record Reply : Type := newReply { Status : StatusCode; Message : string }.

(** [Reply.String]: the one-line form, or the multi-line form when the
    message has an embedded newline. *)
Definition Reply_String (r : Reply) : string :=
  let msg := strings.Trim (Message r) (String LF "") in
  if strings.ContainsByte msg LF then
    let a := map (fun l => String TAB l) (strings.Split msg LF) in
    let msg' := strings.Join a CRLF +:+ CRLF in
    Status r +:+ "-" +:+ CRLF +:+ msg' +:+ Status r +:+ " Erik's FTP Server"
  else Status r +:+ " " +:+ Message r.

(** ** The address codec *)

(** [getPORTString]: [h1,h2,h3,h4,p1,p2] from a dotted host and a port. *)
Definition getPORTString (host port : string) : result string :=
  let hostBytes := strings.Split host "."%char in
  if negb (List.length hostBytes =? 4)%nat
  then Err (errorf ("Invalid address: " +:+ host +:+ ":" +:+ port))
  else
    let intPort := default 0 (fmt.Sscanf_d_uint 16 port) in
    if 65535 <? intPort
    then Err (errorf ("Invalid port: " +:+ host +:+ ":" +:+ port))
    else
      let portBytes0 := Z.land intPort 255 in
      let portBytes1 := Z.shiftr intPort 8 in
      let portStrs0 := fmt.Sprintf_d portBytes0 in
      let portStrs1 := fmt.Sprintf_d portBytes1 in
      let addrString :=
        fold_left (fun acc s => acc +:+ s +:+ ",") hostBytes "" in
      Ok (addrString +:+ portStrs1 +:+ "," +:+ portStrs0).

(** [getEPRTString]: [|proto|host|port|]; the IPv6 loopback is sent as
    [127.0.0.1] with protocol [1]. *)
Definition getEPRTString (host port : string) : result string :=
  let ip := net.ParseIP host in
  match ip with
  | [] => Err (errorf ("unrecognized IP address: " +:+ host))
  | _ =>
      let '(proto, host') :=
        match net.To4 ip with
        | _ :: _ => ("1", host)
        | [] => if net.IsLoopback ip then ("1", "127.0.0.1") else ("2", host)
        end in
      Ok ("|" +:+ proto +:+ "|" +:+ host' +:+ "|" +:+ port +:+ "|")
  end.

(** [hostPortToAddr]: the inverse of [getPORTString].  The two port fields
    are scanned into [uint16] variables that keep their zero value when the
    scan fails, and the port is computed in [uint16] arithmetic. *)
Definition hostPortToAddr (hostPort : string) : result string :=
  match strings.Split hostPort ","%char with
  | [d0; d1; d2; d3; d4; d5] =>
      let host := d0 +:+ "." +:+ d1 +:+ "." +:+ d2 +:+ "." +:+ d3 in
      let portData0 := default 0 (fmt.Sscanf_d_uint 16 d4) in
      let portData1 := default 0 (fmt.Sscanf_d_uint 16 d5) in
      let port := (portData0 * 256 + portData1) mod 2 ^ 16 in
      if 65535 <? port
      then Err (errorf ("port out of range: " +:+ fmt.Sprintf_d port))
      else Ok (net.JoinHostPort host (fmt.Sprintf_d port))
  | _ => Err (errorf ("invalid argument: " +:+ hostPort))
  end.

(** [string(b)] for a byte [b]: the UTF-8 encoding of the code point [b]. *)
Definition string_of_byte (c : ascii) : string :=
  let b := byte_val c in
  if b <? 128 then String c ""
  else fmt.bytes [Z.lor 192 (Z.shiftr b 6); Z.lor 128 (Z.land b 63)].

(** [parseEPRTArg]: indexing [arg[0]] faults on the empty argument. *)
Definition parseEPRTArg (arg : string) : outcome (result string) :=
  match arg with
  | "" => Panic
  | String arg0 _ =>
      let delim := string_of_byte arg0 in
      let params := strings.Split (strings.Trim arg delim) "|"%char in
      match params with
      | [proto; addr; port] =>
          if negb (String.eqb proto "1") && negb (String.eqb proto "2")
          then Ret (Err errInvalidAddrFamily)
          else Ret (Ok (net.JoinHostPort addr port))
      | _ => Ret (Err (errorf ("invalid EPRT string: " +:+ arg)))
      end
  end.

(** ** The configuration loader *)

Record config : Type := mkConfig {
  logDir : string;
  nLogFiles : Z;
  usersFile : string;
  port : bool;
  pasv : bool
}.

Definition parseBool (b : string) : result bool :=
  let u := strings.ToUpper b in
  if String.eqb u "YES" then Ok true
  else if String.eqb u "NO" then Ok false
  else Err (errorf ("config.go: unrecognized boolean value " +:+ b)).

(** A [bufio.Scanner] with the default line splitter: the lines of the
    text without their end-of-line marker, and [ErrTooLong] when a line
    does not fit the 64 KiB buffer. *)
Definition MaxScanTokenSize : Z := 65536.

Definition dropCR (l : string) : string :=
  match strings.rev l with
  | String c r => if Ascii.eqb c CR then strings.rev r else l
  | "" => l
  end.

Fixpoint scan_tokens (fields : list string) : list string * option error :=
  match fields with
  | [] => ([], None)
  | [""] => ([], None)
  | f :: fs =>
      if MaxScanTokenSize <=? strings.len f
      then ([], Some (errorf "bufio.Scanner: token too long"))
      else let '(ts, e) := scan_tokens fs in (dropCR f :: ts, e)
  end.

Definition ScanLines (text : string) : list string * option error :=
  scan_tokens (strings.Split text LF).

(** The body of the scanning loop of [loadConfig] for one line. *)
Definition loadConfig_line (line : string) (c : config) : outcome config :=
  match line with
  | "" => Panic
  | String line0 _ =>
      if Ascii.eqb line0 "#"%char then Ret c
      else
        match strings.Split line "="%char with
        | [key; value] =>
            if String.eqb key "logdirectory" then
              Ret (mkConfig value (nLogFiles c) (usersFile c) (port c) (pasv c))
            else if String.eqb key "numlogfiles" then
              match fmt.Sscanf_d_int value with
              | Some n =>
                  Ret (mkConfig (logDir c) n (usersFile c) (port c) (pasv c))
              | None =>
                  Ret (mkConfig (logDir c) 5 (usersFile c) (port c) (pasv c))
              end
            else if String.eqb key "usernamefile" then
              Ret (mkConfig (logDir c) (nLogFiles c) value (port c) (pasv c))
            else if String.eqb key "port_mode" then
              match parseBool value with
              | Ok b =>
                  Ret (mkConfig (logDir c) (nLogFiles c) (usersFile c) b (pasv c))
              | Err _ => Ret c
              end
            else if String.eqb key "pasv_mode" then
              match parseBool value with
              | Ok b =>
                  Ret (mkConfig (logDir c) (nLogFiles c) (usersFile c) (port c) b)
              | Err _ => Ret c
              end
            else Ret c
        | _ => Ret c
        end
  end.

Fixpoint loadConfig_lines (lines : list string) (c : config) : outcome config :=
  match lines with
  | [] => Ret c
  | l :: ls => c' ← loadConfig_line l c; loadConfig_lines ls c'
  end.

(** [loadConfig]: [file] is what [os.Open] finds at the path, the text of
    the file or the error of the call. *)
Definition loadConfig (file : result string) : outcome (result config) :=
  match file with
  | Err e => Ret (Err e)
  | Ok text =>
      let c := mkConfig "/var/spool/logfiles" 5 "" false true in
      let '(lines, scanErr) := ScanLines text in
      c' ← loadConfig_lines lines c;
      match scanErr with
      | Some e => Ret (Err e)
      | None => Ret (Ok c')
      end
  end.

(** ** The environment of a session

    What the operating system and the network answer is not decided by the
    program: every call is answered by an oracle, one [env] for each
    command that the session handles. *)

Record FileInfo : Type := mkFileInfo { IsDir : bool; IsRegular : bool }.

(** A data connection as the program sees it: the peer address and what
    [Write] and [Close] will return. *)
Record netConn : Type := mkNetConn {
  peerAddr : string;
  writeErr : option error;
  closeErr : option error
}.

Record Listener : Type := mkListener { lnAddr : string }.

Record env : Type := mkEnv {
  Getwd : result string;
  Lstat : string -> result FileInfo;
  ReadFile : string -> result string;
  ls_l : string -> result string;
  Listen : result Listener;
  Accept : result netConn;
  Dial : string -> result netConn
}.

(** What a session does to the outside, in order. *)
Inductive event : Type :=
  | EvReply (r : Reply)
  | EvListen
  | EvAccept (ln : Listener)
  | EvDial (address : string)
  | EvDataWrite (c : netConn) (bytes : string)
  | EvDataClose (c : netConn).

(** The bytes that [writeReply] puts on the control connection. *)
Definition wire (r : Reply) : string := Reply_String r +:+ CRLF.

(** ** The server data connection *)

Inductive serverDataConn : Type :=
  | noDataConn
  | serverActiveDataConn (address : string)
  | serverPassiveDataConn (ln : Listener) (localAddr : string).

Definition active_write (address : string) (msg : string) (e : env)
    : option error * list event :=
  match Dial e address with
  | Err err => (Some err, [EvDial address])
  | Ok conn =>
      match writeErr conn with
      | Some err => (Some err, [EvDial address; EvDataWrite conn msg])
      | None =>
          (closeErr conn,
           [EvDial address; EvDataWrite conn msg; EvDataClose conn])
      end
  end.

Definition passive_write (ln : Listener) (localAddr : string) (msg : string)
    (e : env) : option error * list event :=
  match Accept e with
  | Err err => (Some err, [EvAccept ln])
  | Ok conn =>
      match net.SplitHostPort (peerAddr conn) with
      | None => (Some (errorf "address error"), [EvAccept ln])
      | Some (dip, _) =>
          if negb (String.eqb dip localAddr)
          then (Some (errorf ("Unexpeted data client: want " +:+ localAddr
                              +:+ " got " +:+ dip)), [EvAccept ln])
          else
            match writeErr conn with
            | Some err => (Some err, [EvAccept ln; EvDataWrite conn msg])
            | None =>
                (closeErr conn,
                 [EvAccept ln; EvDataWrite conn msg; EvDataClose conn])
            end
      end
  end.

(** [write] through the interface; a nil interface value faults. *)
Definition write (d : serverDataConn) (msg : string) (e : env)
    : outcome (option error * list event) :=
  match d with
  | noDataConn => Panic
  | serverActiveDataConn address => Ret (active_write address msg e)
  | serverPassiveDataConn ln localAddr => Ret (passive_write ln localAddr msg e)
  end.

(** ** The handler of one session *)

(** The methods that the dispatch tables hold. *)
Inductive handleFunc : Type :=
  | F_HandleUSER | F_HandlePASS | F_HandleHELP | F_HandlePWD | F_HandleCWD
  | F_HandleCDUP | F_HandlePORT | F_HandleEPRT | F_HandlePASV | F_HandleEPSV
  | F_HandleLIST | F_HandleRETR | F_HandleQUIT | F_writeError530NotLoggedIn.

Record handler : Type := mkHandler {
  hconfig : config;
  conn : string;
  username : string;
  dir : string;
  dataConn : serverDataConn;
  users : gmap string string;
  isLoggedIn : bool;
  commands : gmap string handleFunc
}.

Definition set_username (u : string) (h : handler) : handler :=
  mkHandler (hconfig h) (conn h) u (dir h) (dataConn h) (users h)
    (isLoggedIn h) (commands h).
Definition set_dir (d : string) (h : handler) : handler :=
  mkHandler (hconfig h) (conn h) (username h) d (dataConn h) (users h)
    (isLoggedIn h) (commands h).
Definition set_dataConn (d : serverDataConn) (h : handler) : handler :=
  mkHandler (hconfig h) (conn h) (username h) (dir h) d (users h)
    (isLoggedIn h) (commands h).
Definition set_isLoggedIn (b : bool) (h : handler) : handler :=
  mkHandler (hconfig h) (conn h) (username h) (dir h) (dataConn h) (users h)
    b (commands h).
Definition set_commands (t : gmap string handleFunc) (h : handler) : handler :=
  mkHandler (hconfig h) (conn h) (username h) (dir h) (dataConn h) (users h)
    (isLoggedIn h) t.

(** [initCommandTable]: the table of a session that is not logged in. *)
Definition initCommandTable (h : handler) : handler :=
  set_commands
    (<[CommandQUIT := F_HandleQUIT]>
     (<[CommandRETR := F_writeError530NotLoggedIn]>
     (<[CommandLIST := F_writeError530NotLoggedIn]>
     (<[CommandEPSV := F_writeError530NotLoggedIn]>
     (<[CommandPASV := F_writeError530NotLoggedIn]>
     (<[CommandEPRT := F_writeError530NotLoggedIn]>
     (<[CommandPORT := F_writeError530NotLoggedIn]>
     (<[CommandCDUP := F_writeError530NotLoggedIn]>
     (<[CommandCWD := F_writeError530NotLoggedIn]>
     (<[CommandPWD := F_writeError530NotLoggedIn]>
     (<[CommandHELP := F_HandleHELP]>
     (<[CommandPASS := F_HandlePASS]>
     (<[CommandUSER := F_HandleUSER]> (commands h)))))))))))))) h.

(** [initCommandTableLoggedIn]: the table of a logged-in session. *)
Definition initCommandTableLoggedIn (h : handler) : handler :=
  set_commands
    (<[CommandQUIT := F_HandleQUIT]>
     (<[CommandRETR := F_HandleRETR]>
     (<[CommandLIST := F_HandleLIST]>
     (<[CommandEPSV := F_HandleEPSV]>
     (<[CommandPASV := F_HandlePASV]>
     (<[CommandEPRT := F_HandleEPRT]>
     (<[CommandPORT := F_HandlePORT]>
     (<[CommandCDUP := F_HandleCDUP]>
     (<[CommandCWD := F_HandleCWD]>
     (<[CommandPWD := F_HandlePWD]>
     (<[CommandHELP := F_HandleHELP]>
     (<[CommandPASS := F_HandlePASS]>
     (<[CommandUSER := F_HandleUSER]> (commands h)))))))))))))) h.

(** A handler method returns the new state of the session and what it did,
    or faults. *)
Definition effect : Type := outcome (handler * list event).

Definition writeReply (h : handler) (r : Reply) : effect := Ret (h, [EvReply r]).

Definition writeError501Args (h : handler) : effect :=
  writeReply h (newReply "501" "Error in arguments.").
Definition writeError550FileAction (h : handler) : effect :=
  writeReply h (newReply "550" "File action failed.").
Definition writeError530NotLoggedIn (arg : string) (h : handler) : effect :=
  writeReply h (newReply "530" "Log in with USER and PASS first.").
Definition writeError421Server (h : handler) : effect :=
  writeReply h (newReply "421" "An internal error occurred.").

Definition initActiveDataConn (addr : string) (h : handler) : handler :=
  set_dataConn (serverActiveDataConn addr) h.

(** The host of the control connection's peer, as [SplitHostPort] returns
    it (empty when the call fails). *)
Definition control_peer_host (h : handler) : string :=
  match net.SplitHostPort (conn h) with
  | Some (host, _) => host
  | None => ""
  end.

Definition initPassiveDataConn (h : handler) (e : env)
    : handler * result string * list event :=
  match Listen e with
  | Err err => (h, Err err, [EvListen])
  | Ok ln =>
      (set_dataConn (serverPassiveDataConn ln (control_peer_host h)) h,
       Ok (lnAddr ln), [EvListen])
  end.

Definition HandleUSER (username' : string) (h : handler) : effect :=
  if String.eqb username' "" then writeError501Args h
  else if String.eqb username' (username h) && isLoggedIn h
  then writeReply h (newReply "230" "User already logged in.")
  else
    writeReply (set_username username' h)
      (newReply "331" ("Username " +:+ username'
                       +:+ " accepted, please provide the password.")).

Definition HandlePASS (password : string) (h : handler) : effect :=
  if String.eqb (username h) ""
  then writeReply h (newReply "503" "Log in with USER first.")
  else
    match users h !! username h with
    | Some pass =>
        if negb (String.eqb password pass)
        then writeReply (set_username "" h) (newReply "530" "Login incorrect.")
        else
          writeReply (set_isLoggedIn true (initCommandTableLoggedIn h))
            (newReply "230" "Login successful.")
    | None => writeReply (set_username "" h) (newReply "530" "Login incorrect.")
    end.

Definition HandlePWD (arg : string) (h : handler) : effect :=
  if negb (String.eqb arg "") then writeError501Args h
  else
    writeReply h
      (newReply "257" (String DQUOTE (dir h) +:+ String DQUOTE ""
                       +:+ " is the current directory.")).

Definition HandleCWD (dir' : string) (h : handler) (e : env) : effect :=
  let p := if negb (path.IsAbs dir') then path.Join (dir h) dir' else dir' in
  match Lstat e p with
  | Err _ => writeReply h (newReply "550" "Directory change failed.")
  | Ok info =>
      if negb (IsDir info)
      then writeReply h (newReply "550" (dir' +:+ ": Not a directory."))
      else
        writeReply (set_dir p h)
          (newReply "250" "Directory change successful.")
  end.

Definition HandleCDUP (arg : string) (h : handler) (e : env) : effect :=
  if negb (String.eqb arg "") then writeError501Args h
  else HandleCWD ".." h e.

Definition HandlePORT (args : string) (h : handler) : effect :=
  if negb (port (hconfig h))
  then writeReply h (newReply "550" "PORT mode not available.")
  else
    match hostPortToAddr args with
    | Err _ => writeError501Args h
    | Ok addr =>
        writeReply (initActiveDataConn addr h)
          (newReply "200" "PORT command accepted.")
    end.

Definition HandleEPRT (args : string) (h : handler) : effect :=
  if negb (port (hconfig h))
  then writeReply h (newReply "550" "EPRT mode not available")
  else
    r ← parseEPRTArg args;
    match r with
    | Err err =>
        match err with
        | errInvalidAddrFamily =>
            writeReply h
              (newReply "522" "Unrecognized address family identifier.")
        | _ => writeError501Args h
        end
    | Ok addr =>
        writeReply (initActiveDataConn addr h)
          (newReply "200" "EPRT command accepted.")
    end.

(** Puts the events of a sub-step before those of what follows. *)
Definition after (evs : list event) (x : effect) : effect :=
  '(h, evs') ← x; Ret (h, evs ++ evs').

Definition HandlePASV (arg : string) (h : handler) (e : env) : effect :=
  if negb (pasv (hconfig h))
  then writeReply h (newReply "550" "PASV mode not available")
  else if negb (String.eqb arg "") then writeError501Args h
  else
    let '(h1, r, evs) := initPassiveDataConn h e in
    after evs
      match r with
      | Err _ => writeError421Server h1
      | Ok addr =>
          match net.SplitHostPort addr with
          | None => writeError421Server h1
          | Some (host, port') =>
              let ip := net.ParseIP addr in
              match net.To4 ip with
              | [] => writeReply h1 (newReply "421" "PASV failed, use EPSV.")
              | _ :: _ =>
                  match getPORTString host port' with
                  | Err _ => writeError421Server h1
                  | Ok msg =>
                      writeReply h1
                        (newReply "227"
                           ("Entering Passive Mode (" +:+ msg +:+ ")."))
                  end
              end
          end
      end.

Definition HandleEPSV (arg : string) (h : handler) (e : env) : effect :=
  if negb (pasv (hconfig h))
  then writeReply h (newReply "550" "PASV mode not available")
  else if negb (String.eqb arg "") then writeError501Args h
  else
    let '(h1, r, evs) := initPassiveDataConn h e in
    after evs
      match r with
      | Err _ => writeReply h1 (newReply "421" "EPSV command failed.")
      | Ok addr =>
          match net.SplitHostPort addr with
          | None => writeReply h1 (newReply "421" "EPSV command failed.")
          | Some (_, port') =>
              writeReply h1
                (newReply "229"
                   ("Entering Extended Passive Mode (|||" +:+ port' +:+ "|)."))
          end
      end.

Definition HandleLIST (dir' : string) (h : handler) (e : env) : effect :=
  let p :=
    if String.eqb dir' "" then dir h
    else if path.IsAbs dir' then dir' else path.Join (dir h) dir' in
  match Lstat e p with
  | Err _ => writeReply h (newReply "550" "Directory listing failed.")
  | Ok f =>
      if negb (IsDir f)
      then writeReply h (newReply "550" (dir' +:+ ": not a directory"))
      else
        match ls_l e p with
        | Err _ => writeReply h (newReply "550" "Directory listing failed.")
        | Ok list =>
            let data := strings.Replace list LF CRLF in
            after [EvReply (newReply "150" "Here comes the directory listing.")]
              ('(err, evs) ← write (dataConn h) data e;
               after evs
                 match err with
                 | Some _ =>
                     writeReply h
                       (newReply "451" "Failed to open data connection.")
                 | None =>
                     writeReply h
                       (newReply "226" "Listing successfully transfered.")
                 end)
        end
  end.

Definition HandleRETR (file : string) (h : handler) (e : env) : effect :=
  let file := if negb (path.IsAbs file) then path.Join (dir h) file else file in
  match Lstat e file with
  | Err _ => writeError550FileAction h
  | Ok f =>
      if negb (IsRegular f) then writeError550FileAction h
      else
        match ReadFile e file with
        | Err _ => writeError550FileAction h
        | Ok data =>
            let data := strings.Replace data LF CRLF in
            after [EvReply (newReply "150" "Here comes the file.")]
              ('(err, evs) ← write (dataConn h) data e;
               after evs
                 match err with
                 | Some _ =>
                     writeReply h (newReply "451" "Error occurred in transfer.")
                 | None =>
                     writeReply h
                       (newReply "226" "File transfered successfully.")
                 end)
        end
  end.

Definition help_msg : string :=
  "The following commands are recogized:" +:+ String LF
  "USER   PASS   CWD    CDUP   PWD" +:+ String LF
  "PASV   EPSV   PORT   EPRT   RETR" +:+ String LF
  "LIST   HELP   QUIT".

Definition HandleHELP (arg : string) (h : handler) : effect :=
  if negb (String.eqb arg "") then writeError501Args h
  else writeReply h (newReply "214" help_msg).

Definition HandleQUIT (arg : string) (h : handler) : effect :=
  writeReply h (newReply "221" "Goodbye.").

(** Calling an entry of the dispatch table. *)
Definition call (f : handleFunc) (arg : string) (h : handler) (e : env)
    : effect :=
  match f with
  | F_HandleUSER => HandleUSER arg h
  | F_HandlePASS => HandlePASS arg h
  | F_HandleHELP => HandleHELP arg h
  | F_HandlePWD => HandlePWD arg h
  | F_HandleCWD => HandleCWD arg h e
  | F_HandleCDUP => HandleCDUP arg h e
  | F_HandlePORT => HandlePORT arg h
  | F_HandleEPRT => HandleEPRT arg h
  | F_HandlePASV => HandlePASV arg h e
  | F_HandleEPSV => HandleEPSV arg h e
  | F_HandleLIST => HandleLIST arg h e
  | F_HandleRETR => HandleRETR arg h e
  | F_HandleQUIT => HandleQUIT arg h
  | F_writeError530NotLoggedIn => writeError530NotLoggedIn arg h
  end.

(** [newHandler]: the session of a new control connection whose peer is
    [conn']. *)
Definition newHandler (conn' : string) (c : config)
    (users' : gmap string string) (e : env) : result handler * list event :=
  match Getwd e with
  | Err err => (Err err, [])
  | Ok dir' =>
      let h := mkHandler c conn' "" dir' noDataConn users' false ∅ in
      let h := initCommandTable h in
      if pasv c then
        let '(h1, _, evs) := initPassiveDataConn h e in (Ok h1, evs)
      else
        match net.SplitHostPort conn' with
        | None => (Err (errorf "address error"), [])
        | Some (host, port') =>
            match fmt.Sscanf_d_int port' with
            | None => (Err (errorf "expected integer"), [])
            | Some portNum =>
                let port'' := fmt.Sprintf_d (portNum + 1) in
                (Ok (initActiveDataConn (net.JoinHostPort host port'') h), [])
            end
        end
  end.

(** ** The command loop *)

(** What [readCommand] gets from the control connection. *)
Inductive input : Type :=
  | InLine (msg : string)
  | InEOF
  | InTimeout
  | InError.

(** The regular expression [^[a-zA-Z]{3,4} *.*] matches exactly the lines
    that start with three letters. *)
Definition commandRegex_MatchString (msg : string) : bool :=
  match msg with
  | String a (String b (String c _)) => is_letter a && is_letter b && is_letter c
  | _ => false
  end.

(** The parsing half of [readCommand]. *)
Definition parseCommand (msg : string) : result Command :=
  if negb (commandRegex_MatchString msg)
  then Err (errorf ("Unrecognized command: " +:+ strings.Trim msg CRLF))
  else
    let ind := strings.IndexByte msg " "%char in
    if ind <=? 0 then Ok (newCommand (strings.Trim msg CRLF) "")
    else
      Ok (newCommand (strings.take (Z.to_nat ind) msg)
            (strings.Trim (strings.drop (Z.to_nat (ind + 1)) msg) CRLF)).

(** One turn of the loop of [handle] on a command that was read: the new
    state, the events, and whether the loop goes on. *)
Definition dispatch (cmd : Command) (h : handler) (e : env)
    : outcome (handler * list event * bool) :=
  let code := strings.ToUpper (Code cmd) in
  if String.eqb code "QUIT" then
    '(h', evs) ← HandleQUIT (Arugment cmd) h; Ret (h', evs, false)
  else
    match commands h !! code with
    | None =>
        Ret (h, [EvReply (newReply "500" (code +:+ ": command not recognized."))],
             true)
    | Some command =>
        '(h', evs) ← call command (Arugment cmd) h e; Ret (h', evs, true)
    end.

Definition step (i : input) (h : handler) (e : env)
    : outcome (handler * list event * bool) :=
  match i with
  | InEOF => Ret (h, [], false)
  | InTimeout => Ret (h, [EvReply (newReply "421" "Timeout.")], false)
  | InError => Ret (h, [EvReply (newReply "500" "Unrecognized command.")], true)
  | InLine msg =>
      match parseCommand msg with
      | Err _ =>
          Ret (h, [EvReply (newReply "500" "Unrecognized command.")], true)
      | Ok cmd => dispatch cmd h e
      end
  end.

(** The loop of [handle] over the inputs of a session; it stops at the end
    of the inputs, when a turn ends the session, or at a fault. *)
Fixpoint loop (ins : list (input * env)) (h : handler)
    : outcome (handler * list event) :=
  match ins with
  | [] => Ret (h, [])
  | (i, e) :: ins' =>
      '(h1, evs, continue) ← step i h e;
      if continue : bool then '(h2, evs') ← loop ins' h1; Ret (h2, evs ++ evs')
      else Ret (h1, evs)
  end.

Definition handle (ins : list (input * env)) (h : handler)
    : outcome (handler * list event) :=
  after [EvReply (newReply "220" "Welcome to Erik's FTP Server")] (loop ins h).

(** ** Sessions that the server can be in *)

(** The states of a running session: the one [newHandler] builds, and the
    ones the loop of [handle] moves to while it goes on. *)
Inductive reachable : handler -> Prop :=
  | reachable_new conn' c users' e h evs :
      newHandler conn' c users' e = (Ok h, evs) -> reachable h
  | reachable_step h i e h' evs :
      reachable h -> step i h e = Ret (h', evs, true) -> reachable h'.

(** [runs_to h0 h]: the loop of [handle] started in [h0] can be in [h]. *)
Inductive runs_to (h0 : handler) : handler -> Prop :=
  | runs_to_refl : runs_to h0 h0
  | runs_to_step h i e h' evs :
      runs_to h0 h -> step i h e = Ret (h', evs, true) -> runs_to h0 h'.

(** The two dispatch tables, as built on an empty map. *)
Definition blank : handler :=
  mkHandler (mkConfig "" 0 "" false false) "" "" "" noDataConn ∅ false ∅.

Definition preAuthTable : gmap string handleFunc :=
  commands (initCommandTable blank).
Definition loggedInTable : gmap string handleFunc :=
  commands (initCommandTableLoggedIn blank).

(** The table that goes with the logged-in flag. *)
Definition table_ok (h : handler) : Prop :=
  commands h = if isLoggedIn h then loggedInTable else preAuthTable.

(** The commands that need a login: the recognized ones other than
    [USER], [PASS], [HELP] and [QUIT]. *)
Definition needs_login (code : CommandCode) : Prop :=
  In code recognized /\ code <> CommandUSER /\ code <> CommandPASS
  /\ code <> CommandHELP /\ code <> CommandQUIT.

(** ** The newline conversion as the specification words it *)

(** Each bare LF, that is each LF not already preceded by CR, becomes
    CRLF; every other byte is kept.  [prev] tells whether the byte before
    is a CR. *)
Fixpoint bare_LF_to_CRLF_from (prev : bool) (s : string) : string :=
  match s with
  | "" => ""
  | String c s' =>
      if Ascii.eqb c LF && negb prev
      then CRLF +:+ bare_LF_to_CRLF_from false s'
      else String c (bare_LF_to_CRLF_from (Ascii.eqb c CR) s')
  end.

Definition bare_LF_to_CRLF (s : string) : string :=
  bare_LF_to_CRLF_from false s.

(** Whether a CR is directly followed by an LF somewhere in [s]. *)
Fixpoint has_CRLF (s : string) : bool :=
  match s with
  | String c1 s' =>
      (Ascii.eqb c1 CR
       && match s' with String c2 _ => Ascii.eqb c2 LF | "" => false end)
      || has_CRLF s'
  | "" => false
  end.

(** ** What [getEPRTString] announces *)

(** A literal that [ParseIP] accepts is sent under protocol [2] when it is
    an IPv6 address other than the loopback, and under protocol [1]
    otherwise; the IPv6 loopback is replaced by [127.0.0.1]. *)
Definition is_IPv6_loopback (host : string) : bool :=
  match net.To4 (net.ParseIP host) with
  | [] => net.IsLoopback (net.ParseIP host)
  | _ :: _ => false
  end.

Definition eprt_host (host : string) : string :=
  if is_IPv6_loopback host then "127.0.0.1" else host.

Definition eprt_proto (host : string) : string :=
  match net.To4 (net.ParseIP host) with
  | [] => if net.IsLoopback (net.ParseIP host) then "1" else "2"
  | _ :: _ => "1"
  end.

(** The bytes of an IP literal: hexadecimal digits, [.] and [:]. *)
Definition ip_char (c : ascii) : bool :=
  match net.hex_val c with
  | Some _ => true
  | None => Ascii.eqb c "."%char || Ascii.eqb c ":"%char
  end.

Fixpoint all_chars (P : ascii -> bool) (s : string) : bool :=
  match s with
  | "" => true
  | String c s' => P c && all_chars P s'
  end.

(** ** Reading a trace *)

(** The listeners on which a trace accepts a connection, the byte strings
    it writes on data connections, and its replies. *)
Definition accepts (evs : list event) : list Listener :=
  omap (fun ev => match ev with EvAccept ln => Some ln | _ => None end) evs.

Definition data_written (evs : list event) : list string :=
  omap (fun ev => match ev with EvDataWrite _ b => Some b | _ => None end) evs.

Definition replies (evs : list event) : list Reply :=
  omap (fun ev => match ev with EvReply r => Some r | _ => None end) evs.

(** The host part of the peer address of a data connection. *)
Definition peer_host (c : netConn) : option string :=
  fst <$> net.SplitHostPort (peerAddr c).

(** ** A sample server

    A configuration, a users file with one account, and an environment in
    which every call succeeds; they are used to run the model. *)

Definition sample_config : config :=
  mkConfig "/var/spool/logfiles" 5 "users" true true.

Definition sample_users : gmap string string := {[ "alice" := "secret" ]}.

Definition motd : string := "a" +:+ CRLF.

Definition sample_env : env :=
  mkEnv (Ok "/srv/ftp")
    (fun p =>
       if String.eqb p "/srv/ftp/motd.txt" then Ok (mkFileInfo false true)
       else if String.eqb p "/srv/ftp" || String.eqb p "/tmp/"
               || String.eqb p "/tmp" || String.eqb p "/"
       then Ok (mkFileInfo true false)
       else Err (errorf "no such file or directory"))
    (fun p =>
       if String.eqb p "/srv/ftp/motd.txt" then Ok motd
       else Err (errorf "no such file or directory"))
    (fun p => Ok ("total 0" +:+ String LF ""))
    (Ok (mkListener "[::]:40000"))
    (Ok (mkNetConn "127.0.0.1:50001" None None))
    (fun a => Ok (mkNetConn a None None)).

(** The same environment, except that the connection accepted on the
    data listener comes from another host. *)
Definition intruder : netConn := mkNetConn "10.0.0.9:4000" None None.

Definition hijack_env : env :=
  mkEnv (Getwd sample_env) (Lstat sample_env) (ReadFile sample_env)
    (ls_l sample_env) (Listen sample_env) (Ok intruder) (Dial sample_env).

(** The session of a client at [127.0.0.1:50000], before and after the
    login of [alice]. *)
Definition fresh_session : handler :=
  mkHandler sample_config "127.0.0.1:50000" "" "/srv/ftp"
    (serverPassiveDataConn (mkListener "[::]:40000") "127.0.0.1")
    sample_users false preAuthTable.

Definition alice_session : handler :=
  mkHandler sample_config "127.0.0.1:50000" "alice" "/srv/ftp"
    (serverPassiveDataConn (mkListener "[::]:40000") "127.0.0.1")
    sample_users true loggedInTable.

Definition line (s : string) : input := InLine (s +:+ CRLF).

(** ** The log of received messages *)

(** [logReceive], of the rolled logger of the server and of the control
    connection of the client alike: the text that follows the time stamp.
    The slice [msg[:len(msg)-2]] faults on a message of fewer than two
    bytes. *)
Definition logReceive (msg : string) : outcome string :=
  if strings.len msg - 2 <? 0 then Panic
  else Ret ("Received " +:+ strings.take (Z.to_nat (strings.len msg - 2)) msg).

(** One turn of the loop of [handle] with the logging of [readCommand]:
    a line that was read is logged before it is parsed. *)
Definition turn (i : input) (h : handler) (e : env)
    : outcome (handler * list event * bool) :=
  match i with
  | InLine msg => _ ← logReceive msg; step i h e
  | _ => step i h e
  end.

(** ** The client side of the control connection *)

(** [Command.String]: the line of a command, without its end of line. *)
Definition Command_String (c : Command) : string :=
  if String.eqb (Arugment c) "" then Code c
  else Code c +:+ " " +:+ Arugment c.

(** The bytes that [writeCommand] puts on the control connection. *)
Definition writeCommand (c : Command) : string := Command_String c +:+ CRLF.

(** [bufio.Reader.ReadString] with the delimiter LF on the bytes that the
    connection still holds: the line with its LF and the rest, or nothing
    when no LF comes before the end of the stream. *)
Fixpoint ReadString (s : string) : option (string * string) :=
  match s with
  | "" => None
  | String c s' =>
      if Ascii.eqb c LF then Some (String c "", s')
      else
        match ReadString s' with
        | Some (l, r) => Some (String c l, r)
        | None => None
        end
  end.

(** The regular expressions [^\d{3} .*] and [^\d{3}-.*]: three digits and
    a space, three digits and a dash. *)
Definition singleLineRegex_MatchString (l : string) : bool :=
  match l with
  | String a (String b (String c (String d _))) =>
      is_digit a && is_digit b && is_digit c && Ascii.eqb d " "%char
  | _ => false
  end.

Definition multiLineRegex_MatchString (l : string) : bool :=
  match l with
  | String a (String b (String c (String d _))) =>
      is_digit a && is_digit b && is_digit c && Ascii.eqb d "-"%char
  | _ => false
  end.

(** The loop of [readReply] on a multi-line reply: [line] is what was read
    so far, [ind] the index of its dash and [status] the code before it.
    Every turn reads a line, so the length of the stream bounds the number
    of turns. *)
Fixpoint readReply_loop (fuel : nat) (s line : string) (ind : Z)
    (status : string) : outcome (result Reply) :=
  match fuel with
  | O => Ret (Err (errorf "EOF"))
  | S fuel' =>
      match ReadString s with
      | None => Ret (Err (errorf "EOF"))
      | Some (nextLine, rest) =>
          _ ← logReceive nextLine;
          let line' := line +:+ nextLine in
          if singleLineRegex_MatchString nextLine
             && String.eqb (strings.take 3 nextLine) status
          then
            Ret (Ok (newReply status
                       (net.slice line' ind (strings.len line' - 1))))
          else readReply_loop fuel' rest line' ind status
      end
  end.

(** [readReply] on the bytes [s] that the server sends. *)
Definition readReply (s : string) : outcome (result Reply) :=
  match ReadString s with
  | None => Ret (Err (errorf "EOF"))
  | Some (line, rest) =>
      _ ← logReceive line;
      if singleLineRegex_MatchString line then
        let ind := strings.IndexByte line " "%char in
        Ret (Ok (newReply (net.slice line 0 ind)
                   (net.slice line (ind + 1) (strings.len line - 1))))
      else if multiLineRegex_MatchString line then
        let ind := strings.IndexByte line "-"%char in
        let status := net.slice line 0 ind in
        readReply_loop (String.length rest) rest line ind status
      else
        Ret (Err (errorf "a malformed response was recieved from the server"))
  end.

(** [parsePASVString] and [parseEPSVString]: what stands between the first
    [(] and the first [)] of a reply message.  The slice faults when the
    [)] comes first. *)
Definition parsePASVString (msg : string) : outcome (result string) :=
  let strt := strings.IndexByte msg "("%char in
  let end' := strings.IndexByte msg ")"%char in
  if (strt =? -1) || (end' =? -1)
  then Ret (Err (errorf ("Invalid PASV message: " +:+ msg)))
  else if end' <? strt + 1 then Panic
  else Ret (hostPortToAddr (net.slice msg (strt + 1) end')).

Definition parseEPSVString (msg : string) : outcome (result string) :=
  let strt := strings.IndexByte msg "("%char in
  let end' := strings.IndexByte msg ")"%char in
  if (strt =? -1) || (end' =? -1)
  then Ret (Err (errorf ("Invalid EPSV message: " +:+ msg)))
  else if end' <? strt + 1 then Panic
  else Ret (Ok (strings.Trim (net.slice msg (strt + 1) end') "|")).

(** ** The users file *)

(** The loop of [StartServer] over the users file: a line made of two
    fields separated by one space binds the first to the second; other
    lines are passed over. *)
Definition parseUsers (u : string) : gmap string string :=
  fold_left
    (fun users' l =>
       match strings.Split l " "%char with
       | [name; pass] => <[name := pass]> users'
       | _ => users'
       end)
    (strings.Split u LF) ∅.

(** The continuation lines of a multi-line reply as [Reply.String] lays
    them out: a TAB, the text, CRLF. *)
Definition continuation_lines (fields : list string) : string :=
  fold_right (fun f s => String TAB f +:+ CRLF +:+ s) "" fields.

(** The loop of [handle] with the logging of [readCommand]: [loop] with
    [turn] in the place of [step]. *)
Fixpoint serve (ins : list (input * env)) (h : handler)
    : outcome (handler * list event) :=
  match ins with
  | [] => Ret (h, [])
  | (i, e) :: ins' =>
      '(h1, evs, continue) ← turn i h e;
      if continue : bool then '(h2, evs') ← serve ins' h1; Ret (h2, evs ++ evs')
      else Ret (h1, evs)
  end.

(** The sample environment, except that no listener can be opened. *)
Definition deaf_env : env :=
  mkEnv (Getwd sample_env) (Lstat sample_env) (ReadFile sample_env)
    (ls_l sample_env) (Err (errorf "listen: address already in use"))
    (Accept sample_env) (Dial sample_env).

(** The session that [newHandler] builds in that environment. *)
Definition deaf_session : handler :=
  mkHandler sample_config "127.0.0.1:50000" "" "/srv/ftp" noDataConn
    sample_users false preAuthTable.


(** A users file: one line [name pass] for each pair, in order. *)
Definition users_file (pairs : list (string * string)) : string :=
  fold_right (fun '(name, pass) s => name +:+ " " +:+ pass +:+ String LF s)
    "" pairs.

(** The address that the client's [initPassiveDataConn] dials, from the
    message [msg] that [CommandEPSV] (extended) or [CommandPASV] returned
    and the address [remoteAddr] of the server. *)
Definition Client_initPassiveDataConn_addr (extended : bool)
    (remoteAddr msg : string) : outcome (result string) :=
  if extended then
    r ← parseEPSVString msg;
    match r with
    | Err err => Ret (Err err)
    | Ok port' =>
        match net.SplitHostPort remoteAddr with
        | None => Ret (Err (errorf "address error"))
        | Some (host, _) => Ret (Ok (net.JoinHostPort host port'))
        end
    end
  else Ret (hostPortToAddr msg).

(** The command that the client's [issuePortCommand] sends for the
    listener at [host] and [port'], or the error it returns before anything
    is sent. *)
Definition issuePortCommand (extended : bool) (host port' : string)
    : result Command :=
  match net.ParseIP host with
  | [] => Err (errorf ("unable to parse IP address: " +:+ host))
  | ip =>
      if match net.To4 ip with [] => false | _ :: _ => true end
         && negb extended
      then
        match getPORTString host port' with
        | Err err => Err err
        | Ok portArg => Ok (newCommand CommandPORT portArg)
        end
      else
        match getEPRTString host port' with
        | Err err => Err err
        | Ok eprtArg => Ok (newCommand CommandEPRT eprtArg)
        end
  end.

(** [has_blank_line s]: some line of [s] is a bare LF, that is [s] starts
    with LF or has two LF in a row. *)
Fixpoint blank_line_from (after_LF : bool) (s : string) : bool :=
  match s with
  | "" => false
  | String c s' =>
      if Ascii.eqb c LF then after_LF || blank_line_from true s'
      else blank_line_from false s'
  end.

Definition has_blank_line (s : string) : bool := blank_line_from true s.

(** ** Proof automation *)

(** Unfolds the handler methods and follows every branch. *)
Ltac unfold_handlers :=
  unfold call, HandleUSER, HandlePASS, HandleHELP, HandlePWD, HandleCDUP,
    HandleCWD, HandlePORT, HandleEPRT, HandlePASV, HandleEPSV, HandleLIST,
    HandleRETR, HandleQUIT, writeError530NotLoggedIn, writeError501Args,
    writeError550FileAction, writeError421Server, initPassiveDataConn,
    initActiveDataConn, after, writeReply, write, mbind, outcome_bind in *.

Ltac branches := repeat case_match; simplify_eq/=.

(** * Properties *)

(** ** The library models on examples *)

Example Clean_dots : path.Clean "/a/b/../c/./d//" = "/a/c/d".
Proof. reflexivity. Qed.
Example Clean_above_root : path.Clean "/.." = "/".
Proof. reflexivity. Qed.
Example Clean_relative : path.Clean "a/../../b" = "../b".
Proof. reflexivity. Qed.
Example Clean_empty_result : path.Clean "a/.." = ".".
Proof. reflexivity. Qed.
Example Clean_dotted_names : path.Clean "/a/..b/...//x/.." = "/a/..b/...".
Proof. reflexivity. Qed.
Example Join_parent : path.Join "/home" "../etc" = "/etc".
Proof. reflexivity. Qed.

Example Sprintf_d_port : fmt.Sprintf_d 65535 = "65535".
Proof. reflexivity. Qed.
Example Sprintf_d_zero : fmt.Sprintf_d 0 = "0".
Proof. reflexivity. Qed.
Example Sprintf_d_negative : fmt.Sprintf_d (-70) = "-70".
Proof. reflexivity. Qed.
Example Sscanf_prefix : fmt.Sscanf_d_uint 16 " 300x" = Some 300.
Proof. reflexivity. Qed.
Example Sscanf_overflow : fmt.Sscanf_d_uint 16 "70000" = None.
Proof. reflexivity. Qed.
Example Sscanf_no_digit : fmt.Sscanf_d_uint 16 "x" = None.
Proof. reflexivity. Qed.
Example Sscanf_signed : fmt.Sscanf_d_int "-12" = Some (-12).
Proof. reflexivity. Qed.

Example Trim_bars : strings.Trim "||a|b||" "|" = "a|b".
Proof. reflexivity. Qed.
Example Trim_CRLF : strings.Trim ("PWD" +:+ CRLF) CRLF = "PWD".
Proof. reflexivity. Qed.
Example Split_empty_fields : strings.Split "a,,b" ","%char = ["a"; ""; "b"].
Proof. reflexivity. Qed.
Example Split_empty : strings.Split "" ","%char = [""].
Proof. reflexivity. Qed.

Example ParseIP_v4 :
  net.ParseIP "1.2.3.4" = [0; 0; 0; 0; 0; 0; 0; 0; 0; 0; 255; 255; 1; 2; 3; 4].
Proof. reflexivity. Qed.
Example ParseIP_loopback : net.ParseIP "::1" = net.IPv6loopback.
Proof. reflexivity. Qed.
Example ParseIP_link_local :
  net.ParseIP "fe80::1" = [254; 128; 0; 0; 0; 0; 0; 0; 0; 0; 0; 0; 0; 0; 0; 1].
Proof. reflexivity. Qed.
Example ParseIP_embedded_v4 :
  net.ParseIP "1:2:3:4:5:6:1.2.3.4"
  = [0; 1; 0; 2; 0; 3; 0; 4; 0; 5; 0; 6; 1; 2; 3; 4].
Proof. reflexivity. Qed.
Example ParseIP_trailing_ellipsis :
  net.ParseIP "1:2:3:4:5:6:7::"
  = [0; 1; 0; 2; 0; 3; 0; 4; 0; 5; 0; 6; 0; 7; 0; 0].
Proof. reflexivity. Qed.
Example ParseIP_too_long : net.ParseIP "1:2:3:4:5:6:7:8:9" = [].
Proof. reflexivity. Qed.
Example ParseIP_two_ellipses : net.ParseIP "1::2::3" = [].
Proof. reflexivity. Qed.
Example ParseIP_zone : net.ParseIP "fe80::1%eth0" = [].
Proof. reflexivity. Qed.
Example ParseIP_leading_zero : net.ParseIP "01.2.3.4" = [].
Proof. reflexivity. Qed.
Example ParseIP_host_port : net.ParseIP "[::]:1234" = [].
Proof. reflexivity. Qed.
Example To4_loopback : net.To4 (net.ParseIP "127.0.0.1") = [127; 0; 0; 1].
Proof. reflexivity. Qed.
Example To4_v6 : net.To4 (net.ParseIP "::1") = [].
Proof. reflexivity. Qed.

Example SplitHostPort_v6 : net.SplitHostPort "[::1]:80" = Some ("::1", "80").
Proof. reflexivity. Qed.
Example SplitHostPort_v4 :
  net.SplitHostPort "1.2.3.4:80" = Some ("1.2.3.4", "80").
Proof. reflexivity. Qed.
Example SplitHostPort_no_port : net.SplitHostPort "1.2.3.4" = None.
Proof. reflexivity. Qed.
Example SplitHostPort_colons : net.SplitHostPort "::1" = None.
Proof. reflexivity. Qed.

Example Reply_String_multi_line :
  Reply_String (newReply "214" ("a" +:+ String LF "b"))
  = "214-" +:+ CRLF +:+ String TAB "a" +:+ CRLF +:+ String TAB "b" +:+ CRLF
    +:+ "214 Erik's FTP Server".
Proof. reflexivity. Qed.
Example getPORTString_sample :
  getPORTString "127.0.0.1" "1024" = Ok "127,0,0,1,4,0".
Proof. reflexivity. Qed.
Example hostPortToAddr_sample :
  hostPortToAddr "127,0,0,1,4,0" = Ok "127.0.0.1:1024".
Proof. reflexivity. Qed.
Example getEPRTString_v6 : getEPRTString "fe80::1" "80" = Ok "|2|fe80::1|80|".
Proof. reflexivity. Qed.
Example parseEPRTArg_v6 :
  parseEPRTArg "|2|fe80::1|80|" = Ret (Ok "[fe80::1]:80").
Proof. reflexivity. Qed.
Example parseCommand_lower_case :
  parseCommand ("retr a b" +:+ CRLF) = Ok (newCommand "retr" "a b").
Proof. reflexivity. Qed.
Example PASV_always_421 :
  step (line "PASV") alice_session sample_env
  = Ret (alice_session,
         [EvListen; EvReply (newReply "421" "PASV failed, use EPSV.")], true).
Proof. vm_compute. reflexivity. Qed.
Example EPSV_sample :
  step (line "EPSV") alice_session sample_env
  = Ret (alice_session,
         [EvListen;
          EvReply (newReply "229" "Entering Extended Passive Mode (|||40000|).")],
         true).
Proof. vm_compute. reflexivity. Qed.

(** ** Splitting and trimming *)

Lemma append_nil_l (s : string) : "" +:+ s = s.
Proof. reflexivity. Qed.

Lemma append_cons (c : ascii) (s t : string) :
  String c s +:+ t = String c (s +:+ t).
Proof. reflexivity. Qed.

Lemma append_nil_r (s : string) : s +:+ "" = s.
Proof.
  induction s as [|c s IH]; [reflexivity |]. by rewrite append_cons, IH.
Qed.

Lemma append_assoc (a b c : string) : (a +:+ b) +:+ c = a +:+ (b +:+ c).
Proof.
  induction a as [|x a IH]; [reflexivity |].
  by rewrite !append_cons, IH.
Qed.

Lemma Split_no_sep s sep : strings.mem sep s = false -> strings.Split s sep = [s].
Proof.
  induction s as [|c s IH]; [reflexivity |]. cbn [strings.mem strings.Split].
  intros H. apply orb_false_iff in H as [Hc Hs].
  rewrite Ascii.eqb_sym, Hc, (IH Hs). reflexivity.
Qed.

Lemma Split_app s t sep :
  strings.mem sep s = false ->
  strings.Split (s +:+ String sep t) sep = s :: strings.Split t sep.
Proof.
  induction s as [|c s IH]; cbn [strings.mem].
  - intros _. rewrite append_nil_l. cbn [strings.Split].
    by rewrite Ascii.eqb_refl.
  - intros H. apply orb_false_iff in H as [Hc Hs].
    rewrite append_cons. cbn [strings.Split].
    rewrite Ascii.eqb_sym, Hc, (IH Hs). reflexivity.
Qed.

(** ** The dispatch tables *)

Lemma loggedIn_over_preAuth :
  commands (initCommandTableLoggedIn (set_commands preAuthTable blank))
  = loggedInTable.
Proof. vm_compute. reflexivity. Qed.

Lemma loggedIn_over_loggedIn :
  commands (initCommandTableLoggedIn (set_commands loggedInTable blank))
  = loggedInTable.
Proof. vm_compute. reflexivity. Qed.

Lemma preAuth_lookup code :
  needs_login code -> preAuthTable !! code = Some F_writeError530NotLoggedIn.
Proof.
  intros (Hin & HU & HP & HH & HQ).
  unfold recognized in Hin. simpl in Hin.
  repeat (destruct Hin as [<- | Hin]; [first [done | by vm_compute] |]).
  destruct Hin.
Qed.

(** Only a successful [PASS] touches the logged-in flag and the table; it
    sets the flag and installs the logged-in table. *)
Lemma call_flag f arg h e h' evs :
  call f arg h e = Ret (h', evs) ->
  (isLoggedIn h' = isLoggedIn h /\ commands h' = commands h)
  \/ (f = F_HandlePASS /\ users h !! username h = Some arg
      /\ username h <> "" /\ isLoggedIn h' = true
      /\ commands h' = commands (initCommandTableLoggedIn h)
      /\ evs = [EvReply (newReply "230" "Login successful.")]).
Proof.
  intros H. destruct f; unfold_handlers; branches; auto.
  right. repeat split; auto.
  - match goal with
    | H : negb (String.eqb arg ?s) = false |- _ =>
        apply negb_false_iff, String.eqb_eq in H; by subst
    end.
  - intros E. rewrite E in *. discriminate.
Qed.

Lemma initCommandTableLoggedIn_table h :
  table_ok h -> commands (initCommandTableLoggedIn h) = loggedInTable.
Proof.
  unfold table_ok, initCommandTableLoggedIn. simpl. intros ->.
  destruct (isLoggedIn h); vm_compute; reflexivity.
Qed.

Lemma newHandler_table conn' c users' e h evs :
  newHandler conn' c users' e = (Ok h, evs) ->
  table_ok h /\ isLoggedIn h = false.
Proof.
  unfold newHandler, table_ok. intros H.
  unfold_handlers; branches; split; reflexivity.
Qed.

Lemma dispatch_table cmd h e h' evs b :
  table_ok h -> dispatch cmd h e = Ret (h', evs, b) -> table_ok h'.
Proof.
  intros Hok H. unfold dispatch in H.
  destruct (String.eqb _ "QUIT").
  { unfold_handlers. by simplify_eq. }
  destruct (commands h !! _) as [f|]; [|by simplify_eq].
  destruct (call f (Arugment cmd) h e) as [[h1 evs1]|] eqn:Hc;
    unfold mbind, outcome_bind in H; simplify_eq.
  apply call_flag in Hc as [[Hl Ht] | (_ & _ & _ & Hl & Ht & _)];
    unfold table_ok in *.
  - by rewrite Hl, Ht.
  - rewrite Hl, Ht. by apply initCommandTableLoggedIn_table.
Qed.

Lemma step_table i h e h' evs b :
  table_ok h -> step i h e = Ret (h', evs, b) -> table_ok h'.
Proof.
  intros Hok H. destruct i; simpl in H; try by simplify_eq.
  destruct (parseCommand msg); [|by simplify_eq].
  eauto using dispatch_table.
Qed.

Lemma reachable_table h : reachable h -> table_ok h.
Proof.
  induction 1 as [? ? ? ? ? ? Hn | ? ? ? ? ? _ IH Hs].
  - by apply newHandler_table in Hn as [? _].
  - eauto using step_table.
Qed.

(** C1.  In a session that is not logged in, dispatching a recognized
    command other than USER, PASS, HELP and QUIT leaves the session as it
    is, goes on with the loop and writes exactly one reply, whose status
    code is 530; so 530 is the only reply such a command can get. *)
Theorem preauth_dispatch_530 h code arg e :
  reachable h -> isLoggedIn h = false -> needs_login code ->
  exists r,
    dispatch (newCommand code arg) h e = Ret (h, [EvReply r], true)
    /\ Status r = "530".
Proof.
  intros Hr Hl Hc.
  pose proof (reachable_table h Hr) as Ht. unfold table_ok in Ht.
  rewrite Hl in Ht.
  pose proof (preAuth_lookup code Hc) as Hlk.
  destruct Hc as (Hin & _ & _ & _ & HQ).
  exists (newReply "530" "Log in with USER and PASS first.").
  split; [|reflexivity].
  assert (strings.ToUpper code = code) as Hup.
  { unfold recognized in Hin. simpl in Hin.
    repeat (destruct Hin as [<- | Hin]; [reflexivity |]). destruct Hin. }
  unfold dispatch. cbn [Code Arugment]. rewrite Hup.
  destruct (String.eqb code "QUIT") eqn:E.
  { apply String.eqb_eq in E. by destruct HQ. }
  rewrite Ht, Hlk. reflexivity.
Qed.

(** ** The sample sessions are sessions of the server *)

Lemma fresh_session_new :
  newHandler "127.0.0.1:50000" sample_config sample_users sample_env
  = (Ok fresh_session, [EvListen]).
Proof. vm_compute. reflexivity. Qed.

Lemma alice_session_login :
  loop [(line "USER alice", sample_env); (line "PASS secret", sample_env)]
    fresh_session
  = Ret (alice_session,
         [EvReply (newReply "331"
            "Username alice accepted, please provide the password.");
          EvReply (newReply "230" "Login successful.")]).
Proof. vm_compute. reflexivity. Qed.

Lemma fresh_session_reachable : reachable fresh_session.
Proof. eapply reachable_new, fresh_session_new. Qed.

Lemma alice_session_reachable : reachable alice_session.
Proof.
  eapply reachable_step with (i := line "PASS secret") (e := sample_env);
    [eapply reachable_step with (i := line "USER alice") (e := sample_env);
       [apply fresh_session_reachable |] |];
    vm_compute; reflexivity.
Qed.

Lemma PWD_needs_login : needs_login CommandPWD.
Proof. unfold needs_login, recognized. simpl. intuition discriminate. Qed.

Lemma preauth_dispatch_530_witness :
  reachable fresh_session /\ isLoggedIn fresh_session = false
  /\ needs_login CommandPWD
  /\ exists r,
       dispatch (newCommand CommandPWD "") fresh_session sample_env
       = Ret (fresh_session, [EvReply r], true)
       /\ Status r = "530".
Proof.
  split; [apply fresh_session_reachable |].
  split; [reflexivity |].
  split; [apply PWD_needs_login |].
  apply (preauth_dispatch_530 fresh_session CommandPWD "" sample_env);
    [apply fresh_session_reachable | reflexivity | apply PWD_needs_login].
Defined.

(** ** The logged-in flag *)

Lemma table_PASS_code (t : gmap string handleFunc) code :
  t = preAuthTable \/ t = loggedInTable ->
  t !! code = Some F_HandlePASS -> code = CommandPASS.
Proof.
  intros [-> | ->]; unfold preAuthTable, loggedInTable, initCommandTable,
    initCommandTableLoggedIn, set_commands, blank; cbn [commands]; intros H;
    repeat (rewrite lookup_insert in H; case_decide; [by simplify_eq |]);
    by rewrite lookup_empty in H.
Qed.

Lemma table_ok_cases h :
  table_ok h -> commands h = preAuthTable \/ commands h = loggedInTable.
Proof. unfold table_ok. destruct (isLoggedIn h); auto. Qed.

(** C2, as the code has it.  A USER command always answers with one reply
    and keeps the logged-in flag and the dispatch table as they are: it
    never resets them.  Every turn of the command loop either keeps the flag
    and the table, or is a PASS command with the password of the current
    user, which sets the flag and is answered with 230; so the flag is set
    by a successful PASS only, and once set it stays. *)
Theorem login_state_changes_by_PASS_only h u i e h' evs b :
  reachable h ->
  step i h e = Ret (h', evs, b) ->
  (exists hu r,
     HandleUSER u h = Ret (hu, [EvReply r])
     /\ isLoggedIn hu = isLoggedIn h /\ commands hu = commands h)
  /\ ((isLoggedIn h' = isLoggedIn h /\ commands h' = commands h)
      \/ (exists msg cmd,
            i = InLine msg /\ parseCommand msg = Ok cmd
            /\ strings.ToUpper (Code cmd) = CommandPASS
            /\ users h !! username h = Some (Arugment cmd)
            /\ isLoggedIn h' = true
            /\ evs = [EvReply (newReply "230" "Login successful.")])).
Proof.
  intros Hr Hs. split.
  { unfold HandleUSER, writeError501Args, writeReply.
    branches; eauto 10. }
  pose proof (table_ok_cases h (reachable_table h Hr)) as Ht.
  destruct i as [msg| | |]; simpl in Hs; try (simplify_eq; auto; fail).
  destruct (parseCommand msg) as [cmd|] eqn:Hp; [|simplify_eq; auto].
  unfold dispatch in Hs.
  destruct (String.eqb _ "QUIT").
  { unfold_handlers. simplify_eq. auto. }
  destruct (commands h !! _) as [f|] eqn:Hf; [|simplify_eq; auto].
  destruct (call f (Arugment cmd) h e) as [[h1 evs1]|] eqn:Hc;
    unfold mbind, outcome_bind in Hs; simplify_eq.
  apply call_flag in Hc as [? | (-> & Hu & _ & Hl & _ & ->)]; [auto|].
  right. exists msg, cmd. repeat split; auto.
  eapply table_PASS_code; eauto.
Qed.

(** C2 fails as it is stated: in the session where alice is logged in, a
    USER command for another name is answered with 331 and leaves the
    session logged in, and the PWD command that follows is served. *)
Lemma USER_does_not_reset_login :
  reachable alice_session
  /\ step (line "USER bob") alice_session sample_env
     = Ret (set_username "bob" alice_session,
            [EvReply (newReply "331"
               "Username bob accepted, please provide the password.")],
            true)
  /\ isLoggedIn (set_username "bob" alice_session) = true
  /\ step (line "PWD") (set_username "bob" alice_session) sample_env
     = Ret (set_username "bob" alice_session,
            [EvReply (newReply "257"
               (String DQUOTE "/srv/ftp" +:+ String DQUOTE ""
                +:+ " is the current directory."))],
            true).
Proof.
  split; [apply alice_session_reachable |].
  repeat split; vm_compute; reflexivity.
Qed.

Lemma login_state_changes_by_PASS_only_witness :
  reachable fresh_session
  /\ step (line "USER alice") fresh_session sample_env
     = Ret (set_username "alice" fresh_session,
            [EvReply (newReply "331"
               "Username alice accepted, please provide the password.")],
            true)
  /\ (exists hu r,
        HandleUSER "bob" fresh_session = Ret (hu, [EvReply r])
        /\ isLoggedIn hu = isLoggedIn fresh_session
        /\ commands hu = commands fresh_session)
  /\ ((isLoggedIn (set_username "alice" fresh_session)
       = isLoggedIn fresh_session
       /\ commands (set_username "alice" fresh_session)
          = commands fresh_session)
      \/ (exists msg cmd,
            line "USER alice" = InLine msg /\ parseCommand msg = Ok cmd
            /\ strings.ToUpper (Code cmd) = CommandPASS
            /\ users fresh_session !! username fresh_session
               = Some (Arugment cmd)
            /\ isLoggedIn (set_username "alice" fresh_session) = true
            /\ [EvReply (newReply "331"
                  "Username alice accepted, please provide the password.")]
               = [EvReply (newReply "230" "Login successful.")])).
Proof.
  assert (step (line "USER alice") fresh_session sample_env
          = Ret (set_username "alice" fresh_session,
                 [EvReply (newReply "331"
                    "Username alice accepted, please provide the password.")],
                 true)) as Hs by (vm_compute; reflexivity).
  split; [apply fresh_session_reachable |].
  split; [exact Hs |].
  exact (login_state_changes_by_PASS_only fresh_session "bob"
           (line "USER alice") sample_env _ _ _ fresh_session_reachable Hs).
Defined.

(** ** The passive data connection *)

(** C3.  After [initPassiveDataConn] the data connection is a passive one
    that holds the new listener and the host of the control connection's
    peer.  [write] on it returns (it does not fault) and accepts exactly once,
    on that listener; and when the accepted connection comes from a host
    other than the recorded one, [write] returns an error and no byte is
    written on any data connection. *)
Theorem passive_write_checks_peer h e h' addr evs0 msg e' :
  initPassiveDataConn h e = (h', Ok addr, evs0) ->
  exists ln err evs,
    dataConn h' = serverPassiveDataConn ln (control_peer_host h)
    /\ write (dataConn h') msg e' = Ret (err, evs)
    /\ accepts evs = [ln]
    /\ forall c,
         Accept e' = Ok c -> peer_host c <> Some (control_peer_host h) ->
         is_Some err /\ data_written evs = [].
Proof.
  unfold initPassiveDataConn. intros H.
  destruct (Listen e) as [ln|]; simplify_eq.
  exists ln. cbn [dataConn set_dataConn write].
  unfold passive_write, peer_host.
  destruct (Accept e') as [c|err].
  - destruct (net.SplitHostPort (peerAddr c)) as [[dip prt]|] eqn:Hsp.
    + destruct (String.eqb dip (control_peer_host h)) eqn:Heq; cbn [negb].
      * apply String.eqb_eq in Heq. subst dip.
        destruct (writeErr c); eexists _, _;
          (split; [reflexivity |]); (split; [reflexivity |]);
          (split; [reflexivity |]); intros c' Hc' Hne; simplify_eq;
          rewrite Hsp in Hne; by destruct Hne.
      * eexists _, _. do 3 (split; [reflexivity |]).
        intros _ _ _. split; [by eexists | reflexivity].
    + eexists _, _. do 3 (split; [reflexivity |]).
      intros _ _ _. split; [by eexists | reflexivity].
  - eexists _, _. do 3 (split; [reflexivity |]). intros c Hc. discriminate.
Qed.

Lemma passive_write_checks_peer_witness :
  initPassiveDataConn fresh_session sample_env
  = (fresh_session, Ok "[::]:40000", [EvListen])
  /\ Accept hijack_env = Ok intruder
  /\ peer_host intruder <> Some (control_peer_host fresh_session)
  /\ exists ln err evs,
       dataConn fresh_session = serverPassiveDataConn ln "127.0.0.1"
       /\ write (dataConn fresh_session) motd hijack_env = Ret (err, evs)
       /\ accepts evs = [ln] /\ is_Some err /\ data_written evs = [].
Proof.
  assert (initPassiveDataConn fresh_session sample_env
          = (fresh_session, Ok "[::]:40000", [EvListen])) as Hi
    by reflexivity.
  assert (peer_host intruder <> Some (control_peer_host fresh_session)) as Hne
    by (vm_compute; discriminate).
  split; [exact Hi |]. split; [reflexivity |]. split; [exact Hne |].
  destruct (passive_write_checks_peer fresh_session sample_env fresh_session
              "[::]:40000" [EvListen] motd hijack_env Hi)
    as (ln & err & evs & Hd & Hw & Ha & Hm).
  destruct (Hm intruder eq_refl Hne) as [He Hn].
  exists ln, err, evs. auto.
Defined.

(** ** RETR and the newline conversion *)

(** On a text without a CR directly before an LF, what the handlers send
    is the conversion of bare LFs. *)
Lemma Replace_bare_LF_from (s : string) (prev : bool) :
  has_CRLF s = false ->
  (if prev then match s with String c _ => Ascii.eqb c LF | "" => false end
   else false) = false ->
  strings.Replace s LF CRLF = bare_LF_to_CRLF_from prev s.
Proof.
  revert prev. induction s as [|c s IH]; intros prev Hno Hp; [reflexivity |].
  cbn [has_CRLF] in Hno. apply orb_false_iff in Hno as [Hc Hno].
  cbn [strings.Replace bare_LF_to_CRLF_from].
  destruct (Ascii.eqb c LF) eqn:Hlf.
  - destruct prev; [discriminate |]. cbn [negb andb].
    rewrite (IH false Hno eq_refl). reflexivity.
  - cbn [andb]. f_equal. apply IH; [exact Hno |].
    destruct (Ascii.eqb c CR); [|reflexivity]. exact Hc.
Qed.

Lemma Replace_bare_LF s :
  has_CRLF s = false -> strings.Replace s LF CRLF = bare_LF_to_CRLF s.
Proof. intros H. by apply Replace_bare_LF_from. Qed.

(** [write] on a data connection that is set up returns; it writes the
    message at most once, and exactly once when it reports no error; it
    writes no reply. *)
Lemma write_returns d msg e :
  d <> noDataConn ->
  exists err evs,
    write d msg e = Ret (err, evs)
    /\ replies evs = []
    /\ (data_written evs = [msg] \/ is_Some err /\ data_written evs = []).
Proof.
  intros Hd. destruct d as [|address|ln localAddr]; [done | |];
    unfold write, active_write, passive_write; branches;
    eexists _, _; (split; [reflexivity |]); cbn; eauto.
Qed.

(** What RETR does with a regular file that can be read, on a data
    connection that is set up: the 150 reply, then the write of the whole
    file with every LF replaced by CRLF, then 226 when the write reports no
    error and 451 when it reports one. *)
Lemma HandleRETR_regular_file file h e data :
  let p := if path.IsAbs file then file else path.Join (dir h) file in
  Lstat e p = Ok (mkFileInfo false true) ->
  ReadFile e p = Ok data ->
  dataConn h <> noDataConn ->
  exists err evs,
    write (dataConn h) (strings.Replace data LF CRLF) e = Ret (err, evs)
    /\ HandleRETR file h e
       = Ret (h, [EvReply (newReply "150" "Here comes the file.")] ++ evs
                 ++ [EvReply
                       (match err with
                        | Some _ => newReply "451" "Error occurred in transfer."
                        | None => newReply "226" "File transfered successfully."
                        end)]).
Proof.
  intros p Hst Hrd Hdc. unfold HandleRETR.
  replace (if negb (path.IsAbs file) then path.Join (dir h) file else file)
    with p by (subst p; by destruct (path.IsAbs file)).
  rewrite Hst, Hrd. cbn [IsRegular negb].
  destruct (write_returns (dataConn h) (strings.Replace data LF CRLF) e Hdc)
    as (err & evs & Hw & _).
  exists err, evs. split; [exact Hw |]. rewrite Hw.
  unfold after, writeReply, mbind, outcome_bind. by destruct err.
Qed.

(** C4 fails on the code for a file that already has a CRLF: the file
    [motd] is the three bytes [a CR LF]; the specified conversion leaves it
    as it is, while RETR sends the four bytes [a CR CR LF] between its 150
    and 226 replies. *)
Theorem RETR_doubles_CR :
  reachable alice_session
  /\ Lstat sample_env "/srv/ftp/motd.txt" = Ok (mkFileInfo false true)
  /\ ReadFile sample_env "/srv/ftp/motd.txt" = Ok motd
  /\ bare_LF_to_CRLF motd = motd
  /\ step (line "RETR motd.txt") alice_session sample_env
     = Ret (alice_session,
            [EvReply (newReply "150" "Here comes the file.");
             EvAccept (mkListener "[::]:40000");
             EvDataWrite (mkNetConn "127.0.0.1:50001" None None)
               ("a" +:+ String CR CRLF);
             EvDataClose (mkNetConn "127.0.0.1:50001" None None);
             EvReply (newReply "226" "File transfered successfully.")],
            true)
  /\ "a" +:+ String CR CRLF <> bare_LF_to_CRLF motd.
Proof.
  split; [apply alice_session_reachable |].
  repeat split; try (vm_compute; reflexivity).
  vm_compute. discriminate.
Qed.

(** ** IP literals *)

Lemma all_chars_app P a b :
  all_chars P (a +:+ b) = all_chars P a && all_chars P b.
Proof.
  induction a as [|c a IH]; [reflexivity |].
  rewrite append_cons. cbn [all_chars]. by rewrite IH, andb_assoc.
Qed.

Lemma all_chars_mem P c s :
  P c = false -> all_chars P s = true -> strings.mem c s = false.
Proof.
  intros Hc. induction s as [|d s IH]; [reflexivity |].
  cbn [all_chars strings.mem]. intros H.
  apply andb_true_iff in H as [Hd Hs]. rewrite (IH Hs), orb_false_r.
  destruct (Ascii.eqb c d) eqn:E; [|reflexivity].
  apply Ascii.eqb_eq in E. congruence.
Qed.

Lemma is_digit_ip_char c : is_digit c = true -> ip_char c = true.
Proof.
  unfold is_digit, ip_char, net.hex_val. intros ->. reflexivity.
Qed.

Lemma parseIPv4Fields_chars s prev val digLen fields r :
  net.parseIPv4Fields s prev val digLen fields = Some r ->
  all_chars ip_char s = true.
Proof.
  revert prev val digLen fields.
  induction s as [|c s IH]; intros prev val digLen fields; [reflexivity |].
  cbn [net.parseIPv4Fields all_chars].
  destruct (is_digit c) eqn:Hd.
  - rewrite (is_digit_ip_char c Hd). intros H.
    repeat case_match; simplify_eq; eauto.
  - destruct (Ascii.eqb c ".") eqn:Hdot; [|discriminate].
    apply Ascii.eqb_eq in Hdot. subst c. intros H.
    repeat case_match; simplify_eq; eauto.
Qed.

Lemma hex_group_chars s acc off a o rest :
  net.hex_group s acc off = Some (a, o, rest) ->
  exists pre, s = pre +:+ rest /\ all_chars ip_char pre = true.
Proof.
  revert acc off. induction s as [|c s IH]; intros acc off.
  - cbn. intros [= <- <- <-]. by exists "".
  - cbn [net.hex_group]. destruct (net.hex_val c) as [v|] eqn:Hv.
    + intros H. repeat case_match; simplify_eq.
      destruct (IH _ _ H) as (pre & -> & Hp).
      exists (String c pre). split; [reflexivity |].
      cbn [all_chars]. unfold ip_char at 1. by rewrite Hv.
    + intros [= <- <- <-]. by exists "".
Qed.

Lemma parseIPv6_loop_chars fuel s ip ell rest ip' ell' :
  net.parseIPv6_loop fuel s ip ell = Some (rest, ip', ell') ->
  exists pre, s = pre +:+ rest /\ all_chars ip_char pre = true.
Proof.
  revert s ip ell.
  induction fuel as [|fuel IH]; intros s ip ell; cbn [net.parseIPv6_loop].
  { intros [= <- <- <-]. by exists "". }
  destruct (negb _); [intros [= <- <- <-]; by exists "" |].
  destruct (net.hex_group s 0 0) as [[[acc off] r]|] eqn:Hg; [|discriminate].
  destruct (hex_group_chars _ _ _ _ _ _ Hg) as (pre & -> & Hpre).
  destruct (off =? 0); [discriminate |].
  destruct r as [|c r'].
  { intros [= <- <- <-]. by exists pre. }
  destruct (Ascii.eqb c ".") eqn:Hdot.
  { intros H. repeat case_match; simplify_eq.
    match goal with
    | H : net.parseIPv4 _ = Some _ |- _ =>
        apply parseIPv4Fields_chars in H
    end.
    eexists. split; [symmetry; apply append_nil_r | assumption]. }
  destruct (Ascii.eqb c net.colon) eqn:Hcol; cbn [negb]; [|discriminate].
  apply Ascii.eqb_eq in Hcol. subst c.
  destruct r' as [|c' r'']; [discriminate |].
  assert (all_chars ip_char (pre +:+ ":") = true) as Hpc
    by (rewrite all_chars_app, Hpre; reflexivity).
  destruct (Ascii.eqb c' net.colon) eqn:Hcol'.
  - apply Ascii.eqb_eq in Hcol'. subst c'.
    destruct (0 <=? ell); [discriminate |].
    assert (all_chars ip_char (pre +:+ "::") = true) as Hpcc
      by (rewrite all_chars_app, Hpre; reflexivity).
    destruct r'' as [|c2 r2].
    + intros [= <- <- <-]. exists (pre +:+ "::"). split; [|exact Hpcc].
      by rewrite append_nil_r.
    + intros H. destruct (IH _ _ _ H) as (pre2 & -> & Hp2).
      exists ((pre +:+ "::") +:+ pre2). split.
      * by rewrite !append_assoc.
      * by rewrite all_chars_app, Hpcc, Hp2.
  - intros H. destruct (IH _ _ _ H) as (pre2 & Hs & Hp2).
    exists ((pre +:+ ":") +:+ pre2). split.
    + rewrite !append_assoc. rewrite <- Hs. reflexivity.
    + by rewrite all_chars_app, Hpc, Hp2.
Qed.

Lemma parseIPv6_chars s ip :
  net.parseIPv6 s = Some ip -> all_chars ip_char s = true.
Proof.
  unfold net.parseIPv6.
  destruct (0 <=? strings.IndexByte s "%"); [discriminate |].
  assert (forall s1 ell0,
            (if (ell0 =? 0) && String.eqb s1 "" then Some (net.zeros 16)
             else
               match net.parseIPv6_loop 8 s1 [] ell0 with
               | None => None
               | Some (rest, ip0, ellipsis) =>
                   if negb (String.eqb rest "") then None
                   else
                     if (List.length ip0 <? 16)%nat then
                       if ellipsis <? 0 then None
                       else
                         Some (firstn (Z.to_nat ellipsis) ip0
                               ++ net.zeros (16 - List.length ip0)
                               ++ skipn (Z.to_nat ellipsis) ip0)
                     else if 0 <=? ellipsis then None else Some ip0
               end) = Some ip ->
            all_chars ip_char s1 = true) as Hbody.
  { intros s1 ell0.
    destruct ((ell0 =? 0) && String.eqb s1 "") eqn:E.
    { apply andb_true_iff in E as [_ E]. apply String.eqb_eq in E.
      by subst s1. }
    destruct (net.parseIPv6_loop 8 s1 [] ell0) as [[[rest ip0] ell]|] eqn:Hl;
      [|discriminate].
    destruct (String.eqb rest "") eqn:Hr; cbn [negb]; [|discriminate].
    apply String.eqb_eq in Hr. subst rest. intros _.
    destruct (parseIPv6_loop_chars _ _ _ _ _ _ _ Hl) as (pre & -> & Hp).
    by rewrite append_nil_r. }
  destruct s as [|c1 [|c2 s']]; try apply Hbody.
  destruct (Ascii.eqb c1 net.colon && Ascii.eqb c2 net.colon) eqn:E;
    [|apply Hbody].
  apply andb_true_iff in E as [E1 E2].
  apply Ascii.eqb_eq in E1, E2. subst c1 c2.
  intros H. apply Hbody in H. cbn [all_chars]. by rewrite H.
Qed.

(** A literal that [ParseIP] accepts is made of hexadecimal digits, [.]
    and [:]. *)
Lemma ParseIP_chars host :
  net.ParseIP host <> [] -> all_chars ip_char host = true.
Proof.
  unfold net.ParseIP, net.parseIPv4. intros H.
  destruct (net.first_sep host) as [c|]; [|done].
  destruct (Ascii.eqb c ".").
  - destruct (net.parseIPv4Fields host None 0 0 []) eqn:E; [|done].
    eapply parseIPv4Fields_chars, E.
  - destruct (Ascii.eqb c net.colon); [|done].
    destruct (net.parseIPv6 host) eqn:E; [|done].
    eapply parseIPv6_chars, E.
Qed.


(** ** Trimming an EPRT argument *)

Lemma trimRightBytes_snoc s d cut :
  strings.mem d cut = true ->
  strings.trimRightBytes (s +:+ String d "") cut = strings.trimRightBytes s cut.
Proof.
  intros Hd. induction s as [|c s IH].
  - rewrite append_nil_l. cbn. by rewrite Hd.
  - rewrite append_cons. cbn [strings.trimRightBytes]. by rewrite IH.
Qed.

Lemma trimRightBytes_keep b cut :
  (forall c, strings.mem c b = true -> strings.mem c cut = false) ->
  strings.trimRightBytes b cut = b.
Proof.
  induction b as [|c b IH]; [reflexivity |]. intros H.
  cbn [strings.trimRightBytes]. rewrite IH.
  - destruct b; [|reflexivity].
    rewrite (H c); [reflexivity |]. cbn. by rewrite Ascii.eqb_refl.
  - intros d Hd. apply H. cbn. by rewrite Hd, orb_true_r.
Qed.

Lemma trimRightBytes_app_keep a b cut :
  b <> "" ->
  (forall c, strings.mem c b = true -> strings.mem c cut = false) ->
  strings.trimRightBytes (a +:+ b) cut = a +:+ b.
Proof.
  intros Hb H. induction a as [|c a IH].
  - rewrite append_nil_l. by apply trimRightBytes_keep.
  - rewrite append_cons. cbn [strings.trimRightBytes]. rewrite IH.
    destruct (a +:+ b) eqn:E; [|reflexivity].
    destruct a; [|discriminate]. by rewrite append_nil_l in E.
Qed.

Lemma mem_singleton_false c d s :
  strings.mem d s = false -> strings.mem c s = true ->
  strings.mem c (String d "") = false.
Proof.
  intros Hd Hc. cbn. rewrite orb_false_r.
  destruct (Ascii.eqb c d) eqn:E; [|reflexivity].
  apply Ascii.eqb_eq in E. congruence.
Qed.

(** [parseEPRTArg] on an argument delimited by [|] whose three fields have
    no [|], the first and the last being non-empty. *)
Lemma parseEPRTArg_bar proto addr prt :
  proto <> "" -> prt <> "" ->
  strings.mem "|"%char proto = false -> strings.mem "|"%char addr = false ->
  strings.mem "|"%char prt = false ->
  parseEPRTArg ("|" +:+ proto +:+ "|" +:+ addr +:+ "|" +:+ prt +:+ "|")
  = Ret (if negb (String.eqb proto "1") && negb (String.eqb proto "2")
         then Err errInvalidAddrFamily
         else Ok (net.JoinHostPort addr prt)).
Proof.
  intros Hp Hprt Mp Ma Mprt.
  set (X := proto +:+ String "|"%char (addr +:+ String "|"%char prt)).
  assert ("|" +:+ proto +:+ "|" +:+ addr +:+ "|" +:+ prt +:+ "|"
          = String "|"%char (X +:+ "|")) as ->.
  { subst X. rewrite !(append_cons "|"%char), !append_nil_l.
    by rewrite !append_assoc, !append_cons, !append_assoc. }
  unfold parseEPRTArg.
  change (string_of_byte "|"%char) with "|".
  assert (strings.Trim (String "|"%char (X +:+ "|")) "|" = X) as ->.
  { unfold strings.Trim. change (strings.all_ascii "|") with true. cbv iota.
    rewrite <- append_cons, trimRightBytes_snoc by reflexivity.
    assert (String "|"%char X
            = (String "|"%char (proto +:+ String "|"%char (addr +:+ "|")))
              +:+ prt) as E.
    { subst X. rewrite append_cons. f_equal.
      rewrite !append_assoc, append_cons, append_assoc. reflexivity. }
    rewrite E, trimRightBytes_app_keep;
      [|assumption|intros c Hc; by eapply mem_singleton_false].
    rewrite <- E. cbn [strings.trimLeftBytes strings.mem].
    rewrite Ascii.eqb_refl. cbn [orb].
    subst X. destruct proto as [|p0 proto']; [done |].
    rewrite append_cons. cbn [strings.trimLeftBytes].
    cbn [strings.mem] in Mp. apply orb_false_iff in Mp as [Mp0 _].
    cbn [strings.mem]. rewrite Ascii.eqb_sym, Mp0. reflexivity. }
  subst X. rewrite !Split_app, Split_no_sep by assumption.
  by destruct (negb (String.eqb proto "1") && negb (String.eqb proto "2")).
Qed.

(** ** The EPRT round trip *)

Lemma getEPRTString_valid host port' :
  net.ParseIP host <> [] ->
  getEPRTString host port'
  = Ok ("|" +:+ eprt_proto host +:+ "|" +:+ eprt_host host +:+ "|"
        +:+ port' +:+ "|").
Proof.
  unfold getEPRTString, eprt_proto, eprt_host, is_IPv6_loopback.
  destruct (net.ParseIP host) as [|b ip] eqn:E; [done |]. intros _.
  destruct (net.To4 (b :: ip)); [|reflexivity].
  by destruct (net.IsLoopback (b :: ip)).
Qed.




(** ** PORT arguments *)

(** A number of one byte is printed without a comma and scanned back. *)
Lemma byte_print_scan n :
  0 <= n <= 255 ->
  fmt.Sscanf_d_uint 16 (fmt.Sprintf_d n) = Some n
  /\ strings.mem ","%char (fmt.Sprintf_d n) = false.
Proof.
  intros Hn.
  assert (forallb
            (fun k =>
               match fmt.Sscanf_d_uint 16 (fmt.Sprintf_d (Z.of_nat k)) with
               | Some m => m =? Z.of_nat k
               | None => false
               end
               && negb (strings.mem ","%char (fmt.Sprintf_d (Z.of_nat k))))
            (seq 0 256) = true) as Hall by (vm_compute; reflexivity).
  rewrite forallb_forall in Hall.
  specialize (Hall (Z.to_nat n)).
  rewrite Z2Nat.id in Hall by lia.
  assert (In (Z.to_nat n) (seq 0 256)) as Hin by (apply in_seq; lia).
  apply Hall in Hin. apply andb_true_iff in Hin as [H1 H2].
  destruct (fmt.Sscanf_d_uint 16 (fmt.Sprintf_d n)) as [m|]; [|discriminate].
  apply Z.eqb_eq in H1. subst m.
  apply negb_true_iff in H2. auto.
Qed.

(** C6, as the code has it.  An argument with six comma-separated fields
    whose two port fields are numbers from 0 to 255 is accepted: the first
    four fields are copied as they are into the host [a.b.c.d], with no check
    of their range, and the port is [p1*256+p2].  An argument that does not
    have six fields is rejected with an error. *)
Theorem hostPortToAddr_six_fields a b c d p1 p2 s :
  strings.mem ","%char a = false -> strings.mem ","%char b = false ->
  strings.mem ","%char c = false -> strings.mem ","%char d = false ->
  0 <= p1 <= 255 -> 0 <= p2 <= 255 ->
  hostPortToAddr
    (a +:+ "," +:+ b +:+ "," +:+ c +:+ "," +:+ d +:+ ","
     +:+ fmt.Sprintf_d p1 +:+ "," +:+ fmt.Sprintf_d p2)
  = Ok (net.JoinHostPort (a +:+ "." +:+ b +:+ "." +:+ c +:+ "." +:+ d)
          (fmt.Sprintf_d (p1 * 256 + p2)))
  /\ (List.length (strings.Split s ","%char) = 6%nat
      \/ exists m, hostPortToAddr s = Err (errorf m)).
Proof.
  intros Ha Hb Hc Hd H1 H2. split.
  - destruct (byte_print_scan p1 H1) as [S1 M1].
    destruct (byte_print_scan p2 H2) as [S2 M2].
    unfold hostPortToAddr.
    rewrite !(append_cons ","%char), !append_nil_l.
    rewrite !Split_app, Split_no_sep by assumption.
    rewrite S1, S2. cbn [default from_option]. unfold id.
    change (2 ^ 16) with 65536. rewrite Z.mod_small by lia.
    replace (65535 <? p1 * 256 + p2) with false
      by (symmetry; apply Z.ltb_ge; lia).
    reflexivity.
  - unfold hostPortToAddr.
    destruct (strings.Split s ","%char) as [|? [|? [|? [|? [|? [|? [|? ?]]]]]]];
      eauto.
Qed.

(** C6 fails as it is stated: the first field 999 is not an octet, yet the
    argument is accepted and 999 is copied into the address. *)
Lemma hostPortToAddr_accepts_any_octet :
  hostPortToAddr "999,0,0,1,4,0" = Ok "999.0.0.1:1024"
  /\ fmt.Sscanf_d_uint 16 "999" = Some 999
  /\ ~ 999 <= 255.
Proof. split; [reflexivity | split; [reflexivity | lia]]. Qed.

Lemma hostPortToAddr_six_fields_witness :
  strings.mem ","%char "127" = false /\ strings.mem ","%char "0" = false
  /\ strings.mem ","%char "1" = false
  /\ 0 <= 4 <= 255 /\ 0 <= 0 <= 255
  /\ hostPortToAddr "127,0,0,1,4,0" = Ok "127.0.0.1:1024"
  /\ (List.length (strings.Split "127,0,0,1" ","%char) = 6%nat
      \/ exists m, hostPortToAddr "127,0,0,1" = Err (errorf m)).
Proof.
  assert (0 <= 4 <= 255) as H4 by lia.
  assert (0 <= 0 <= 255) as H0 by lia.
  refine (conj eq_refl (conj eq_refl (conj eq_refl (conj H4 (conj H0 _))))).
  exact (hostPortToAddr_six_fields "127" "0" "0" "1" 4 0 "127,0,0,1"
           eq_refl eq_refl eq_refl eq_refl H4 H0).
Defined.

(** ** EPRT and the address family *)

(** With [|] as the delimiter, a protocol field other than [1] and [2]
    is answered with 522. *)
Lemma HandleEPRT_bar_522 h proto addr prt :
  port (hconfig h) = true ->
  proto <> "" -> prt <> "" -> proto <> "1" -> proto <> "2" ->
  strings.mem "|"%char proto = false -> strings.mem "|"%char addr = false ->
  strings.mem "|"%char prt = false ->
  HandleEPRT ("|" +:+ proto +:+ "|" +:+ addr +:+ "|" +:+ prt +:+ "|") h
  = Ret (h, [EvReply (newReply "522" "Unrecognized address family identifier.")]).
Proof.
  intros Hport Hp Hprt H1 H2 Mp Ma Mprt. unfold HandleEPRT.
  rewrite Hport, parseEPRTArg_bar by assumption. cbn [negb].
  apply String.eqb_neq in H1, H2. rewrite H1, H2. reflexivity.
Qed.

(** C7 fails on the code when the delimiter is not [|]: the argument
    [!3!fe80::1!1234!] has the form of an EPRT argument with delimiter [!]
    and the unknown protocol [3]; [parseEPRTArg] trims the [!] at both ends
    but splits at [|], finds one field instead of three and returns its
    plain error, so the logged-in session with port mode on answers 501 and
    not 522.  With [|] as the delimiter the same request gets 522. *)
Theorem EPRT_other_delimiter_501 :
  reachable alice_session
  /\ port (hconfig alice_session) = true
  /\ parseEPRTArg "!3!fe80::1!1234!"
     = Ret (Err (errorf "invalid EPRT string: !3!fe80::1!1234!"))
  /\ step (line "EPRT !3!fe80::1!1234!") alice_session sample_env
     = Ret (alice_session, [EvReply (newReply "501" "Error in arguments.")],
            true)
  /\ step (line "EPRT |3|fe80::1|1234|") alice_session sample_env
     = Ret (alice_session,
            [EvReply (newReply "522" "Unrecognized address family identifier.")],
            true).
Proof.
  split; [apply alice_session_reachable |].
  repeat split; vm_compute; reflexivity.
Qed.

(** ** Absolute paths *)

Lemma backtrack_ge w out dotdot :
  (dotdot <= w)%nat -> (dotdot <= path.backtrack w out dotdot)%nat.
Proof.
  induction w as [|w IH]; intros H; cbn [path.backtrack]; [lia |].
  destruct ((dotdot <? S w)%nat && _) eqn:E; [|lia].
  apply andb_true_iff in E as [E _]. apply Nat.ltb_lt in E.
  apply IH. lia.
Qed.

Lemma take_rooted w x :
  (1 <= w)%nat ->
  strings.take w (String path.slash x) = String path.slash (strings.take (w - 1) x).
Proof.
  destruct w as [|w]; [lia |]. intros _. cbn [strings.take].
  by replace (S w - 1)%nat with w by lia.
Qed.

(** On a rooted path the buffer of [Clean] always starts with the slash
    that was written first. *)
Lemma clean_loop_rooted fuel p x :
  exists y, path.clean_loop fuel p true (String path.slash x) 1
            = String path.slash y.
Proof.
  revert p x. induction fuel as [|fuel IH]; intros p x;
    cbn [path.clean_loop]; [by eexists |].
  destruct p as [|c p1]; [by eexists |].
  destruct (Ascii.eqb c path.slash); [apply IH |].
  destruct (Ascii.eqb c path.dot && path.at_end p1); [apply IH |].
  destruct (Ascii.eqb c path.dot && _).
  - destruct (1 <? _)%nat eqn:E.
    + rewrite take_rooted; [apply IH |].
      apply backtrack_ge. apply Nat.ltb_lt in E. lia.
    + cbn [negb]. apply IH.
  - unfold path.real_element.
    destruct (path.element (String c p1)) as [el r].
    destruct (_ || _); rewrite ?append_cons; apply IH.
Qed.

Lemma Clean_rooted p : path.IsAbs p = true -> path.IsAbs (path.Clean p) = true.
Proof.
  destruct p as [|c p]; [discriminate |]. cbn [path.IsAbs]. intros Hc.
  unfold path.Clean. rewrite Hc.
  destruct (clean_loop_rooted (String.length (String c p))
              (strings.drop 1 (String c p)) "") as [y Hy].
  change (String path.slash "") with "/" in Hy. rewrite Hy.
  cbn [path.IsAbs]. apply Ascii.eqb_refl.
Qed.

Lemma Join_rooted a b :
  path.IsAbs a = true ->
  path.Join a b = path.Clean (a +:+ "/" +:+ b)
  /\ path.IsAbs (path.Join a b) = true.
Proof.
  intros Ha. destruct a as [|c a]; [discriminate |].
  assert (path.Join (String c a) b = path.Clean (String c a +:+ "/" +:+ b))
    as -> by reflexivity.
  split; [reflexivity |]. apply Clean_rooted.
  rewrite append_cons. exact Ha.
Qed.

(** Only a successful CWD or CDUP changes the directory of the session:
    it is answered with 250 and stores a path that [Lstat] found to be a
    directory, which is the argument as it was given when that is
    absolute, and the join of the old directory and the argument when it
    is not. *)
Lemma call_dir f arg h e h' evs :
  call f arg h e = Ret (h', evs) ->
  dir h' = dir h
  \/ (evs = [EvReply (newReply "250" "Directory change successful.")]
      /\ exists arg' info,
           Lstat e (dir h') = Ok info /\ IsDir info = true
           /\ (path.IsAbs arg' = true /\ dir h' = arg'
               \/ path.IsAbs arg' = false
                  /\ dir h' = path.Join (dir h) arg')).
Proof.
  intros H. destruct f; unfold_handlers;
    try (repeat case_match; simplify_eq; auto; fail).
  - destruct (path.IsAbs arg) eqn:Ha; cbn [negb] in H;
      repeat case_match; simplify_eq; auto; right; (split; [reflexivity |]);
      exists arg; eexists; cbn [dir set_dir]; (split; [eassumption |]);
      (split; [by apply negb_false_iff |]); auto.
  - destruct (negb (String.eqb arg "")); [simplify_eq; auto |].
    change (negb (path.IsAbs "..")) with true in H. cbv iota in H.
    repeat case_match; simplify_eq; auto; right; (split; [reflexivity |]);
      exists ".."; eexists; cbn [dir set_dir]; (split; [eassumption |]);
      (split; [by apply negb_false_iff |]); auto.
Qed.

Lemma step_dir i h e h' evs b :
  step i h e = Ret (h', evs, b) ->
  dir h' = dir h
  \/ (evs = [EvReply (newReply "250" "Directory change successful.")]
      /\ exists arg' info,
           Lstat e (dir h') = Ok info /\ IsDir info = true
           /\ (path.IsAbs arg' = true /\ dir h' = arg'
               \/ path.IsAbs arg' = false
                  /\ dir h' = path.Join (dir h) arg')).
Proof.
  intros H. destruct i as [msg| | |]; simpl in H; try (simplify_eq; auto; fail).
  destruct (parseCommand msg) as [cmd|]; [|simplify_eq; auto].
  unfold dispatch in H.
  destruct (String.eqb _ "QUIT").
  { unfold_handlers. simplify_eq. auto. }
  destruct (commands h !! _) as [f|]; [|simplify_eq; auto].
  destruct (call f (Arugment cmd) h e) as [[h1 evs1]|] eqn:Hc;
    unfold mbind, outcome_bind in H; simplify_eq.
  eapply call_dir, Hc.
Qed.

Lemma step_dir_abs i h e h' evs b :
  path.IsAbs (dir h) = true -> step i h e = Ret (h', evs, b) ->
  path.IsAbs (dir h') = true.
Proof.
  intros Ha H.
  apply step_dir in H as [-> | (_ & arg' & info & _ & _ & [[Hb ->] | [_ ->]])];
    [assumption | assumption | by apply Join_rooted].
Qed.

Lemma runs_to_dir_abs h0 h :
  path.IsAbs (dir h0) = true -> runs_to h0 h -> path.IsAbs (dir h) = true.
Proof. induction 2; eauto using step_dir_abs. Qed.

Lemma newHandler_dir conn' c users' e h evs :
  newHandler conn' c users' e = (Ok h, evs) -> Getwd e = Ok (dir h).
Proof.
  unfold newHandler. intros H.
  destruct (Getwd e); unfold_handlers; repeat case_match; by simplify_eq.
Qed.

(** The entries of the tables for CWD and CDUP. *)
Lemma table_CWD_code h code :
  table_ok h ->
  commands h !! code = Some F_HandleCWD ->
  isLoggedIn h = true /\ code = CommandCWD.
Proof.
  unfold table_ok. intros ->. destruct (isLoggedIn h).
  - unfold loggedInTable, initCommandTableLoggedIn, set_commands, blank;
      cbn [commands]; intros H;
      repeat (rewrite lookup_insert in H; case_decide; [by simplify_eq |]);
      by rewrite lookup_empty in H.
  - unfold preAuthTable, initCommandTable, set_commands, blank;
      cbn [commands]; intros H;
      repeat (rewrite lookup_insert in H; case_decide; [by simplify_eq |]);
      by rewrite lookup_empty in H.
Qed.

Lemma table_CDUP_code h code :
  table_ok h ->
  commands h !! code = Some F_HandleCDUP ->
  isLoggedIn h = true /\ code = CommandCDUP.
Proof.
  unfold table_ok. intros ->. destruct (isLoggedIn h).
  - unfold loggedInTable, initCommandTableLoggedIn, set_commands, blank;
      cbn [commands]; intros H;
      repeat (rewrite lookup_insert in H; case_decide; [by simplify_eq |]);
      by rewrite lookup_empty in H.
  - unfold preAuthTable, initCommandTable, set_commands, blank;
      cbn [commands]; intros H;
      repeat (rewrite lookup_insert in H; case_decide; [by simplify_eq |]);
      by rewrite lookup_empty in H.
Qed.

Lemma runs_to_reachable h0 h : reachable h0 -> runs_to h0 h -> reachable h.
Proof. induction 2; eauto using reachable_step. Qed.

(** What a handler method does to the directory: it keeps it and does not
    answer with the 250 of a directory change, or it is [HandleCWD] on its
    argument, or [HandleCDUP] without argument, which is [HandleCWD] on
    [..], answered with that 250 and storing the path that [Lstat] found to
    be a directory: the argument when it is absolute, else the join of the
    old directory and the argument. *)
Lemma call_cwd f arg h e h' evs :
  call f arg h e = Ret (h', evs) ->
  (dir h' = dir h
   /\ evs <> [EvReply (newReply "250" "Directory change successful.")])
  \/ (exists arg' info,
        (f = F_HandleCWD /\ arg' = arg
         \/ f = F_HandleCDUP /\ arg = "" /\ arg' = "..")
        /\ evs = [EvReply (newReply "250" "Directory change successful.")]
        /\ Lstat e (dir h') = Ok info /\ IsDir info = true
        /\ dir h' = if path.IsAbs arg' then arg'
                    else path.Join (dir h) arg').
Proof.
  intros H. destruct f; unfold_handlers;
    try (repeat case_match; simplify_eq; left;
         (split; [reflexivity | intros E; cbn [app] in E; discriminate E]);
         fail).
  - destruct (path.IsAbs arg) eqn:Ha; cbn [negb] in H;
      repeat case_match; simplify_eq;
      try (left; split; [reflexivity | discriminate]; fail);
      right; exists arg; eexists; (split; [by left |]);
      (split; [reflexivity |]); cbn [dir set_dir];
      (split; [eassumption |]); (split; [by apply negb_false_iff |]);
      by rewrite Ha.
  - destruct (String.eqb arg "") eqn:Earg; cbn [negb] in H;
      [|simplify_eq; left; split; [reflexivity | discriminate]].
    apply String.eqb_eq in Earg. subst arg.
    change (negb (path.IsAbs "..")) with true in H. cbv iota in H.
    repeat case_match; simplify_eq;
      try (left; split; [reflexivity | discriminate]; fail).
    right; exists ".."; eexists; (split; [by right |]);
      (split; [reflexivity |]); cbn [dir set_dir];
      (split; [eassumption |]); (split; [by apply negb_false_iff |]).
    reflexivity.
Qed.

(** The same for a turn of the command loop, where the method is the one
    that the table binds to the code of the command. *)
Lemma step_cwd i h e h' evs b :
  table_ok h ->
  step i h e = Ret (h', evs, b) ->
  (dir h' = dir h
   /\ evs <> [EvReply (newReply "250" "Directory change successful.")])
  \/ (exists msg cmd arg info,
        i = InLine msg /\ parseCommand msg = Ok cmd
        /\ (strings.ToUpper (Code cmd) = CommandCWD /\ arg = Arugment cmd
            \/ strings.ToUpper (Code cmd) = CommandCDUP
               /\ Arugment cmd = "" /\ arg = "..")
        /\ isLoggedIn h = true
        /\ evs = [EvReply (newReply "250" "Directory change successful.")]
        /\ Lstat e (dir h') = Ok info /\ IsDir info = true
        /\ dir h' = if path.IsAbs arg then arg else path.Join (dir h) arg).
Proof.
  intros Ht H. destruct i as [msg| | |]; cbn [step] in H;
    try (simplify_eq; left; split; [reflexivity | discriminate]; fail).
  destruct (parseCommand msg) as [cmd|] eqn:Hp;
    [|simplify_eq; left; split; [reflexivity | discriminate]].
  unfold dispatch in H.
  destruct (String.eqb _ "QUIT").
  { unfold_handlers. simplify_eq. left. split; [reflexivity | discriminate]. }
  destruct (commands h !! _) as [f|] eqn:Hlk;
    [|simplify_eq; left; split; [reflexivity | discriminate]].
  destruct (call f (Arugment cmd) h e) as [[h1 evs1]|] eqn:Hc;
    unfold mbind, outcome_bind in H; simplify_eq.
  apply call_cwd in Hc
    as [Hkeep | (arg & info & Hf & -> & Hl & Hd & Hdir)]; [by left |].
  right. exists msg, cmd, arg, info. split; [reflexivity |].
  split; [exact Hp |].
  destruct Hf as [[-> ->] | (-> & Harg & ->)].
  - apply (table_CWD_code h _ Ht) in Hlk as [Hlog Hcode]. auto 10.
  - apply (table_CDUP_code h _ Ht) in Hlk as [Hlog Hcode]. auto 10.
Qed.

(** C8, as the code has it.  The directory of a session starts as the
    working directory that [Getwd] returned, and when that is absolute the
    directory is an absolute path in every state of the session, before and
    after every turn of the command loop.  A turn that is not answered with
    the 250 of a directory change keeps the directory.  A turn that is
    answered with it is a CWD command, or a CDUP command without argument,
    which stands for the argument [..], in a logged-in session; it stores a
    path which [Lstat] found to be a directory at that time: the argument
    of the command as it was given, not cleaned, when the argument is
    absolute, and the join of the old directory and the argument, which is
    the cleaned form of the two put together with a slash, when it is
    relative, as it always is for CDUP. *)
Theorem cwd_stays_absolute conn' c users' e0 d0 h0 evs0 h i e h' evs b :
  Getwd e0 = Ok d0 -> path.IsAbs d0 = true ->
  newHandler conn' c users' e0 = (Ok h0, evs0) ->
  runs_to h0 h ->
  step i h e = Ret (h', evs, b) ->
  dir h0 = d0
  /\ path.IsAbs (dir h) = true
  /\ path.IsAbs (dir h') = true
  /\ (dir h' = dir h
      /\ evs <> [EvReply (newReply "250" "Directory change successful.")]
      \/ exists msg cmd arg info,
           i = InLine msg /\ parseCommand msg = Ok cmd
           /\ (strings.ToUpper (Code cmd) = CommandCWD
               /\ arg = Arugment cmd
               \/ strings.ToUpper (Code cmd) = CommandCDUP
                  /\ Arugment cmd = "" /\ arg = "..")
           /\ isLoggedIn h = true
           /\ evs = [EvReply (newReply "250" "Directory change successful.")]
           /\ Lstat e (dir h') = Ok info /\ IsDir info = true
           /\ (path.IsAbs arg = true /\ dir h' = arg
               \/ path.IsAbs arg = false
                  /\ dir h' = path.Join (dir h) arg
                  /\ dir h' = path.Clean (dir h +:+ "/" +:+ arg))).
Proof.
  intros Hwd Habs Hnew Hrun Hstep.
  assert (reachable h) as Hr
    by (eapply runs_to_reachable; [eapply reachable_new, Hnew | exact Hrun]).
  apply newHandler_dir in Hnew. rewrite Hwd in Hnew.
  injection Hnew as ->.
  pose proof (runs_to_dir_abs h0 h Habs Hrun) as Hh.
  split; [reflexivity |]. split; [exact Hh |].
  split; [eapply step_dir_abs; eassumption |].
  apply (step_cwd _ _ _ _ _ _ (reachable_table h Hr)) in Hstep
    as [Hkeep | (msg & cmd & arg & info & -> & Hp & Hc & Hlog & -> & Hl & Hd
                 & Hdir)]; [by left |].
  right. exists msg, cmd, arg, info.
  do 6 (split; [assumption || reflexivity |]). split; [exact Hd |].
  destruct (path.IsAbs arg) eqn:Ha; [left; by split |].
  right. split; [reflexivity |]. split; [exact Hdir |].
  rewrite Hdir. by destruct (Join_rooted (dir h) arg Hh).
Qed.

(** C8 fails as it is stated: CWD with the absolute argument [/tmp/] is
    answered with 250 and stores [/tmp/], which is not a cleaned path (its
    cleaned form is [/tmp]); PWD then shows it. *)
Lemma CWD_stores_uncleaned_path :
  reachable alice_session
  /\ Lstat sample_env "/tmp/" = Ok (mkFileInfo true false)
  /\ step (line "CWD /tmp/") alice_session sample_env
     = Ret (set_dir "/tmp/" alice_session,
            [EvReply (newReply "250" "Directory change successful.")], true)
  /\ dir (set_dir "/tmp/" alice_session) = "/tmp/"
  /\ path.Clean "/tmp/" = "/tmp"
  /\ path.Clean (dir (set_dir "/tmp/" alice_session))
     <> dir (set_dir "/tmp/" alice_session)
  /\ step (line "PWD") (set_dir "/tmp/" alice_session) sample_env
     = Ret (set_dir "/tmp/" alice_session,
            [EvReply (newReply "257"
               (String DQUOTE "/tmp/" +:+ String DQUOTE ""
                +:+ " is the current directory."))],
            true).
Proof.
  split; [apply alice_session_reachable |].
  split; [reflexivity |]. split; [vm_compute; reflexivity |].
  split; [reflexivity |]. split; [reflexivity |].
  split; [vm_compute; discriminate |].
  vm_compute. reflexivity.
Qed.

Lemma alice_session_runs : runs_to fresh_session alice_session.
Proof.
  eapply runs_to_step with (i := line "PASS secret") (e := sample_env);
    [eapply runs_to_step with (i := line "USER alice") (e := sample_env);
       [apply runs_to_refl |] |];
    vm_compute; reflexivity.
Qed.

Lemma cwd_stays_absolute_witness :
  Getwd sample_env = Ok "/srv/ftp" /\ path.IsAbs "/srv/ftp" = true
  /\ newHandler "127.0.0.1:50000" sample_config sample_users sample_env
     = (Ok fresh_session, [EvListen])
  /\ runs_to fresh_session alice_session
  /\ step (line "CWD ../../tmp") alice_session sample_env
     = Ret (set_dir "/tmp" alice_session,
            [EvReply (newReply "250" "Directory change successful.")], true)
  /\ dir fresh_session = "/srv/ftp"
  /\ path.IsAbs (dir alice_session) = true
  /\ path.IsAbs (dir (set_dir "/tmp" alice_session)) = true
  /\ (dir (set_dir "/tmp" alice_session) = dir alice_session
      /\ [EvReply (newReply "250" "Directory change successful.")]
         <> [EvReply (newReply "250" "Directory change successful.")]
      \/ exists msg cmd arg info,
           line "CWD ../../tmp" = InLine msg /\ parseCommand msg = Ok cmd
           /\ (strings.ToUpper (Code cmd) = CommandCWD
               /\ arg = Arugment cmd
               \/ strings.ToUpper (Code cmd) = CommandCDUP
                  /\ Arugment cmd = "" /\ arg = "..")
           /\ isLoggedIn alice_session = true
           /\ [EvReply (newReply "250" "Directory change successful.")]
              = [EvReply (newReply "250" "Directory change successful.")]
           /\ Lstat sample_env (dir (set_dir "/tmp" alice_session)) = Ok info
           /\ IsDir info = true
           /\ (path.IsAbs arg = true
               /\ dir (set_dir "/tmp" alice_session) = arg
               \/ path.IsAbs arg = false
                  /\ dir (set_dir "/tmp" alice_session)
                     = path.Join (dir alice_session) arg
                  /\ dir (set_dir "/tmp" alice_session)
                     = path.Clean (dir alice_session +:+ "/" +:+ arg))).
Proof.
  assert (step (line "CWD ../../tmp") alice_session sample_env
          = Ret (set_dir "/tmp" alice_session,
                 [EvReply (newReply "250" "Directory change successful.")],
                 true)) as Hs by (vm_compute; reflexivity).
  refine (conj eq_refl (conj eq_refl (conj fresh_session_new
            (conj alice_session_runs (conj Hs _))))).
  exact (cwd_stays_absolute "127.0.0.1:50000" sample_config sample_users
           sample_env "/srv/ftp" fresh_session [EvListen] alice_session
           (line "CWD ../../tmp") sample_env (set_dir "/tmp" alice_session)
           [EvReply (newReply "250" "Directory change successful.")] true
           eq_refl eq_refl fresh_session_new alice_session_runs Hs).
Defined.

(** ** EPRT without an argument *)

(** [parseEPRTArg] faults on the empty argument and on no other one. *)
Lemma parseEPRTArg_Panic arg : parseEPRTArg arg = Panic <-> arg = "".
Proof.
  split; [|by intros ->].
  destruct arg; [done |]. unfold parseEPRTArg. by branches.
Qed.

(** C9 fails on the code: the line [EPRT] without argument is parsed as
    the command EPRT with the empty argument, and in the logged-in session
    with port mode on [HandleEPRT] passes it to [parseEPRTArg], which
    indexes its first byte and faults; no reply is written and the command
    loop does not go on. *)
Theorem EPRT_empty_argument_faults :
  reachable alice_session
  /\ port (hconfig alice_session) = true
  /\ parseCommand ("EPRT" +:+ CRLF) = Ok (newCommand CommandEPRT "")
  /\ parseEPRTArg "" = Panic
  /\ HandleEPRT "" alice_session = Panic
  /\ step (line "EPRT") alice_session sample_env = Panic
  /\ handle [(line "USER alice", sample_env); (line "PASS secret", sample_env);
             (line "EPRT", sample_env); (line "PWD", sample_env)]
       fresh_session
     = Panic.
Proof.
  split; [apply alice_session_reachable |].
  repeat split; vm_compute; reflexivity.
Qed.

(** ** The configuration loader *)

(** The loop body of [loadConfig] faults on the empty line and on no other
    one. *)
Lemma loadConfig_line_Panic l c : loadConfig_line l c = Panic <-> l = "".
Proof.
  split; [|by intros ->].
  destruct l; [done |]. unfold loadConfig_line. by branches.
Qed.

(** C10 fails on the code: a configuration file with an empty line makes
    [loadConfig] index the first byte of the empty line and fault, where a
    file without one is loaded. *)
Theorem loadConfig_empty_line_faults :
  loadConfig (Ok ("port_mode=YES" +:+ String LF (String LF "pasv_mode=NO")
                  +:+ String LF ""))
  = Panic
  /\ loadConfig (Ok (String LF "")) = Panic
  /\ loadConfig (Ok ("# modes" +:+ String LF "port_mode=YES" +:+ String LF
                     "pasv_mode=NO" +:+ String LF "colour=blue"
                     +:+ String LF ""))
     = Ret (Ok (mkConfig "/var/spool/logfiles" 5 "" true false)).
Proof. repeat split; vm_compute; reflexivity. Qed.

(** * Further properties of the code *)

(** ** More on strings *)

Lemma length_app (a b : string) :
  String.length (a +:+ b) = (String.length a + String.length b)%nat.
Proof.
  induction a as [|c a IH]; [reflexivity |].
  rewrite append_cons. cbn [String.length]. by rewrite IH.
Qed.

Lemma take_app (a b : string) : strings.take (String.length a) (a +:+ b) = a.
Proof.
  induction a as [|c a IH].
  - rewrite append_nil_l. by destruct b.
  - rewrite append_cons. cbn. by rewrite IH.
Qed.

Lemma drop_app (a b : string) : strings.drop (String.length a) (a +:+ b) = b.
Proof.
  induction a as [|c a IH]; [by rewrite append_nil_l |].
  rewrite append_cons. cbn. exact IH.
Qed.

Lemma take_all (a : string) : strings.take (String.length a) a = a.
Proof. rewrite <- (append_nil_r a) at 2. apply take_app. Qed.

Lemma mem_app c (a b : string) :
  strings.mem c (a +:+ b) = strings.mem c a || strings.mem c b.
Proof.
  induction a as [|d a IH]; [reflexivity |].
  rewrite append_cons. cbn [strings.mem]. by rewrite IH, orb_assoc.
Qed.

Lemma IndexByte_not_mem s c : strings.mem c s = false -> strings.IndexByte s c = -1.
Proof.
  induction s as [|d s IH]; [reflexivity |]. cbn [strings.mem strings.IndexByte].
  intros H. apply orb_false_iff in H as [Hd Hs].
  rewrite Ascii.eqb_sym, Hd, (IH Hs). reflexivity.
Qed.

Lemma IndexByte_app s c t :
  strings.mem c s = false ->
  strings.IndexByte (s +:+ String c t) c = Z.of_nat (String.length s).
Proof.
  induction s as [|d s IH]; cbn [strings.mem].
  - intros _. rewrite append_nil_l. cbn. by rewrite Ascii.eqb_refl.
  - intros H. apply orb_false_iff in H as [Hd Hs].
    rewrite append_cons. cbn [strings.IndexByte String.length].
    rewrite Ascii.eqb_sym, Hd, (IH Hs).
    destruct (Z.of_nat (String.length s) <? 0) eqn:E; lia.
Qed.

Lemma trimLeftBytes_keep s cut :
  match s with String c _ => strings.mem c cut | "" => false end = false ->
  strings.trimLeftBytes s cut = s.
Proof. destruct s as [|c s]; [reflexivity |]. cbn. by intros ->. Qed.

(** A line without CR and LF comes back from [Trim] when its end of line
    is trimmed. *)
Lemma Trim_line arg :
  strings.mem CR arg = false -> strings.mem LF arg = false ->
  strings.Trim (arg +:+ CRLF) CRLF = arg.
Proof.
  intros Hcr Hlf. unfold strings.Trim.
  change (strings.all_ascii CRLF) with true. cbv iota.
  assert (forall c, strings.mem c arg = true -> strings.mem c CRLF = false)
    as Hkeep.
  { intros c Hc. cbn. rewrite orb_false_r.
    destruct (Ascii.eqb c CR) eqn:E1; [apply Ascii.eqb_eq in E1; congruence |].
    destruct (Ascii.eqb c LF) eqn:E2; [apply Ascii.eqb_eq in E2; congruence |].
    reflexivity. }
  change CRLF with (String CR "" +:+ String LF "") at 1.
  rewrite <- append_assoc.
  rewrite !trimRightBytes_snoc by reflexivity.
  rewrite trimRightBytes_keep by exact Hkeep.
  apply trimLeftBytes_keep. destruct arg as [|c arg]; [reflexivity |].
  apply Hkeep. cbn. by rewrite Ascii.eqb_refl.
Qed.

(** ** Commands on the wire *)

(** A line made of a code of three letters or more without a space, a
    space, and an argument without CR and LF. *)
Lemma parseCommand_with_arg c1 c2 c3 rest arg :
  is_letter c1 && is_letter c2 && is_letter c3 = true ->
  strings.mem " "%char (String c1 (String c2 (String c3 rest))) = false ->
  strings.mem CR arg = false -> strings.mem LF arg = false ->
  parseCommand
    ((String c1 (String c2 (String c3 rest)) +:+ " " +:+ arg) +:+ CRLF)
  = Ok (newCommand (String c1 (String c2 (String c3 rest))) arg).
Proof.
  intros Hl Hsp Hcr Hlf.
  set (code := String c1 (String c2 (String c3 rest))) in *.
  unfold parseCommand.
  assert ((code +:+ " " +:+ arg) +:+ CRLF
          = code +:+ String " "%char (arg +:+ CRLF)) as ->.
  { rewrite !append_assoc. reflexivity. }
  assert (commandRegex_MatchString
            (code +:+ String " "%char (arg +:+ CRLF)) = true) as ->.
  { subst code. rewrite !append_cons. exact Hl. }
  cbn [negb]. cbv zeta.
  rewrite (IndexByte_app code " "%char) by exact Hsp.
  replace (Z.of_nat (String.length code) <=? 0) with false
    by (symmetry; apply Z.leb_gt; subst code; cbn [String.length]; lia).
  rewrite Nat2Z.id, take_app.
  replace (Z.to_nat (Z.of_nat (String.length code) + 1))
    with (String.length (code +:+ " ")) by (rewrite length_app; cbn; lia).
  replace (code +:+ String " "%char (arg +:+ CRLF))
    with ((code +:+ " ") +:+ (arg +:+ CRLF))
    by (by rewrite append_assoc).
  rewrite drop_app, Trim_line by assumption. reflexivity.
Qed.

(** X1.  A command that the client writes is read back by the server as it
    was: for every recognized code and every argument without CR and LF,
    [readCommand] parses the line of [writeCommand] into the same code and
    argument. *)
Theorem command_wire_round_trip code arg :
  In code recognized ->
  strings.mem CR arg = false -> strings.mem LF arg = false ->
  parseCommand (writeCommand (newCommand code arg)) = Ok (newCommand code arg).
Proof.
  intros Hin Hcr Hlf. unfold writeCommand, Command_String.
  cbn [Code Arugment]. destruct (String.eqb arg "") eqn:E.
  - apply String.eqb_eq in E. subst arg.
    unfold recognized in Hin. simpl in Hin.
    repeat (destruct Hin as [<- | Hin]; [reflexivity |]). destruct Hin.
  - unfold recognized in Hin. simpl in Hin.
    repeat (destruct Hin as [<- | Hin];
            [by apply parseCommand_with_arg |]).
    destruct Hin.
Qed.

Lemma command_wire_round_trip_witness :
  In CommandRETR recognized
  /\ strings.mem CR "motd.txt" = false /\ strings.mem LF "motd.txt" = false
  /\ parseCommand (writeCommand (newCommand CommandRETR "motd.txt"))
     = Ok (newCommand CommandRETR "motd.txt").
Proof.
  assert (In CommandRETR recognized) as Hin
    by (unfold recognized; simpl; tauto).
  refine (conj Hin (conj eq_refl (conj eq_refl _))).
  exact (command_wire_round_trip CommandRETR "motd.txt" Hin eq_refl eq_refl).
Defined.

(** ** Faults of the command loop *)

Lemma logReceive_Panic msg :
  logReceive msg = Panic <-> (String.length msg < 2)%nat.
Proof.
  unfold logReceive, strings.len.
  destruct (Z.of_nat (String.length msg) - 2 <? 0) eqn:E.
  - apply Z.ltb_lt in E. split; [lia | done].
  - apply Z.ltb_ge in E. split; [done | lia].
Qed.

Lemma table_EPRT_code h code :
  table_ok h ->
  commands h !! code = Some F_HandleEPRT <->
  isLoggedIn h = true /\ code = CommandEPRT.
Proof.
  unfold table_ok. intros ->. destruct (isLoggedIn h).
  - split.
    + unfold loggedInTable, initCommandTableLoggedIn, set_commands, blank;
        cbn [commands]; intros H;
        repeat (rewrite lookup_insert in H; case_decide;
                [by simplify_eq |]);
        by rewrite lookup_empty in H.
    + by intros [_ ->].
  - split; [|by intros [? _]].
    unfold preAuthTable, initCommandTable, set_commands, blank;
      cbn [commands]; intros H;
      repeat (rewrite lookup_insert in H; case_decide; [by simplify_eq |]);
      by rewrite lookup_empty in H.
Qed.

(** With a data connection in place, the only handler method that faults
    is [HandleEPRT], on the empty argument with port mode on. *)
Lemma call_Panic f arg h e :
  dataConn h <> noDataConn ->
  call f arg h e = Panic <->
  f = F_HandleEPRT /\ port (hconfig h) = true /\ arg = "".
Proof.
  intros Hd. split.
  - intros H. destruct f; unfold_handlers;
      try (repeat case_match; simplify_eq; fail).
    destruct (port (hconfig h)); cbn [negb] in H; [|discriminate].
    destruct arg; [done |].
    unfold parseEPRTArg in H. repeat case_match; simplify_eq.
  - intros (-> & Hp & ->). cbn [call]. unfold HandleEPRT. by rewrite Hp.
Qed.

(** X2.  In a session with a data connection in place, a turn of the
    command loop faults in two cases only: the line that was read has fewer
    than two bytes (a bare newline), which the logger slices out of range
    before the line is parsed; or the session is logged in with port mode on
    and the line is an EPRT command with an empty argument.  In every other
    case the turn returns. *)
Theorem turn_faults h i e :
  reachable h -> dataConn h <> noDataConn ->
  turn i h e = Panic <->
  exists msg,
    i = InLine msg
    /\ ((String.length msg < 2)%nat
        \/ (isLoggedIn h = true /\ port (hconfig h) = true
            /\ exists code,
                 parseCommand msg = Ok (newCommand code "")
                 /\ strings.ToUpper code = CommandEPRT)).
Proof.
  intros Hr Hd. pose proof (reachable_table h Hr) as Ht.
  destruct i as [msg| | |]; cbn [turn step];
    try (split; [discriminate | by intros (? & ? & _)]).
  unfold mbind, outcome_bind.
  destruct (logReceive msg) as [logged|] eqn:Hlog.
  - assert (~ (String.length msg < 2)%nat) as Hlen
      by (rewrite <- logReceive_Panic, Hlog; discriminate).
    destruct (parseCommand msg) as [[code arg]|err] eqn:Hp.
    + unfold dispatch. cbn [Code Arugment].
      destruct (String.eqb (strings.ToUpper code) "QUIT") eqn:Hq.
      { apply String.eqb_eq in Hq. split; [discriminate |].
        intros (m & [= <-] & [? | (_ & _ & c & Hc & Hu)]); [done |].
        rewrite Hp in Hc. simplify_eq. unfold CommandEPRT in Hu. congruence. }
      destruct (commands h !! strings.ToUpper code) as [f|] eqn:Hf.
      * destruct (call f arg h e) as [[h1 evs1]|] eqn:Hc.
        -- split; [discriminate |].
           intros (m & [= <-] & [? | (Hl & Hpo & c & Hc' & Hu)]); [done |].
           rewrite Hp in Hc'. simplify_eq.
           assert (f = F_HandleEPRT) as ->.
           { rewrite Hu in Hf.
             assert (commands h !! CommandEPRT = Some F_HandleEPRT) as Hk
               by (by apply table_EPRT_code).
             congruence. }
           assert (call F_HandleEPRT "" h e = Panic) as Hk
             by (by apply call_Panic).
           congruence.
        -- apply (call_Panic _ _ _ _ Hd) in Hc as (-> & Hpo & ->).
           apply (table_EPRT_code h _ Ht) in Hf as [Hl Hu].
           split; [intros _ | done].
           exists msg. split; [done |]. right. eauto.
      * split; [discriminate |].
        intros (m & [= <-] & [? | (Hl & Hpo & c & Hc' & Hu)]); [done |].
        rewrite Hp in Hc'. simplify_eq.
        assert (commands h !! strings.ToUpper c = Some F_HandleEPRT) as Hk
          by (rewrite Hu; by apply table_EPRT_code).
        congruence.
    + split; [discriminate |].
      intros (m & [= <-] & [? | (_ & _ & c & Hc & _)]); [done | congruence].
  - apply logReceive_Panic in Hlog. split; [intros _ | done].
    exists msg. auto.
Qed.

Lemma turn_faults_witness :
  reachable alice_session /\ dataConn alice_session <> noDataConn
  /\ (turn (InLine (String LF "")) alice_session sample_env = Panic <->
      exists msg,
        InLine (String LF "") = InLine msg
        /\ ((String.length msg < 2)%nat
            \/ (isLoggedIn alice_session = true
                /\ port (hconfig alice_session) = true
                /\ exists code,
                     parseCommand msg = Ok (newCommand code "")
                     /\ strings.ToUpper code = CommandEPRT)))
  /\ turn (InLine (String LF "")) alice_session sample_env = Panic.
Proof.
  assert (dataConn alice_session <> noDataConn) as Hd by discriminate.
  refine (conj alice_session_reachable (conj Hd
            (conj (turn_faults alice_session (InLine (String LF ""))
                     sample_env alice_session_reachable Hd) _))).
  reflexivity.
Defined.

(** ** Replies of a command *)

Lemma call_replies f arg h e h' evs :
  call f arg h e = Ret (h', evs) ->
  (exists r, replies evs = [r] /\ data_written evs = [])
  \/ (exists r1 r2,
        replies evs = [r1; r2]
        /\ head evs = Some (EvReply r1) /\ last evs = Some (EvReply r2)
        /\ Status r1 = "150"
        /\ (Status r2 = "226" /\ List.length (data_written evs) = 1%nat
            \/ Status r2 = "451"
               /\ (List.length (data_written evs) <= 1)%nat)).
Proof.
  intros H. destruct f; unfold_handlers;
    try (repeat case_match; simplify_eq; left; eexists; by split).
  - unfold active_write, passive_write in H.
    repeat case_match; simplify_eq;
      try (left; eexists; by split);
      right; eexists _, _; cbn; repeat split; auto.
  - unfold active_write, passive_write in H.
    repeat case_match; simplify_eq;
      try (left; eexists; by split);
      right; eexists _, _; cbn; repeat split; auto.
Qed.

(** X3.  A command that is dispatched and returns is never left without
    an answer and never gets more than two: either exactly one reply is
    written and no data is sent, or the replies are a 150 written first and
    a 226 or 451 written last, with the data written on the data connection
    exactly once before a 226 and at most once before a 451. *)
Theorem dispatch_replies cmd h e h' evs b :
  dispatch cmd h e = Ret (h', evs, b) ->
  (exists r, replies evs = [r] /\ data_written evs = [])
  \/ (exists r1 r2,
        replies evs = [r1; r2]
        /\ head evs = Some (EvReply r1) /\ last evs = Some (EvReply r2)
        /\ Status r1 = "150"
        /\ (Status r2 = "226" /\ List.length (data_written evs) = 1%nat
            \/ Status r2 = "451"
               /\ (List.length (data_written evs) <= 1)%nat)).
Proof.
  unfold dispatch. intros H.
  destruct (String.eqb _ "QUIT").
  { unfold_handlers. simplify_eq. left. eexists. by split. }
  destruct (commands h !! _) as [f|].
  - destruct (call f (Arugment cmd) h e) as [[h1 evs1]|] eqn:Hc;
      unfold mbind, outcome_bind in H; simplify_eq.
    eapply call_replies, Hc.
  - simplify_eq. left. eexists. by split.
Qed.

Lemma dispatch_replies_witness :
  dispatch (newCommand CommandRETR "motd.txt") alice_session sample_env
  = Ret (alice_session,
         [EvReply (newReply "150" "Here comes the file.");
          EvAccept (mkListener "[::]:40000");
          EvDataWrite (mkNetConn "127.0.0.1:50001" None None)
            ("a" +:+ String CR CRLF);
          EvDataClose (mkNetConn "127.0.0.1:50001" None None);
          EvReply (newReply "226" "File transfered successfully.")],
         true)
  /\ exists r1 r2 : Reply, Status r1 = "150" /\ Status r2 = "226".
Proof.
  assert (dispatch (newCommand CommandRETR "motd.txt") alice_session sample_env
          = Ret (alice_session,
                 [EvReply (newReply "150" "Here comes the file.");
                  EvAccept (mkListener "[::]:40000");
                  EvDataWrite (mkNetConn "127.0.0.1:50001" None None)
                    ("a" +:+ String CR CRLF);
                  EvDataClose (mkNetConn "127.0.0.1:50001" None None);
                  EvReply (newReply "226" "File transfered successfully.")],
                 true)) as Hd by (vm_compute; reflexivity).
  split; [exact Hd |].
  destruct (dispatch_replies _ _ _ _ _ _ Hd)
    as [(r & Hr & _) | (r1 & r2 & Hr & _ & _ & H1 & [[H2 _] | [H2 _]])].
  - discriminate Hr.
  - by exists r1, r2.
  - injection Hr as <- <-. discriminate H2.
Defined.

(** ** Replies on the wire *)

Lemma digit_neq c x : is_digit c = true -> is_digit x = false -> Ascii.eqb c x = false.
Proof.
  intros Hc Hx. destruct (Ascii.eqb c x) eqn:E; [|reflexivity].
  apply Ascii.eqb_eq in E. congruence.
Qed.

Lemma ReadString_line x rest :
  strings.mem LF x = false ->
  ReadString (x +:+ String LF rest) = Some (x +:+ String LF "", rest).
Proof.
  induction x as [|c x IH]; cbn [strings.mem].
  - intros _. rewrite !append_nil_l. reflexivity.
  - intros H. apply orb_false_iff in H as [Hc Hx].
    rewrite !append_cons. cbn [ReadString].
    rewrite Ascii.eqb_sym, Hc, (IH Hx). reflexivity.
Qed.

Lemma Trim_no_LF msg :
  strings.mem LF msg = false -> strings.Trim msg (String LF "") = msg.
Proof.
  intros H. unfold strings.Trim.
  change (strings.all_ascii (String LF "")) with true. cbv iota.
  assert (forall c, strings.mem c msg = true ->
                    strings.mem c (String LF "") = false) as Hk.
  { intros c Hc. cbn. rewrite orb_false_r.
    destruct (Ascii.eqb c LF) eqn:E; [|reflexivity].
    apply Ascii.eqb_eq in E. congruence. }
  rewrite trimRightBytes_keep by exact Hk.
  apply trimLeftBytes_keep. destruct msg as [|c msg]; [reflexivity |].
  apply Hk. cbn. by rewrite Ascii.eqb_refl.
Qed.

Lemma logReceive_Ret msg :
  (2 <= String.length msg)%nat -> exists t, logReceive msg = Ret t.
Proof.
  intros H. destruct (logReceive msg) eqn:E; [by eexists |].
  apply logReceive_Panic in E. lia.
Qed.

Lemma slice_from_4 a b c d x :
  net.slice (String a (String b (String c (String d (x +:+ String LF "")))))
    4 (strings.len
         (String a (String b (String c (String d (x +:+ String LF ""))))) - 1)
  = x.
Proof.
  unfold net.slice, strings.len. cbn [String.length].
  rewrite length_app. cbn [String.length].
  change (Z.to_nat 4) with 4%nat. cbn [strings.drop].
  replace (Z.to_nat (Z.of_nat (S (S (S (S (String.length x + 1))))) - 1 - 4))
    with (String.length x) by lia.
  apply take_app.
Qed.

(** A line of three digits, a space and a text without LF, whatever
    follows it on the stream: [readReply] returns the digits and the text. *)
Lemma readReply_line a b c x rest :
  is_digit a = true -> is_digit b = true -> is_digit c = true ->
  strings.mem LF x = false ->
  readReply (String a (String b (String c (String " "%char
               (x +:+ String LF rest)))))
  = Ret (Ok (newReply (String a (String b (String c ""))) x)).
Proof.
  intros Ha Hb Hc Hx. unfold readReply.
  change (String a (String b (String c (String " "%char
            (x +:+ String LF rest)))))
    with ((String a (String b (String c (String " "%char x))))
          +:+ String LF rest).
  rewrite ReadString_line.
  2:{ cbn [strings.mem]. rewrite Hx.
      rewrite (Ascii.eqb_sym LF a), (Ascii.eqb_sym LF b), (Ascii.eqb_sym LF c),
        (digit_neq a LF), (digit_neq b LF), (digit_neq c LF) by done.
      reflexivity. }
  destruct (logReceive_Ret
              (String a (String b (String c (String " "%char x)))
               +:+ String LF "")) as [t Ht].
  { rewrite !append_cons. cbn. lia. }
  rewrite Ht. unfold mbind, outcome_bind.
  rewrite !append_cons.
  cbn [singleLineRegex_MatchString]. rewrite Ha, Hb, Hc. cbn [andb].
  cbv zeta. cbn [strings.IndexByte].
  rewrite (digit_neq a " "), (digit_neq b " "), (digit_neq c " ") by done.
  rewrite Ascii.eqb_refl.
  change (if 0 <? 0 then -1 else 0 + 1) with 1.
  change (if 1 <? 0 then -1 else 1 + 1) with 2.
  change (if 2 <? 0 then -1 else 2 + 1) with 3.
  change (3 + 1) with 4.
  rewrite slice_from_4. reflexivity.
Qed.

(** X4.  A one-line reply of the server is read back by the client with
    its status code, and with its message followed by the CR of the end of
    line: [readReply] cuts the LF only.  This holds for every status code of
    three digits and every message without LF. *)
Theorem reply_wire_single_line a b c msg :
  is_digit a = true -> is_digit b = true -> is_digit c = true ->
  strings.mem LF msg = false ->
  readReply (wire (newReply (String a (String b (String c ""))) msg))
  = Ret (Ok (newReply (String a (String b (String c "")))
               (msg +:+ String CR ""))).
Proof.
  intros Ha Hb Hc Hm.
  unfold wire, Reply_String. cbn [Status Message].
  rewrite Trim_no_LF by exact Hm.
  unfold strings.ContainsByte. rewrite IndexByte_not_mem by exact Hm.
  change (0 <=? -1) with false. cbv iota.
  assert ((String a (String b (String c "")) +:+ " " +:+ msg) +:+ CRLF
          = String a (String b (String c (String " "%char
              ((msg +:+ String CR "") +:+ String LF ""))))) as ->.
  { rewrite !append_cons, !append_nil_l. do 4 f_equal.
    by rewrite append_assoc. }
  apply readReply_line; [assumption .. |].
  rewrite mem_app, Hm. reflexivity.
Qed.

Lemma reply_wire_single_line_witness :
  is_digit "2" = true /\ is_digit "3" = true /\ is_digit "0" = true
  /\ strings.mem LF "Login successful." = false
  /\ readReply (wire (newReply "230" "Login successful."))
     = Ret (Ok (newReply "230" ("Login successful." +:+ String CR ""))).
Proof.
  refine (conj eq_refl (conj eq_refl (conj eq_refl (conj eq_refl _)))).
  exact (reply_wire_single_line "2" "3" "0" "Login successful."
           eq_refl eq_refl eq_refl eq_refl).
Defined.

Lemma Split_fields s sep :
  Forall (fun f => strings.mem sep f = false) (strings.Split s sep).
Proof.
  induction s as [|c s IH]; cbn [strings.Split]; [by repeat constructor |].
  destruct (Ascii.eqb c sep) eqn:E; [by constructor |].
  destruct (strings.Split s sep) as [|f fs];
    [repeat constructor; cbn; by rewrite Ascii.eqb_sym, E |].
  inversion IH as [|? ? Hf Hfs]; subst. constructor; [|exact Hfs].
  cbn. by rewrite Ascii.eqb_sym, E, Hf.
Qed.

Lemma Split_not_nil s sep : strings.Split s sep <> [].
Proof.
  destruct s as [|c s]; cbn [strings.Split]; [done |].
  destruct (Ascii.eqb c sep); [done |]. by destruct (strings.Split s sep).
Qed.

Lemma Join_continuation fields :
  fields <> [] ->
  strings.Join (map (String TAB) fields) CRLF +:+ CRLF
  = continuation_lines fields.
Proof.
  induction fields as [|f fs IH]; [done |]. intros _.
  destruct fs as [|g fs].
  - cbn [map strings.Join continuation_lines fold_right].
    by rewrite append_nil_r.
  - assert (g :: fs <> []) as Hne by done. specialize (IH Hne).
    change (continuation_lines (f :: g :: fs))
      with (String TAB f +:+ CRLF +:+ continuation_lines (g :: fs)).
    rewrite <- IH.
    change (strings.Join (map (String TAB) (f :: g :: fs)) CRLF)
      with (String TAB f +:+ CRLF
            +:+ strings.Join (map (String TAB) (g :: fs)) CRLF).
    by rewrite !append_assoc.
Qed.

Lemma continuation_length fields :
  (List.length fields <= String.length (continuation_lines fields))%nat.
Proof.
  induction fields as [|f fs IH]; [done |].
  change (continuation_lines (f :: fs))
    with (String TAB f +:+ CRLF +:+ continuation_lines fs).
  rewrite append_cons. cbn [String.length List.length].
  rewrite !length_app. lia.
Qed.

Lemma singleLineRegex_first c x :
  is_digit c = false -> singleLineRegex_MatchString (String c x) = false.
Proof.
  intros H. destruct x as [|? [|? [|? ?]]]; cbn [singleLineRegex_MatchString];
    try reflexivity.
  by rewrite H.
Qed.

(** The terminator line of a multi-line reply. *)
Lemma readReply_loop_lines a b c fields line fuel :
  is_digit a = true -> is_digit b = true -> is_digit c = true ->
  Forall (fun f => strings.mem LF f = false) fields ->
  (List.length fields < fuel)%nat ->
  let st := String a (String b (String c "")) in
  let term := st +:+ " Erik's FTP Server" +:+ CRLF in
  readReply_loop fuel (continuation_lines fields +:+ term) line 3 st
  = Ret (Ok (newReply st
               (net.slice (line +:+ continuation_lines fields +:+ term) 3
                  (strings.len (line +:+ continuation_lines fields +:+ term)
                   - 1)))).
Proof.
  intros Ha Hb Hc Hf Hfuel st term. revert line fuel Hfuel.
  induction Hf as [|f fs Hfl _ IH]; intros line fuel Hfuel.
  - destruct fuel as [|fuel]; [cbn in Hfuel; lia |].
    cbn [continuation_lines fold_right]. rewrite !append_nil_l.
    cbn [readReply_loop].
    assert (term = (st +:+ " Erik's FTP Server" +:+ String CR "")
                   +:+ String LF "") as Ht.
    { subst term. by rewrite !append_assoc. }
    rewrite Ht at 1. rewrite ReadString_line.
    2:{ subst st. rewrite !append_cons. cbn [strings.mem].
        rewrite (Ascii.eqb_sym LF a), (Ascii.eqb_sym LF b),
          (Ascii.eqb_sym LF c), (digit_neq a LF), (digit_neq b LF),
          (digit_neq c LF) by done.
        reflexivity. }
    rewrite <- Ht.
    destruct (logReceive_Ret term) as [t Hlog].
    { subst term st. rewrite !append_cons. cbn. lia. }
    rewrite Hlog. unfold mbind, outcome_bind.
    assert (singleLineRegex_MatchString term = true) as ->.
    { subst term st. rewrite !append_cons, !append_nil_l.
      cbn [singleLineRegex_MatchString]. by rewrite Ha, Hb, Hc. }
    assert (strings.take 3 term = st) as -> by reflexivity.
    by rewrite String.eqb_refl.
  - destruct fuel as [|fuel]; [cbn in Hfuel; lia |].
    cbn [List.length] in Hfuel.
    change (continuation_lines (f :: fs))
      with (String TAB f +:+ CRLF +:+ continuation_lines fs).
    assert ((String TAB f +:+ CRLF +:+ continuation_lines fs) +:+ term
            = (String TAB f +:+ String CR "")
              +:+ String LF (continuation_lines fs +:+ term)) as E.
    { by rewrite !append_assoc. }
    rewrite E. cbn [readReply_loop]. rewrite ReadString_line.
    2:{ rewrite append_cons. cbn [strings.mem]. rewrite mem_app, Hfl.
        reflexivity. }
    destruct (logReceive_Ret ((String TAB f +:+ String CR "") +:+ String LF ""))
      as [t Hlog].
    { rewrite !append_cons. cbn [String.length]. rewrite !length_app.
      cbn [String.length]. lia. }
    rewrite Hlog. unfold mbind, outcome_bind.
    rewrite !(append_cons TAB).
    rewrite singleLineRegex_first by reflexivity. cbn [andb].
    rewrite IH by lia.
    assert ((line +:+ String TAB ((f +:+ String CR "") +:+ String LF ""))
            +:+ continuation_lines fs +:+ term
            = line +:+ String TAB ((f +:+ String CR "")
                +:+ String LF (continuation_lines fs +:+ term))) as ->.
    { rewrite !append_assoc, !append_cons, !append_assoc, !append_cons.
      by rewrite !append_nil_l. }
    reflexivity.
Qed.

(** X5.  A multi-line reply of the server is read by the client as one
    reply, up to its terminator line and no further: its continuation lines
    start with a TAB, so that none of them is taken for the terminator,
    whatever their text.  The client gets the status code, and as the
    message all the bytes after the code up to the last LF.  This holds for
    every status code of three digits and every message that has a newline
    inside. *)
Theorem reply_wire_multi_line a b c msg :
  is_digit a = true -> is_digit b = true -> is_digit c = true ->
  strings.ContainsByte (strings.Trim msg (String LF "")) LF = true ->
  let r := newReply (String a (String b (String c ""))) msg in
  readReply (wire r)
  = Ret (Ok (newReply (String a (String b (String c "")))
               (net.slice (wire r) 3 (strings.len (wire r) - 1)))).
Proof.
  intros Ha Hb Hc Hm r.
  set (st := String a (String b (String c ""))).
  set (fields := strings.Split (strings.Trim msg (String LF "")) LF).
  set (term := st +:+ " Erik's FTP Server" +:+ CRLF).
  assert (wire r
          = (st +:+ "-" +:+ String CR "")
            +:+ String LF (continuation_lines fields +:+ term)) as Hw.
  { unfold wire, Reply_String. subst r. cbn [Status Message]. rewrite Hm.
    fold fields. rewrite Join_continuation by apply Split_not_nil.
    subst term. fold st. rewrite !append_assoc. reflexivity. }
  rewrite Hw. unfold readReply. rewrite ReadString_line.
  2:{ subst st. rewrite !append_cons. cbn [strings.mem].
      rewrite (Ascii.eqb_sym LF a), (Ascii.eqb_sym LF b),
        (Ascii.eqb_sym LF c), (digit_neq a LF), (digit_neq b LF),
        (digit_neq c LF) by done.
      reflexivity. }
  destruct (logReceive_Ret ((st +:+ "-" +:+ String CR "") +:+ String LF ""))
    as [t Hlog].
  { subst st. rewrite !append_cons. cbn. lia. }
  rewrite Hlog. unfold mbind, outcome_bind.
  assert ((st +:+ "-" +:+ String CR "") +:+ String LF ""
          = String a (String b (String c (String "-"%char CRLF)))) as El
    by reflexivity.
  rewrite El.
  assert (singleLineRegex_MatchString
            (String a (String b (String c (String "-"%char CRLF)))) = false)
    as ->.
  { cbn [singleLineRegex_MatchString]. rewrite Ha, Hb, Hc. reflexivity. }
  assert (multiLineRegex_MatchString
            (String a (String b (String c (String "-"%char CRLF)))) = true)
    as ->.
  { cbn [multiLineRegex_MatchString]. rewrite Ha, Hb, Hc. reflexivity. }
  cbv zeta. cbn [strings.IndexByte].
  rewrite (digit_neq a "-"), (digit_neq b "-"), (digit_neq c "-") by done.
  rewrite Ascii.eqb_refl.
  change (if 0 <? 0 then -1 else 0 + 1) with 1.
  change (if 1 <? 0 then -1 else 1 + 1) with 2.
  change (if 2 <? 0 then -1 else 2 + 1) with 3.
  change (net.slice (String a (String b (String c (String "-"%char CRLF)))) 0 3)
    with st.
  pose proof (readReply_loop_lines a b c fields
                (String a (String b (String c (String "-"%char CRLF))))
                (String.length (continuation_lines fields +:+ term))
                Ha Hb Hc (Split_fields _ _)) as Hloop.
  cbv zeta in Hloop. fold st term in Hloop.
  rewrite Hloop.
  - rewrite <- El.
    assert (((st +:+ "-" +:+ String CR "") +:+ String LF "")
            +:+ continuation_lines fields +:+ term
            = (st +:+ "-" +:+ String CR "")
              +:+ String LF (continuation_lines fields +:+ term)) as ->.
    { by rewrite !append_assoc. }
    reflexivity.
  - rewrite length_app. pose proof (continuation_length fields).
    subst term st. rewrite !append_cons. cbn [String.length]. lia.
Qed.

Lemma reply_wire_multi_line_witness :
  is_digit "2" = true /\ is_digit "1" = true /\ is_digit "4" = true
  /\ strings.ContainsByte (strings.Trim help_msg (String LF "")) LF = true
  /\ readReply (wire (newReply "214" help_msg))
     = Ret (Ok (newReply "214"
                  (net.slice (wire (newReply "214" help_msg)) 3
                     (strings.len (wire (newReply "214" help_msg)) - 1)))).
Proof.
  refine (conj eq_refl (conj eq_refl (conj eq_refl (conj eq_refl _)))).
  exact (reply_wire_multi_line "2" "1" "4" help_msg
           eq_refl eq_refl eq_refl eq_refl).
Defined.

(** ** Printing and scanning numbers *)

Lemma byte_val_digit k :
  0 <= k <= 9 ->
  byte_val (ascii_of_N (Z.to_N (48 + k))) = 48 + k
  /\ is_digit (ascii_of_N (Z.to_N (48 + k))) = true.
Proof.
  intros Hk.
  assert (k = 0 \/ k = 1 \/ k = 2 \/ k = 3 \/ k = 4 \/ k = 5 \/ k = 6
          \/ k = 7 \/ k = 8 \/ k = 9) as Hc by lia.
  repeat (destruct Hc as [-> | Hc]; [by split |]). by subst k.
Qed.

Lemma parse_digits_app s t a :
  fmt.parse_digits (s +:+ t) a
  = match fmt.parse_digits s a with
    | Some v => fmt.parse_digits t v
    | None => None
    end.
Proof.
  revert a. induction s as [|c s IH]; intros a; [reflexivity |].
  rewrite append_cons. cbn [fmt.parse_digits].
  destruct (is_digit c); [apply IH | reflexivity].
Qed.

(** What [digits] puts before its accumulator: decimal digits that are
    not empty and that [parse_digits] reads back as the number. *)
Lemma digits_spec fuel n acc :
  0 <= n < 10 ^ (Z.of_nat fuel + 1) ->
  exists s,
    fmt.digits fuel n acc = s +:+ acc
    /\ s <> ""
    /\ all_chars is_digit s = true
    /\ forall a, fmt.parse_digits s a
                 = Some (a * 10 ^ Z.of_nat (String.length s) + n).
Proof.
  revert n acc. induction fuel as [|fuel IH]; intros n acc Hn.
  - change (10 ^ (Z.of_nat 0 + 1)) with 10 in Hn.
    assert (n mod 10 = n) as Hm by (apply Z.mod_small; lia).
    destruct (byte_val_digit n) as [Hb Hd]; [lia |].
    exists (String (ascii_of_N (Z.to_N (48 + n))) "").
    cbn [fmt.digits]. rewrite Hm. split; [reflexivity |].
    split; [done |]. split; [cbn; by rewrite Hd |].
    intros a. cbn [fmt.parse_digits String.length]. rewrite Hd, Hb.
    f_equal. change (10 ^ Z.of_nat 1) with 10. lia.
  - cbn [fmt.digits].
    assert (0 <= n mod 10 <= 9) as Hr by (pose proof (Z.mod_pos_bound n 10); lia).
    destruct (byte_val_digit (n mod 10) Hr) as [Hb Hd].
    destruct (n <? 10) eqn:E.
    + apply Z.ltb_lt in E.
      assert (n mod 10 = n) as Hm by (apply Z.mod_small; lia).
      exists (String (ascii_of_N (Z.to_N (48 + n mod 10))) "").
      split; [reflexivity |]. split; [done |]. split; [cbn; by rewrite Hd |].
      intros a. cbn [fmt.parse_digits String.length]. rewrite Hd, Hb.
      f_equal. change (10 ^ Z.of_nat 1) with 10. lia.
    + apply Z.ltb_ge in E.
      destruct (IH (n / 10)
                  (String (ascii_of_N (Z.to_N (48 + n mod 10))) acc))
        as (s & Hs & Hne & Hall & Hp).
      { split; [apply Z.div_pos; lia |].
        apply Z.div_lt_upper_bound; [lia |].
        replace (Z.of_nat (S fuel) + 1) with (Z.succ (Z.of_nat fuel + 1)) in Hn
          by lia.
        rewrite Z.pow_succ_r in Hn by lia. lia. }
      exists (s +:+ String (ascii_of_N (Z.to_N (48 + n mod 10))) "").
      split; [rewrite Hs; by rewrite append_assoc |].
      split; [by destruct s |].
      split; [rewrite all_chars_app, Hall; cbn; by rewrite Hd |].
      intros a. rewrite parse_digits_app, Hp.
      cbn [fmt.parse_digits]. rewrite Hd, Hb. f_equal.
      rewrite length_app. cbn [String.length].
      replace (Z.of_nat (String.length s + 1))
        with (Z.succ (Z.of_nat (String.length s))) by lia.
      rewrite Z.pow_succ_r by lia.
      pose proof (Z.div_mod n 10). lia.
Qed.

Lemma pow10_log2 n : 0 <= n -> n < 10 ^ (Z.of_nat (Z.to_nat (Z.log2 n)) + 1).
Proof.
  intros Hn. rewrite Z2Nat.id by apply Z.log2_nonneg.
  destruct (Z.eq_dec n 0) as [-> | Hz]; [reflexivity |].
  pose proof (Z.log2_spec n ltac:(lia)) as [_ Hlt].
  eapply Z.lt_le_trans; [exact Hlt |].
  replace (Z.succ (Z.log2 n)) with (Z.log2 n + 1) by lia.
  apply Z.pow_le_mono_l. split; [lia |]. lia.
Qed.

(** [Sprintf "%d"] of a number that is not negative: decimal digits that
    are not empty. *)
Lemma Sprintf_d_digits n :
  0 <= n ->
  fmt.Sprintf_d n <> ""
  /\ all_chars is_digit (fmt.Sprintf_d n) = true
  /\ fmt.parse_digits (fmt.Sprintf_d n) 0 = Some n.
Proof.
  intros Hn. unfold fmt.Sprintf_d.
  replace (n <? 0) with false by (symmetry; apply Z.ltb_ge; lia).
  destruct (digits_spec (Z.to_nat (Z.log2 n)) n "")
    as (s & Hs & Hne & Hall & Hp); [split; [lia | by apply pow10_log2] |].
  rewrite Hs, append_nil_r. split; [exact Hne |]. split; [exact Hall |].
  rewrite Hp. f_equal; lia.
Qed.

Lemma scanNumber_digits s :
  all_chars is_digit s = true -> fmt.scanNumber s = s.
Proof.
  induction s as [|c s IH]; [reflexivity |]. cbn [all_chars fmt.scanNumber].
  intros H. apply andb_true_iff in H as [Hc Hs].
  unfold fmt.is_digit_or_underscore. rewrite Hc. cbn [orb]. by rewrite IH.
Qed.

Lemma SkipSpace_digit c s :
  is_digit c = true -> fmt.SkipSpace (String c s) = Some (String c s).
Proof.
  intros Hc. cbn [fmt.SkipSpace].
  assert (48 <= byte_val c <= 57) as Hb.
  { unfold is_digit in Hc. apply andb_true_iff in Hc as [H1 H2].
    apply Z.leb_le in H1, H2. lia. }
  assert (Ascii.eqb c LF = false) as -> by (by apply digit_neq).
  assert (fmt.space1 c = false) as ->.
  { unfold fmt.space1. apply orb_false_iff. split.
    - apply andb_false_iff. right. apply Z.leb_gt. lia.
    - apply Z.eqb_neq. lia. }
  assert (forall c2, fmt.space2 c c2 = false) as H2.
  { intros c2. unfold fmt.space2.
    replace (byte_val c =? 194) with false by (symmetry; apply Z.eqb_neq; lia).
    reflexivity. }
  assert (forall c2 c3, fmt.space3 c c2 c3 = false) as H3.
  { intros c2 c3. unfold fmt.space3. cbv zeta.
    replace (byte_val c =? 225) with false by (symmetry; apply Z.eqb_neq; lia).
    replace (byte_val c =? 226) with false by (symmetry; apply Z.eqb_neq; lia).
    replace (byte_val c =? 227) with false by (symmetry; apply Z.eqb_neq; lia).
    reflexivity. }
  destruct s as [|c2 [|c3 s]]; rewrite ?H2, ?H3; reflexivity.
Qed.

(** A number that fits the variable is printed by [Sprintf] and scanned
    back by [Sscanf]. *)
Lemma Sscanf_Sprintf_uint bits n :
  0 <= n < 2 ^ bits -> bits <= 64 ->
  fmt.Sscanf_d_uint bits (fmt.Sprintf_d n) = Some n.
Proof.
  intros Hn Hbits.
  destruct (Sprintf_d_digits n) as (Hne & Hall & Hp); [lia |].
  unfold fmt.Sscanf_d_uint.
  destruct (fmt.Sprintf_d n) as [|c s] eqn:E; [done |].
  assert (is_digit c = true) as Hc
    by (cbn [all_chars] in Hall; by apply andb_true_iff in Hall as [? _]).
  rewrite SkipSpace_digit by exact Hc.
  rewrite scanNumber_digits by exact Hall.
  rewrite Hp.
  assert (n < 2 ^ 64) as H64.
  { eapply Z.lt_le_trans; [apply Hn |]. apply Z.pow_le_mono_r; lia. }
  replace (n <? 2 ^ 64) with true by (symmetry; by apply Z.ltb_lt).
  replace (n <? 2 ^ bits) with true by (symmetry; apply Z.ltb_lt; lia).
  reflexivity.
Qed.

Lemma Sscanf_Sprintf_uint16 n :
  0 <= n <= 65535 -> fmt.Sscanf_d_uint 16 (fmt.Sprintf_d n) = Some n.
Proof.
  intros Hn. apply Sscanf_Sprintf_uint; [|lia].
  change (2 ^ 16) with 65536. lia.
Qed.

Lemma Sprintf_d_no c n :
  0 <= n -> is_digit c = false -> strings.mem c (fmt.Sprintf_d n) = false.
Proof.
  intros Hn Hc. destruct (Sprintf_d_digits n Hn) as (_ & Hall & _).
  eapply all_chars_mem; eassumption.
Qed.

(** ** The PORT codec *)

(** The six fields of a PORT argument, with port fields of one byte. *)
Lemma hostPortToAddr_ok a b c d p1 p2 :
  strings.mem ","%char a = false -> strings.mem ","%char b = false ->
  strings.mem ","%char c = false -> strings.mem ","%char d = false ->
  0 <= p1 <= 255 -> 0 <= p2 <= 255 ->
  hostPortToAddr
    (a +:+ "," +:+ b +:+ "," +:+ c +:+ "," +:+ d +:+ ","
     +:+ fmt.Sprintf_d p1 +:+ "," +:+ fmt.Sprintf_d p2)
  = Ok (net.JoinHostPort (a +:+ "." +:+ b +:+ "." +:+ c +:+ "." +:+ d)
          (fmt.Sprintf_d (p1 * 256 + p2))).
Proof.
  intros Ha Hb Hc Hd H1 H2. unfold hostPortToAddr.
  rewrite !(append_cons ","%char), !append_nil_l.
  do 4 (rewrite Split_app by assumption).
  rewrite (Split_app (fmt.Sprintf_d p1))
    by (apply Sprintf_d_no; [lia | reflexivity]).
  rewrite (Split_no_sep (fmt.Sprintf_d p2))
    by (apply Sprintf_d_no; [lia | reflexivity]).
  rewrite (Sscanf_Sprintf_uint16 p1), (Sscanf_Sprintf_uint16 p2) by lia.
  cbn [default from_option]. unfold id.
  change (2 ^ 16) with 65536. rewrite Z.mod_small by lia.
  replace (65535 <? p1 * 256 + p2) with false
    by (symmetry; apply Z.ltb_ge; lia).
  reflexivity.
Qed.

(** The two bytes of a port number. *)
Lemma port_bytes p :
  0 <= p <= 65535 ->
  0 <= Z.shiftr p 8 <= 255 /\ 0 <= Z.land p 255 <= 255
  /\ Z.shiftr p 8 * 256 + Z.land p 255 = p.
Proof.
  intros Hp.
  assert (Z.shiftr p 8 = p / 256) as Hs
    by (rewrite Z.shiftr_div_pow2 by lia; reflexivity).
  assert (Z.land p 255 = p mod 256) as Hl
    by (change 255 with (Z.ones 8); rewrite Z.land_ones by lia; reflexivity).
  pose proof (Z.mod_pos_bound p 256 ltac:(lia)) as Hmod.
  pose proof (Z.div_mod p 256 ltac:(lia)) as Hdm.
  assert (0 <= p / 256 <= 255) as Hdiv.
  { split; [apply Z.div_pos; lia |].
    apply Z.lt_succ_r. apply Z.div_lt_upper_bound; lia. }
  lia.
Qed.

(** The argument that [getPORTString] builds. *)
Lemma getPORTString_ok a b c d p :
  strings.mem "."%char a = false -> strings.mem "."%char b = false ->
  strings.mem "."%char c = false -> strings.mem "."%char d = false ->
  0 <= p <= 65535 ->
  getPORTString (a +:+ "." +:+ b +:+ "." +:+ c +:+ "." +:+ d)
    (fmt.Sprintf_d p)
  = Ok (a +:+ "," +:+ b +:+ "," +:+ c +:+ "," +:+ d +:+ ","
        +:+ fmt.Sprintf_d (Z.shiftr p 8) +:+ ","
        +:+ fmt.Sprintf_d (Z.land p 255)).
Proof.
  intros Da Db Dc Dd Hp. unfold getPORTString.
  rewrite !(append_cons "."%char), !append_nil_l.
  rewrite !Split_app, Split_no_sep by assumption.
  cbn [List.length Nat.eqb negb].
  rewrite (Sscanf_Sprintf_uint16 p) by lia.
  cbn [default from_option]. unfold id.
  replace (65535 <? p) with false by (symmetry; apply Z.ltb_ge; lia).
  cbn [fold_left]. rewrite append_nil_l. f_equal.
  by rewrite !append_assoc.
Qed.

(** X6.  The PORT codec round trip: for a host of four dot-separated
    fields (without dot and comma inside) and a port number from 0 to
    65535, [getPORTString] succeeds and [hostPortToAddr] turns its result
    back into the address of that host and port. *)
Theorem PORT_round_trip a b c d p :
  strings.mem "."%char a = false -> strings.mem "."%char b = false ->
  strings.mem "."%char c = false -> strings.mem "."%char d = false ->
  strings.mem ","%char a = false -> strings.mem ","%char b = false ->
  strings.mem ","%char c = false -> strings.mem ","%char d = false ->
  0 <= p <= 65535 ->
  exists arg,
    getPORTString (a +:+ "." +:+ b +:+ "." +:+ c +:+ "." +:+ d)
      (fmt.Sprintf_d p) = Ok arg
    /\ hostPortToAddr arg
       = Ok (net.JoinHostPort (a +:+ "." +:+ b +:+ "." +:+ c +:+ "." +:+ d)
               (fmt.Sprintf_d p)).
Proof.
  intros Da Db Dc Dd Ca Cb Cc Cd Hp.
  destruct (port_bytes p Hp) as (H1 & H0 & Hsum).
  eexists. split; [by apply getPORTString_ok |].
  rewrite hostPortToAddr_ok by assumption. by rewrite Hsum.
Qed.

Lemma PORT_round_trip_witness :
  strings.mem "."%char "127" = false /\ strings.mem ","%char "127" = false
  /\ 0 <= 2121 <= 65535
  /\ exists arg,
       getPORTString "127.0.0.1" "2121" = Ok arg
       /\ hostPortToAddr arg = Ok "127.0.0.1:2121".
Proof.
  assert (0 <= 2121 <= 65535) as Hp by lia.
  refine (conj eq_refl (conj eq_refl (conj Hp _))).
  exact (PORT_round_trip "127" "0" "0" "1" 2121
           eq_refl eq_refl eq_refl eq_refl eq_refl eq_refl eq_refl eq_refl Hp).
Defined.

(** ** The end of a session *)

(** X7.  The command loop ends in three cases only, whatever the state of
    the session: the peer closed the connection (nothing is written), the
    two minutes of the read ran out (421 is written), or the command is
    QUIT in any letter case, with or without argument (221 is written).
    The state of the session is left as it is. *)
Theorem turn_ends h i e h' evs :
  turn i h e = Ret (h', evs, false) <->
  h' = h
  /\ ((i = InEOF /\ evs = [])
      \/ (i = InTimeout /\ evs = [EvReply (newReply "421" "Timeout.")])
      \/ (exists msg cmd,
            i = InLine msg /\ (2 <= String.length msg)%nat
            /\ parseCommand msg = Ok cmd
            /\ strings.ToUpper (Code cmd) = CommandQUIT
            /\ evs = [EvReply (newReply "221" "Goodbye.")])).
Proof.
  split.
  - destruct i as [msg| | |]; cbn [turn step].
    + unfold mbind, outcome_bind.
      destruct (logReceive msg) eqn:Hlog; [|discriminate].
      assert (2 <= String.length msg)%nat as Hlen.
      { destruct (le_lt_dec 2 (String.length msg)) as [|Hlt]; [done |].
        apply logReceive_Panic in Hlt. congruence. }
      destruct (parseCommand msg) as [cmd|] eqn:Hp; [|discriminate].
      unfold dispatch.
      destruct (String.eqb (strings.ToUpper (Code cmd)) "QUIT") eqn:Hq.
      * apply String.eqb_eq in Hq. unfold_handlers. intros [= <- <-].
        split; [done |]. right. right. exists msg, cmd. auto.
      * destruct (commands h !! _) as [f|]; [|discriminate].
        destruct (call f (Arugment cmd) h e) as [[h1 evs1]|];
          unfold mbind, outcome_bind; discriminate.
    + intros [= <- <-]. auto.
    + intros [= <- <-]. auto.
    + discriminate.
  - intros (-> & [[-> ->] | [[-> ->] | (msg & cmd & -> & Hlen & Hp & Hq & ->)]]);
      [reflexivity | reflexivity |].
    cbn [turn step]. destruct (logReceive_Ret msg Hlen) as [t ->].
    unfold mbind, outcome_bind. rewrite Hp. unfold dispatch. rewrite Hq.
    reflexivity.
Qed.

(** ** Faults of the configuration loader *)

Lemma loadConfig_lines_Panic ls c :
  loadConfig_lines ls c = Panic <-> In "" ls.
Proof.
  revert c. induction ls as [|l ls IH]; intros c; cbn [loadConfig_lines In].
  - split; [discriminate | done].
  - unfold mbind, outcome_bind.
    destruct (loadConfig_line l c) as [c'|] eqn:E.
    + rewrite IH. split; [auto |]. intros [Hl | H]; [|done].
      rewrite Hl in E. discriminate E.
    + apply loadConfig_line_Panic in E. split; auto.
Qed.

(** X8.  [loadConfig] faults exactly on the files that can be opened and
    in which the scanner finds an empty line (a line that is empty once its
    CR is dropped, before a line that is too long for the scanner); on
    every other input it returns a configuration or an error. *)
Theorem loadConfig_faults file :
  loadConfig file = Panic <->
  exists text, file = Ok text /\ In "" (ScanLines text).1.
Proof.
  unfold loadConfig. destruct file as [text|err].
  - destruct (ScanLines text) as [ls scanErr] eqn:E. cbn [fst].
    unfold mbind, outcome_bind.
    destruct (loadConfig_lines ls _) as [c'|] eqn:El.
    + split.
      * destruct scanErr; discriminate.
      * intros (t & [= <-] & Hin). rewrite E in Hin. cbn [fst] in Hin.
        eapply loadConfig_lines_Panic in Hin. rewrite El in Hin.
        discriminate Hin.
    + apply loadConfig_lines_Panic in El. split; [|done].
      intros _. exists text. rewrite E. auto.
  - split; [discriminate | by intros (? & ? & _)].
Qed.

(** ** Exchanges of several commands *)

(** A turn of the loop on a well-formed line with an argument is the
    dispatch of the command the client wrote. *)
Lemma turn_line c1 c2 c3 rest arg h e :
  is_letter c1 && is_letter c2 && is_letter c3 = true ->
  strings.mem " "%char (String c1 (String c2 (String c3 rest))) = false ->
  strings.mem CR arg = false -> strings.mem LF arg = false ->
  turn (line (String c1 (String c2 (String c3 rest)) +:+ " " +:+ arg)) h e
  = dispatch (newCommand (String c1 (String c2 (String c3 rest))) arg) h e.
Proof.
  intros Hl Hsp Hcr Hlf. unfold line. cbn [turn step].
  rewrite parseCommand_with_arg by assumption.
  destruct (logReceive_Ret
              ((String c1 (String c2 (String c3 rest)) +:+ " " +:+ arg)
               +:+ CRLF)) as [t ->]; [|reflexivity].
  rewrite length_app. cbn. lia.
Qed.

(** X9.  Logging in takes a USER and a PASS command.  In a session that is
    not logged in, USER with a non-empty name followed by PASS logs the
    session in exactly when the password is the one the user table holds
    for that name: the replies are then 331 and 230 and the session gets
    the table of the logged-in commands; otherwise they are 331 and 530 and
    the stored user name is cleared, so that the next PASS needs a new
    USER. *)
Theorem login_exchange h u p e1 e2 :
  reachable h -> isLoggedIn h = false ->
  u <> "" ->
  strings.mem CR u = false -> strings.mem LF u = false ->
  strings.mem CR p = false -> strings.mem LF p = false ->
  serve [(line (CommandUSER +:+ " " +:+ u), e1);
         (line (CommandPASS +:+ " " +:+ p), e2)] h
  = Ret
      (if decide (users h !! u = Some p)
       then (set_isLoggedIn true (initCommandTableLoggedIn (set_username u h)),
             [EvReply (newReply "331"
                         ("Username " +:+ u
                          +:+ " accepted, please provide the password."));
              EvReply (newReply "230" "Login successful.")])
       else (set_username "" h,
             [EvReply (newReply "331"
                         ("Username " +:+ u
                          +:+ " accepted, please provide the password."));
              EvReply (newReply "530" "Login incorrect.")])).
Proof.
  intros Hr Hlog Hu Hcu Hlu Hcp Hlp.
  pose proof (reachable_table h Hr) as Ht. unfold table_ok in Ht.
  rewrite Hlog in Ht.
  cbn [serve]. unfold CommandUSER, CommandPASS.
  rewrite !turn_line by (assumption || reflexivity).
  unfold dispatch. cbn [Code Arugment].
  change (strings.ToUpper "USER") with "USER".
  change (String.eqb "USER" "QUIT") with false. cbv iota.
  rewrite Ht. change (preAuthTable !! "USER") with (Some F_HandleUSER).
  cbn [call]. unfold HandleUSER.
  apply String.eqb_neq in Hu. rewrite Hu, Hlog, andb_false_r.
  unfold writeReply, mbind, outcome_bind.
  rewrite turn_line by (assumption || reflexivity).
  unfold dispatch. cbn [Code Arugment].
  change (strings.ToUpper "PASS") with "PASS".
  change (String.eqb "PASS" "QUIT") with false. cbv iota.
  change (commands (set_username u h)) with (commands h). rewrite Ht.
  change (preAuthTable !! "PASS") with (Some F_HandlePASS).
  cbn [call]. unfold HandlePASS, writeReply, mbind, outcome_bind.
  change (username (set_username u h)) with u.
  change (users (set_username u h)) with (users h). rewrite Hu.
  destruct (decide (users h !! u = Some p)) as [Hp | Hp].
  - rewrite Hp, String.eqb_refl. reflexivity.
  - destruct (users h !! u) as [pass|] eqn:E; [|reflexivity].
    destruct (String.eqb p pass) eqn:Ep; [|reflexivity].
    apply String.eqb_eq in Ep. congruence.
Qed.

Lemma login_exchange_witness :
  serve [(line (CommandUSER +:+ " " +:+ "alice"), sample_env);
         (line (CommandPASS +:+ " " +:+ "secret"), sample_env)] fresh_session
  = Ret
      (if decide (users fresh_session !! "alice" = Some "secret")
       then (set_isLoggedIn true
               (initCommandTableLoggedIn (set_username "alice" fresh_session)),
             [EvReply (newReply "331"
                         ("Username " +:+ "alice"
                          +:+ " accepted, please provide the password."));
              EvReply (newReply "230" "Login successful.")])
       else (set_username "" fresh_session,
             [EvReply (newReply "331"
                         ("Username " +:+ "alice"
                          +:+ " accepted, please provide the password."));
              EvReply (newReply "530" "Login incorrect.")])).
Proof.
  apply (login_exchange fresh_session "alice" "secret" sample_env sample_env).
  - exact fresh_session_reachable.
  - reflexivity.
  - discriminate.
  - reflexivity.
  - reflexivity.
  - reflexivity.
  - reflexivity.
Defined.

(** ** The passive mode announced and understood *)

Lemma Trim_port_bars port :
  strings.mem "|"%char port = false ->
  strings.Trim ("|||" +:+ port +:+ "|") "|" = port.
Proof.
  intros Hp. unfold strings.Trim.
  change (strings.all_ascii "|") with true. cbv iota.
  replace ("|||" +:+ port +:+ "|") with (("|||" +:+ port) +:+ String "|"%char "")
    by (by rewrite append_assoc).
  rewrite trimRightBytes_snoc by reflexivity.
  destruct port as [|c port]; [reflexivity |].
  rewrite trimRightBytes_app_keep.
  - rewrite !append_cons, append_nil_l. cbn [strings.trimLeftBytes strings.mem].
    cbn [strings.mem] in Hp. apply orb_false_iff in Hp as [Hc _].
    change (Ascii.eqb "|" "|") with true. cbn [orb].
    rewrite Ascii.eqb_sym, Hc. reflexivity.
  - discriminate.
  - intros d Hd. cbn [strings.mem]. rewrite orb_false_r.
    destruct (Ascii.eqb d "|") eqn:E; [|reflexivity].
    apply Ascii.eqb_eq in E. subst d. congruence.
Qed.

(** The text of the reply 229 of the server, whatever follows it. *)
Lemma parseEPSVString_229 port tail :
  strings.mem "("%char port = false -> strings.mem ")"%char port = false ->
  strings.mem "|"%char port = false ->
  parseEPSVString
    ("Entering Extended Passive Mode (|||" +:+ port +:+ "|)." +:+ tail)
  = Ret (Ok port).
Proof.
  intros Ho Hc Hb. unfold parseEPSVString.
  set (msg := "Entering Extended Passive Mode (|||" +:+ port +:+ "|)." +:+ tail).
  assert (msg = "Entering Extended Passive Mode "
                +:+ String "("%char ("|||" +:+ port +:+ "|)." +:+ tail)) as H1
    by reflexivity.
  assert (msg = ("Entering Extended Passive Mode (" +:+ "|||" +:+ port +:+ "|")
                +:+ String ")"%char ("." +:+ tail)) as H2.
  { subst msg. rewrite !append_assoc. reflexivity. }
  assert (strings.IndexByte msg "(" = 31) as ->.
  { rewrite H1, IndexByte_app; reflexivity. }
  assert (strings.IndexByte msg ")"
          = 36 + Z.of_nat (String.length port)) as ->.
  { rewrite H2, IndexByte_app.
    - rewrite !length_app. cbn [String.length]. lia.
    - rewrite !mem_app, Hc. reflexivity. }
  cbv zeta.
  replace (36 + Z.of_nat (String.length port) =? -1) with false
    by (symmetry; apply Z.eqb_neq; lia).
  change (31 =? -1) with false. cbn [orb].
  replace (36 + Z.of_nat (String.length port) <? 31 + 1) with false
    by (symmetry; apply Z.ltb_ge; lia).
  unfold net.slice.
  replace (Z.to_nat (36 + Z.of_nat (String.length port) - (31 + 1)))
    with (String.length ("|||" +:+ port +:+ "|"))
    by (rewrite !length_app; cbn [String.length]; lia).
  change (Z.to_nat (31 + 1))
    with (String.length "Entering Extended Passive Mode (").
  replace msg with ("Entering Extended Passive Mode ("
                    +:+ ("|||" +:+ port +:+ "|") +:+ (")." +:+ tail))
    by (rewrite H2, !append_assoc; reflexivity).
  rewrite drop_app, take_app, Trim_port_bars by exact Hb. reflexivity.
Qed.

(** X10.  The passive mode from end to end.  Where passive mode is on and
    the listener of the new data connection has an address with a decimal
    port, EPSV without argument installs the passive data connection that
    checks for the host of the control connection's peer, and writes one
    reply; the client reads this reply as a reply 229 and [parseEPSVString]
    takes from its message the port of the listener. *)
Theorem EPSV_exchange h e ln host port' :
  pasv (hconfig h) = true ->
  Listen e = Ok ln ->
  net.SplitHostPort (lnAddr ln) = Some (host, port') ->
  all_chars is_digit port' = true ->
  exists r r',
    HandleEPSV "" h e
    = Ret (set_dataConn (serverPassiveDataConn ln (control_peer_host h)) h,
           [EvListen; EvReply r])
    /\ readReply (wire r) = Ret (Ok r')
    /\ Status r' = "229"
    /\ parseEPSVString (Message r') = Ret (Ok port').
Proof.
  intros Hpasv Hl Hs Hd.
  assert (forall c, is_digit c = false -> strings.mem c port' = false) as Hm
    by (intros c Hc; by apply (all_chars_mem is_digit)).
  set (msg := "Entering Extended Passive Mode (|||" +:+ port' +:+ "|).").
  assert (strings.mem LF msg = false) as Hlf.
  { subst msg. rewrite !mem_app, Hm by reflexivity. reflexivity. }
  exists (newReply "229" msg), (newReply "229" (msg +:+ String CR "")).
  split; [|split; [|split]].
  - unfold HandleEPSV, initPassiveDataConn. rewrite Hpasv, Hl. cbn [negb].
    change (String.eqb "" "") with true. cbn [negb]. rewrite Hs. reflexivity.
  - unfold wire, Reply_String. cbn [Status Message].
    rewrite Trim_no_LF by exact Hlf.
    unfold strings.ContainsByte. rewrite IndexByte_not_mem by exact Hlf.
    change (0 <=? -1) with false. cbv iota.
    assert (("229" +:+ " " +:+ msg) +:+ CRLF
            = String "2" (String "2" (String "9" (String " "%char
                ((msg +:+ String CR "") +:+ String LF ""))))) as ->.
    { rewrite !append_cons, !append_nil_l. do 4 f_equal.
      by rewrite append_assoc. }
    apply readReply_line; [reflexivity .. |].
    rewrite mem_app, Hlf. reflexivity.
  - reflexivity.
  - cbn [Message]. subst msg. rewrite !append_assoc.
    apply parseEPSVString_229; apply Hm; reflexivity.
Qed.

Lemma EPSV_exchange_witness :
  pasv (hconfig alice_session) = true
  /\ Listen sample_env = Ok (mkListener "[::]:40000")
  /\ net.SplitHostPort (lnAddr (mkListener "[::]:40000"))
     = Some ("::", "40000")
  /\ all_chars is_digit "40000" = true
  /\ exists r r',
       HandleEPSV "" alice_session sample_env
       = Ret (set_dataConn
                (serverPassiveDataConn (mkListener "[::]:40000")
                   (control_peer_host alice_session)) alice_session,
              [EvListen; EvReply r])
       /\ readReply (wire r) = Ret (Ok r')
       /\ Status r' = "229"
       /\ parseEPSVString (Message r') = Ret (Ok "40000").
Proof.
  refine (conj eq_refl (conj eq_refl (conj eq_refl (conj eq_refl _)))).
  exact (EPSV_exchange alice_session sample_env (mkListener "[::]:40000")
           "::" "40000" eq_refl eq_refl eq_refl eq_refl).
Defined.

(** ** The active mode announced and used *)

(** X11.  The active mode from end to end.  Where active mode is on, the
    argument that the client builds for a host of four fields and a port
    number is accepted by PORT (reply 200), and the next RETR of a regular
    file that can be read sends 150, dials the very address of that host
    and port before anything else, and ends with 226 or, when the transfer
    failed, 451; the working directory is the one from before. *)
Theorem PORT_then_RETR a b c d p h file e info data :
  strings.mem "."%char a = false -> strings.mem "."%char b = false ->
  strings.mem "."%char c = false -> strings.mem "."%char d = false ->
  strings.mem ","%char a = false -> strings.mem ","%char b = false ->
  strings.mem ","%char c = false -> strings.mem ","%char d = false ->
  0 <= p <= 65535 ->
  port (hconfig h) = true ->
  Lstat e (if negb (path.IsAbs file) then path.Join (dir h) file else file)
  = Ok info ->
  IsRegular info = true ->
  ReadFile e (if negb (path.IsAbs file) then path.Join (dir h) file else file)
  = Ok data ->
  exists arg h1 err evs,
    getPORTString (a +:+ "." +:+ b +:+ "." +:+ c +:+ "." +:+ d)
      (fmt.Sprintf_d p) = Ok arg
    /\ HandlePORT arg h
       = Ret (h1, [EvReply (newReply "200" "PORT command accepted.")])
    /\ dir h1 = dir h
    /\ active_write
         (net.JoinHostPort (a +:+ "." +:+ b +:+ "." +:+ c +:+ "." +:+ d)
            (fmt.Sprintf_d p))
         (strings.Replace data LF CRLF) e = (err, evs)
    /\ head evs
       = Some (EvDial
                 (net.JoinHostPort
                    (a +:+ "." +:+ b +:+ "." +:+ c +:+ "." +:+ d)
                    (fmt.Sprintf_d p)))
    /\ HandleRETR file h1 e
       = Ret (h1,
              [EvReply (newReply "150" "Here comes the file.")] ++ evs
              ++ [EvReply
                    (match err with
                     | None => newReply "226" "File transfered successfully."
                     | Some _ => newReply "451" "Error occurred in transfer."
                     end)]).
Proof.
  intros Da Db Dc Dd Ca Cb Cc Cd Hp Hport Hst Hreg Hrd.
  destruct (port_bytes p Hp) as (H1 & H0 & Hsum).
  set (addr := net.JoinHostPort (a +:+ "." +:+ b +:+ "." +:+ c +:+ "." +:+ d)
                 (fmt.Sprintf_d p)).
  destruct (active_write addr (strings.Replace data LF CRLF) e)
    as [err evs] eqn:Hw.
  eexists _, (initActiveDataConn addr h), err, evs.
  split; [by apply getPORTString_ok |].
  split; [|split; [reflexivity |split; [reflexivity |split]]].
  - unfold HandlePORT. rewrite Hport. cbn [negb].
    rewrite hostPortToAddr_ok by assumption. rewrite Hsum. reflexivity.
  - unfold active_write in Hw.
    destruct (Dial e addr) as [cn|]; [destruct (writeErr cn) |];
      injection Hw as _ <-; reflexivity.
  - unfold HandleRETR.
    change (dir (initActiveDataConn addr h)) with (dir h).
    rewrite Hst, Hreg, Hrd. cbn [negb].
    change (dataConn (initActiveDataConn addr h))
      with (serverActiveDataConn addr).
    cbn [write]. rewrite Hw.
    unfold after, writeReply, mbind, outcome_bind.
    destruct err; reflexivity.
Qed.

Lemma PORT_then_RETR_witness :
  0 <= 2121 <= 65535
  /\ port (hconfig alice_session) = true
  /\ Lstat sample_env "/srv/ftp/motd.txt" = Ok (mkFileInfo false true)
  /\ ReadFile sample_env "/srv/ftp/motd.txt" = Ok motd
  /\ exists arg h1 err evs,
       getPORTString "127.0.0.1" "2121" = Ok arg
       /\ HandlePORT arg alice_session
          = Ret (h1, [EvReply (newReply "200" "PORT command accepted.")])
       /\ dir h1 = dir alice_session
       /\ active_write "127.0.0.1:2121" (strings.Replace motd LF CRLF)
            sample_env = (err, evs)
       /\ head evs = Some (EvDial "127.0.0.1:2121")
       /\ HandleRETR "motd.txt" h1 sample_env
          = Ret (h1,
                 [EvReply (newReply "150" "Here comes the file.")] ++ evs
                 ++ [EvReply
                       (match err with
                        | None =>
                            newReply "226" "File transfered successfully."
                        | Some _ =>
                            newReply "451" "Error occurred in transfer."
                        end)]).
Proof.
  assert (0 <= 2121 <= 65535) as Hp by lia.
  refine (conj Hp (conj eq_refl (conj eq_refl (conj eq_refl _)))).
  exact (PORT_then_RETR "127" "0" "0" "1" 2121 alice_session "motd.txt"
           sample_env (mkFileInfo false true) motd
           eq_refl eq_refl eq_refl eq_refl eq_refl eq_refl eq_refl eq_refl
           Hp eq_refl eq_refl eq_refl eq_refl).
Defined.

(** ** Sessions without a data connection *)

(** No command changes the configuration, and none takes a data
    connection away. *)
Lemma call_keeps f arg h e h' evs :
  call f arg h e = Ret (h', evs) ->
  hconfig h' = hconfig h
  /\ (dataConn h <> noDataConn -> dataConn h' <> noDataConn).
Proof.
  intros H. destruct f; unfold_handlers; repeat case_match; simplify_eq;
    (split; [reflexivity | try done]); intros _; congruence.
Qed.

Lemma step_keeps i h e h' evs b :
  step i h e = Ret (h', evs, b) ->
  hconfig h' = hconfig h
  /\ (dataConn h <> noDataConn -> dataConn h' <> noDataConn).
Proof.
  intros H. destruct i as [msg| | |]; cbn [step] in H;
    try (simplify_eq; done).
  destruct (parseCommand msg) as [cmd|]; [|simplify_eq; done].
  unfold dispatch in H.
  destruct (String.eqb _ "QUIT").
  { unfold_handlers. simplify_eq. done. }
  destruct (commands h !! _) as [f|]; [|simplify_eq; done].
  destruct (call f (Arugment cmd) h e) as [[h1 evs1]|] eqn:Hc;
    unfold mbind, outcome_bind in H; simplify_eq.
  eapply call_keeps, Hc.
Qed.

(** X12.  A session is without a data connection for one reason only:
    passive mode is on and the listener that [newHandler] asked for could
    not be opened, an error that [newHandler] drops.  A session that has a
    data connection keeps one, whatever the commands: in particular every
    session of a server with passive mode off has one. *)
Theorem no_data_connection_origin conn' c users' e h0 evs0 h :
  newHandler conn' c users' e = (Ok h0, evs0) ->
  runs_to h0 h ->
  dataConn h = noDataConn ->
  pasv c = true /\ (exists err, Listen e = Err err)
  /\ dataConn h0 = noDataConn.
Proof.
  intros Hnew Hrun Hnil.
  assert (dataConn h0 = noDataConn) as H0.
  { revert Hnil.
    induction Hrun as [|h1 i e1 h2 evs Hrun IH Hstep]; [done |].
    intros Hnil. apply IH. apply step_keeps in Hstep as [_ Hk].
    destruct (dataConn h1); [reflexivity | exfalso; by apply Hk ..]. }
  split; [|split; [|exact H0]];
    unfold newHandler, initPassiveDataConn in Hnew;
    repeat case_match; simplify_eq; cbn in H0; try done.
  by eexists.
Qed.

Lemma no_data_connection_origin_witness :
  newHandler "127.0.0.1:50000" sample_config sample_users deaf_env
  = (Ok deaf_session, [EvListen])
  /\ runs_to deaf_session deaf_session
  /\ dataConn deaf_session = noDataConn
  /\ pasv sample_config = true
  /\ (exists err, Listen deaf_env = Err err)
  /\ dataConn deaf_session = noDataConn.
Proof.
  assert (newHandler "127.0.0.1:50000" sample_config sample_users deaf_env
          = (Ok deaf_session, [EvListen])) as Hnew
    by (vm_compute; reflexivity).
  refine (conj Hnew (conj (runs_to_refl _) (conj eq_refl _))).
  exact (no_data_connection_origin "127.0.0.1:50000" sample_config
           sample_users deaf_env deaf_session [EvListen] deaf_session
           Hnew (runs_to_refl _) eq_refl).
Defined.



(** ** An address with a port is not an IP literal *)










(** ** The data connection of a transfer in passive mode *)

(** X15.  A transfer in passive mode, from the announcement on.  Where
    passive mode is on and the listener opens, EPSV installs a data
    connection on that listener; the next RETR of a regular file that can
    be read then writes 150, accepts one connection on the listener and,
    when its peer has the host of the control connection's peer, writes the
    file on it with every LF turned into CR LF, closes it, and writes 226
    (451 when the close fails). *)
Theorem EPSV_then_RETR h e1 e2 ln host cport dport dc file info data :
  pasv (hconfig h) = true ->
  Listen e1 = Ok ln ->
  net.SplitHostPort (conn h) = Some (host, cport) ->
  Accept e2 = Ok dc ->
  net.SplitHostPort (peerAddr dc) = Some (host, dport) ->
  writeErr dc = None ->
  Lstat e2 (if negb (path.IsAbs file) then path.Join (dir h) file else file)
  = Ok info ->
  IsRegular info = true ->
  ReadFile e2 (if negb (path.IsAbs file) then path.Join (dir h) file else file)
  = Ok data ->
  exists h1 r,
    HandleEPSV "" h e1 = Ret (h1, [EvListen; EvReply r])
    /\ dir h1 = dir h
    /\ HandleRETR file h1 e2
       = Ret (h1,
              [EvReply (newReply "150" "Here comes the file.");
               EvAccept ln;
               EvDataWrite dc (strings.Replace data LF CRLF);
               EvDataClose dc;
               EvReply
                 (match closeErr dc with
                  | None => newReply "226" "File transfered successfully."
                  | Some _ => newReply "451" "Error occurred in transfer."
                  end)]).
Proof.
  intros Hpasv Hl Hc Ha Hd Hw Hst Hreg Hrd.
  assert (control_peer_host h = host) as Hhost
    by (unfold control_peer_host; by rewrite Hc).
  exists (set_dataConn (serverPassiveDataConn ln host) h).
  assert (forall h1, dir h1 = dir h ->
            dataConn h1 = serverPassiveDataConn ln host ->
            HandleRETR file h1 e2
            = Ret (h1,
                   [EvReply (newReply "150" "Here comes the file.");
                    EvAccept ln;
                    EvDataWrite dc (strings.Replace data LF CRLF);
                    EvDataClose dc;
                    EvReply
                      (match closeErr dc with
                       | None => newReply "226" "File transfered successfully."
                       | Some _ => newReply "451" "Error occurred in transfer."
                       end)])) as Hretr.
  { intros h1 Hdir Hdc. unfold HandleRETR. rewrite Hdir, Hst, Hreg, Hrd, Hdc.
    cbn [negb write]. unfold passive_write.
    rewrite Ha, Hd, String.eqb_refl, Hw. cbn [negb].
    unfold after, writeReply, mbind, outcome_bind.
    destruct (closeErr dc); reflexivity. }
  unfold HandleEPSV, initPassiveDataConn. rewrite Hpasv, Hl, Hhost.
  cbn [negb]. change (String.eqb "" "") with true. cbn [negb].
  destruct (net.SplitHostPort (lnAddr ln)) as [[lh lp]|];
    (eexists; split; [reflexivity |]; split; [reflexivity |]);
    by apply Hretr.
Qed.

Lemma EPSV_then_RETR_witness :
  pasv (hconfig alice_session) = true
  /\ Listen sample_env = Ok (mkListener "[::]:40000")
  /\ net.SplitHostPort (conn alice_session) = Some ("127.0.0.1", "50000")
  /\ Accept sample_env = Ok (mkNetConn "127.0.0.1:50001" None None)
  /\ net.SplitHostPort "127.0.0.1:50001" = Some ("127.0.0.1", "50001")
  /\ exists h1 r,
       HandleEPSV "" alice_session sample_env
       = Ret (h1, [EvListen; EvReply r])
       /\ dir h1 = dir alice_session
       /\ HandleRETR "motd.txt" h1 sample_env
          = Ret (h1,
                 [EvReply (newReply "150" "Here comes the file.");
                  EvAccept (mkListener "[::]:40000");
                  EvDataWrite (mkNetConn "127.0.0.1:50001" None None)
                    (strings.Replace motd LF CRLF);
                  EvDataClose (mkNetConn "127.0.0.1:50001" None None);
                  EvReply (newReply "226" "File transfered successfully.")]).
Proof.
  refine (conj eq_refl (conj eq_refl (conj eq_refl (conj eq_refl
            (conj eq_refl _))))).
  exact (EPSV_then_RETR alice_session sample_env sample_env
           (mkListener "[::]:40000") "127.0.0.1" "50000" "50001"
           (mkNetConn "127.0.0.1:50001" None None) "motd.txt"
           (mkFileInfo false true) motd
           eq_refl eq_refl eq_refl eq_refl eq_refl eq_refl eq_refl eq_refl
           eq_refl).
Defined.

(** ** The default data connection in active mode *)

Lemma Sscanf_Sprintf_int n :
  0 <= n < 2 ^ 63 -> fmt.Sscanf_d_int (fmt.Sprintf_d n) = Some n.
Proof.
  intros Hn.
  destruct (Sprintf_d_digits n) as (Hne & Hall & Hp); [lia |].
  unfold fmt.Sscanf_d_int.
  destruct (fmt.Sprintf_d n) as [|c s] eqn:E; [done |].
  assert (is_digit c = true) as Hc
    by (cbn [all_chars] in Hall; by apply andb_true_iff in Hall as [? _]).
  rewrite SkipSpace_digit by exact Hc.
  rewrite (digit_neq c "-"), (digit_neq c "+") by done.
  rewrite scanNumber_digits by exact Hall.
  rewrite Hp. cbv zeta.
  replace (- 2 ^ 63 <=? n) with true by (symmetry; apply Z.leb_le; lia).
  replace (n <? 2 ^ 63) with true by (symmetry; apply Z.ltb_lt; lia).
  reflexivity.
Qed.

Lemma last_not_mem s c : strings.mem c s = false -> net.last s c = -1.
Proof.
  induction s as [|d s IH]; [reflexivity |]. cbn [strings.mem net.last].
  intros H. apply orb_false_iff in H as [Hd Hs].
  rewrite (IH Hs), Ascii.eqb_sym, Hd. reflexivity.
Qed.

Lemma last_app s c t :
  strings.mem c t = false ->
  net.last (s +:+ String c t) c = Z.of_nat (String.length s).
Proof.
  intros Ht. induction s as [|d s IH].
  - rewrite append_nil_l. cbn [net.last]. rewrite (last_not_mem t c Ht).
    by rewrite Ascii.eqb_refl.
  - rewrite append_cons. cbn [net.last String.length]. rewrite IH. cbv zeta.
    replace (0 <=? Z.of_nat (String.length s)) with true
      by (symmetry; apply Z.leb_le; lia).
    lia.
Qed.

(** [SplitHostPort] takes apart what [JoinHostPort] builds from a host and
    a port without colon and bracket. *)
Lemma SplitHostPort_Join host port' :
  strings.mem ":"%char host = false -> strings.mem "["%char host = false ->
  strings.mem "]"%char host = false ->
  strings.mem ":"%char port' = false -> strings.mem "["%char port' = false ->
  strings.mem "]"%char port' = false ->
  net.JoinHostPort host port' = host +:+ ":" +:+ port'
  /\ net.SplitHostPort (host +:+ ":" +:+ port') = Some (host, port').
Proof.
  intros Hc Ho Hb Pc Po Pb. split.
  { unfold net.JoinHostPort, net.colon.
    by rewrite IndexByte_not_mem by exact Hc. }
  unfold net.SplitHostPort, net.colon. cbv zeta.
  change (host +:+ ":" +:+ port') with (host +:+ String ":"%char port').
  rewrite last_app by exact Pc.
  replace (Z.of_nat (String.length host) <? 0) with false
    by (symmetry; apply Z.ltb_ge; lia).
  assert (match host +:+ String ":"%char port' with
          | String c _ => Ascii.eqb c "["
          | "" => false
          end = false) as ->.
  { destruct host as [|c host]; [reflexivity |]. rewrite append_cons.
    cbn [strings.mem] in Ho. apply orb_false_iff in Ho as [Ho _].
    by rewrite Ascii.eqb_sym. }
  assert (forall i : Z, net.slice (host +:+ String ":"%char port') 0
                          (strings.len (host +:+ String ":"%char port'))
                        = host +:+ String ":"%char port') as Hall.
  { intros _. unfold net.slice, strings.len. rewrite Z.sub_0_r, Nat2Z.id.
    apply take_all. }
  assert (net.slice (host +:+ String ":"%char port') 0
            (Z.of_nat (String.length host)) = host) as ->.
  { unfold net.slice. rewrite Z.sub_0_r, Nat2Z.id. apply take_app. }
  rewrite (IndexByte_not_mem host) by exact Hc.
  change (0 <=? -1) with false. cbv iota. rewrite (Hall 0).
  rewrite !IndexByte_not_mem
    by (rewrite mem_app; cbn [strings.mem]; rewrite ?Ho, ?Hb, ?Po, ?Pb;
        reflexivity).
  change (0 <=? -1) with false. cbv iota. do 2 f_equal.
  unfold net.slice, strings.len.
  replace (Z.to_nat (Z.of_nat (String.length host) + 1))
    with (String.length (host +:+ ":"))
    by (rewrite length_app; cbn [String.length]; lia).
  replace (host +:+ String ":"%char port') with ((host +:+ ":") +:+ port')
    by (by rewrite append_assoc).
  rewrite drop_app.
  replace (Z.to_nat _) with (String.length port')
    by (rewrite !length_app; cbn [String.length]; lia).
  apply take_all.
Qed.

(** X16.  The data connection of a new session when passive mode is off:
    for a peer at a host without colon and a port from 0 to 65535,
    [newHandler] sets up an active data connection to the same host and to
    the port after the one of the control connection, without a check of
    its range: 65536 follows 65535.  The session starts in the working
    directory of the server, not logged in, with the table of the commands
    before login, and nothing is written. *)
Theorem newHandler_default_port host p c users' e d :
  pasv c = false ->
  Getwd e = Ok d ->
  strings.mem ":"%char host = false -> strings.mem "["%char host = false ->
  strings.mem "]"%char host = false ->
  0 <= p <= 65535 ->
  newHandler (net.JoinHostPort host (fmt.Sprintf_d p)) c users' e
  = (Ok (mkHandler c (net.JoinHostPort host (fmt.Sprintf_d p)) "" d
           (serverActiveDataConn
              (net.JoinHostPort host (fmt.Sprintf_d (p + 1))))
           users' false preAuthTable), []).
Proof.
  intros Hpasv Hwd Hc Ho Hb Hp.
  assert (forall ch, is_digit ch = false ->
            strings.mem ch (fmt.Sprintf_d p) = false) as Hm.
  { intros ch Hch. apply (all_chars_mem is_digit); [exact Hch |].
    apply Sprintf_d_digits. lia. }
  destruct (SplitHostPort_Join host (fmt.Sprintf_d p)) as [Hj Hs];
    try assumption; try (apply Hm; reflexivity).
  unfold newHandler. rewrite Hwd, Hpasv, Hj, Hs.
  rewrite Sscanf_Sprintf_int by (change (2 ^ 63) with 9223372036854775808; lia).
  rewrite <- Hj. reflexivity.
Qed.

Lemma newHandler_default_port_witness :
  pasv (mkConfig "/var/spool/logfiles" 5 "users" true false) = false
  /\ Getwd sample_env = Ok "/srv/ftp"
  /\ 0 <= 65535 <= 65535
  /\ newHandler "10.0.0.7:65535"
       (mkConfig "/var/spool/logfiles" 5 "users" true false) sample_users
       sample_env
     = (Ok (mkHandler (mkConfig "/var/spool/logfiles" 5 "users" true false)
              "10.0.0.7:65535" "" "/srv/ftp"
              (serverActiveDataConn "10.0.0.7:65536")
              sample_users false preAuthTable), []).
Proof.
  assert (0 <= 65535 <= 65535) as Hp by lia.
  refine (conj eq_refl (conj eq_refl (conj Hp _))).
  exact (newHandler_default_port "10.0.0.7" 65535
           (mkConfig "/var/spool/logfiles" 5 "users" true false) sample_users
           sample_env "/srv/ftp" eq_refl eq_refl eq_refl eq_refl eq_refl Hp).
Defined.

(** ** The users file *)

Lemma Split_users_file pairs :
  Forall (fun '(name, pass) =>
            strings.mem LF name = false /\ strings.mem LF pass = false) pairs ->
  strings.Split (users_file pairs) LF
  = map (fun '(name, pass) => name +:+ " " +:+ pass) pairs ++ [""].
Proof.
  induction 1 as [|[name pass] pairs [Hn Hp] _ IH]; [reflexivity |].
  cbn [users_file fold_right map]. fold (users_file pairs).
  replace (name +:+ " " +:+ pass +:+ String LF (users_file pairs))
    with ((name +:+ " " +:+ pass) +:+ String LF (users_file pairs))
    by (by rewrite !append_assoc).
  rewrite Split_app, IH; [reflexivity |].
  rewrite !mem_app, Hn, Hp. reflexivity.
Qed.

(** X17.  The users table that [StartServer] builds from a users file of
    lines [name pass] (names and passwords without space and LF) binds each
    name to the password of its last line: later lines replace earlier
    ones, and the empty line after the last LF is passed over. *)
Theorem parseUsers_users_file pairs :
  Forall (fun '(name, pass) =>
            strings.mem " "%char name = false
            /\ strings.mem " "%char pass = false
            /\ strings.mem LF name = false
            /\ strings.mem LF pass = false) pairs ->
  parseUsers (users_file pairs) = list_to_map (rev pairs).
Proof.
  intros H. unfold parseUsers.
  rewrite Split_users_file
    by (eapply Forall_impl; [exact H |]; intros [n p]; tauto).
  rewrite fold_left_app. cbn [fold_left strings.Split].
  assert (forall acc : gmap string string,
            fold_left
              (fun users' l =>
                 match strings.Split l " "%char with
                 | [name; pass] => <[name := pass]> users'
                 | _ => users'
                 end)
              (map (fun '(name, pass) => name +:+ " " +:+ pass) pairs) acc
            = fold_left (fun m '(name, pass) => <[name := pass]> m) pairs acc)
    as ->.
  { induction H as [|[name pass] pairs (Hn & Hp & _) _ IH]; intros acc;
      [reflexivity |].
    cbn [map fold_left].
    change (name +:+ " " +:+ pass) with (name +:+ String " "%char pass).
    rewrite Split_app, Split_no_sep by assumption. apply IH. }
  rewrite <- fold_left_rev_right. unfold list_to_map.
  induction (rev pairs) as [|[name pass] l IH]; [reflexivity |].
  cbn [fold_right foldr]. by rewrite IH.
Qed.

Lemma parseUsers_users_file_witness :
  Forall (fun '(name, pass) =>
            strings.mem " "%char name = false
            /\ strings.mem " "%char pass = false
            /\ strings.mem LF name = false
            /\ strings.mem LF pass = false)
    [("alice", "old"); ("bob", "hunter2"); ("alice", "secret")]
  /\ parseUsers
       (users_file [("alice", "old"); ("bob", "hunter2"); ("alice", "secret")])
     = list_to_map
         (rev [("alice", "old"); ("bob", "hunter2"); ("alice", "secret")]).
Proof.
  assert (Forall (fun '(name, pass) =>
                    strings.mem " "%char name = false
                    /\ strings.mem " "%char pass = false
                    /\ strings.mem LF name = false
                    /\ strings.mem LF pass = false)
            [("alice", "old"); ("bob", "hunter2"); ("alice", "secret")]) as H
    by (repeat constructor).
  exact (conj H (parseUsers_users_file _ H)).
Defined.

(** ** The address that the client dials in passive mode *)

Lemma scanNumber_app s c t :
  all_chars is_digit s = true -> fmt.is_digit_or_underscore c = false ->
  fmt.scanNumber (s +:+ String c t) = s.
Proof.
  intros Hs Hc. induction s as [|d s IH].
  - rewrite append_nil_l. cbn [fmt.scanNumber]. by rewrite Hc.
  - rewrite append_cons. cbn [all_chars fmt.scanNumber] in *.
    apply andb_true_iff in Hs as [Hd Hs].
    unfold fmt.is_digit_or_underscore at 1. rewrite Hd. cbn [orb].
    by rewrite IH.
Qed.

(** [Sscanf] stops at the first byte that is not part of a number. *)
Lemma Sscanf_Sprintf_uint16_tail n c t :
  0 <= n <= 65535 -> fmt.is_digit_or_underscore c = false ->
  fmt.Sscanf_d_uint 16 (fmt.Sprintf_d n +:+ String c t) = Some n.
Proof.
  intros Hn Hc.
  destruct (Sprintf_d_digits n) as (Hne & Hall & Hp); [lia |].
  unfold fmt.Sscanf_d_uint.
  destruct (fmt.Sprintf_d n) as [|d s] eqn:E; [done |].
  assert (is_digit d = true) as Hd
    by (cbn [all_chars] in Hall; by apply andb_true_iff in Hall as [? _]).
  rewrite append_cons, SkipSpace_digit by exact Hd.
  rewrite <- append_cons, (scanNumber_app _ _ _ Hall Hc), Hp.
  change (2 ^ 64) with 18446744073709551616. change (2 ^ 16) with 65536.
  replace (n <? 18446744073709551616) with true
    by (symmetry; apply Z.ltb_lt; lia).
  replace (n <? 65536) with true by (symmetry; apply Z.ltb_lt; lia).
  reflexivity.
Qed.

(** Six fields with something after the number of the last one. *)
Lemma hostPortToAddr_tail a b c d p1 p2 ch t :
  strings.mem ","%char a = false -> strings.mem ","%char b = false ->
  strings.mem ","%char c = false -> strings.mem ","%char d = false ->
  strings.mem ","%char (String ch t) = false ->
  fmt.is_digit_or_underscore ch = false ->
  0 <= p1 <= 255 -> 0 <= p2 <= 255 ->
  hostPortToAddr
    (a +:+ "," +:+ b +:+ "," +:+ c +:+ "," +:+ d +:+ ","
     +:+ fmt.Sprintf_d p1 +:+ "," +:+ fmt.Sprintf_d p2 +:+ String ch t)
  = Ok (net.JoinHostPort (a +:+ "." +:+ b +:+ "." +:+ c +:+ "." +:+ d)
          (fmt.Sprintf_d (p1 * 256 + p2))).
Proof.
  intros Ha Hb Hc Hd Ht Hch H1 H2. unfold hostPortToAddr.
  rewrite !(append_cons ","%char), !append_nil_l.
  do 4 (rewrite Split_app by assumption).
  rewrite (Split_app (fmt.Sprintf_d p1))
    by (apply Sprintf_d_no; [lia | reflexivity]).
  rewrite Split_no_sep
    by (rewrite mem_app, Ht, Sprintf_d_no by (lia || reflexivity);
        reflexivity).
  rewrite (Sscanf_Sprintf_uint16 p1) by lia.
  rewrite (Sscanf_Sprintf_uint16_tail p2) by (lia || assumption).
  cbn [default from_option]. unfold id.
  change (2 ^ 16) with 65536. rewrite Z.mod_small by lia.
  replace (65535 <? p1 * 256 + p2) with false
    by (symmetry; apply Z.ltb_ge; lia).
  reflexivity.
Qed.

(** X18.  The client in legacy passive mode does not dial the address of
    a reply 227.  [initPassiveDataConn] gives the whole message of the
    reply to [hostPortToAddr], not to [parsePASVString]: for a message
    [Entering Passive Mode (a,b,c,d,p1,p2).] as [readReply] returns it,
    [parsePASVString] yields the address [a.b.c.d] with port
    [p1*256+p2], while the address that is dialed has the text before the
    first comma, [Entering Passive Mode (a], in the place of [a]. *)
Theorem legacy_passive_address a b c d p1 p2 remoteAddr :
  strings.mem ","%char a = false -> strings.mem ","%char b = false ->
  strings.mem ","%char c = false -> strings.mem ","%char d = false ->
  strings.mem ")"%char a = false -> strings.mem ")"%char b = false ->
  strings.mem ")"%char c = false -> strings.mem ")"%char d = false ->
  0 <= p1 <= 255 -> 0 <= p2 <= 255 ->
  parsePASVString
    ("Entering Passive Mode ("
     +:+ (a +:+ "," +:+ b +:+ "," +:+ c +:+ "," +:+ d +:+ ","
          +:+ fmt.Sprintf_d p1 +:+ "," +:+ fmt.Sprintf_d p2)
     +:+ ")." +:+ String CR "")
  = Ret (Ok (net.JoinHostPort (a +:+ "." +:+ b +:+ "." +:+ c +:+ "." +:+ d)
               (fmt.Sprintf_d (p1 * 256 + p2))))
  /\ Client_initPassiveDataConn_addr false remoteAddr
       ("Entering Passive Mode ("
        +:+ (a +:+ "," +:+ b +:+ "," +:+ c +:+ "," +:+ d +:+ ","
             +:+ fmt.Sprintf_d p1 +:+ "," +:+ fmt.Sprintf_d p2)
        +:+ ")." +:+ String CR "")
     = Ret (Ok (net.JoinHostPort
                  (("Entering Passive Mode (" +:+ a)
                   +:+ "." +:+ b +:+ "." +:+ c +:+ "." +:+ d)
                  (fmt.Sprintf_d (p1 * 256 + p2)))).
Proof.
  intros Ca Cb Cc Cd Pa Pb Pc Pd H1 H2.
  set (arg := a +:+ "," +:+ b +:+ "," +:+ c +:+ "," +:+ d +:+ ","
              +:+ fmt.Sprintf_d p1 +:+ "," +:+ fmt.Sprintf_d p2).
  split.
  - unfold parsePASVString.
    set (msg := "Entering Passive Mode (" +:+ arg +:+ ")." +:+ String CR "").
    assert (msg = "Entering Passive Mode "
                  +:+ String "("%char (arg +:+ ")." +:+ String CR "")) as E1
      by reflexivity.
    assert (msg = ("Entering Passive Mode (" +:+ arg)
                  +:+ String ")"%char ("." +:+ String CR "")) as E2
      by (subst msg; rewrite !append_assoc; reflexivity).
    assert (strings.mem ")"%char arg = false) as Harg.
    { subst arg. rewrite !mem_app, Pa, Pb, Pc, Pd.
      rewrite !Sprintf_d_no by (lia || reflexivity). reflexivity. }
    assert (strings.IndexByte msg "(" = 22) as ->
      by (rewrite E1, IndexByte_app; reflexivity).
    assert (strings.IndexByte msg ")"
            = 23 + Z.of_nat (String.length arg)) as ->.
    { rewrite E2, IndexByte_app.
      - rewrite length_app. cbn [String.length]. lia.
      - rewrite mem_app, Harg. reflexivity. }
    cbv zeta.
    replace (23 + Z.of_nat (String.length arg) =? -1) with false
      by (symmetry; apply Z.eqb_neq; lia).
    change (22 =? -1) with false. cbn [orb].
    replace (23 + Z.of_nat (String.length arg) <? 22 + 1) with false
      by (symmetry; apply Z.ltb_ge; lia).
    unfold net.slice.
    replace (Z.to_nat (23 + Z.of_nat (String.length arg) - (22 + 1)))
      with (String.length arg) by lia.
    change (Z.to_nat (22 + 1)) with (String.length "Entering Passive Mode (").
    subst msg. rewrite drop_app, take_app.
    subst arg. by rewrite hostPortToAddr_ok.
  - unfold Client_initPassiveDataConn_addr. f_equal. subst arg.
    replace ("Entering Passive Mode ("
             +:+ (a +:+ "," +:+ b +:+ "," +:+ c +:+ "," +:+ d +:+ ","
                  +:+ fmt.Sprintf_d p1 +:+ "," +:+ fmt.Sprintf_d p2)
             +:+ ")." +:+ String CR "")
      with (("Entering Passive Mode (" +:+ a) +:+ "," +:+ b +:+ "," +:+ c
            +:+ "," +:+ d +:+ "," +:+ fmt.Sprintf_d p1 +:+ ","
            +:+ fmt.Sprintf_d p2 +:+ String ")"%char ("." +:+ String CR ""))
      by (rewrite !append_assoc; reflexivity).
    apply hostPortToAddr_tail; assumption || reflexivity.
Qed.

Lemma legacy_passive_address_witness :
  0 <= 8 <= 255 /\ 0 <= 73 <= 255
  /\ parsePASVString
       ("Entering Passive Mode (10,0,0,7,8,73)." +:+ String CR "")
     = Ret (Ok "10.0.0.7:2121")
  /\ Client_initPassiveDataConn_addr false "10.0.0.7:21"
       ("Entering Passive Mode (10,0,0,7,8,73)." +:+ String CR "")
     = Ret (Ok "Entering Passive Mode (10.0.0.7:2121").
Proof.
  assert (0 <= 8 <= 255) as H1 by lia.
  assert (0 <= 73 <= 255) as H2 by lia.
  refine (conj H1 (conj H2 _)).
  exact (legacy_passive_address "10" "0" "0" "7" 8 73 "10.0.0.7:21"
           eq_refl eq_refl eq_refl eq_refl eq_refl eq_refl eq_refl eq_refl
           H1 H2).
Defined.

(** X19.  The client in extended passive mode dials the server at the
    port of the reply 229: for the message that the server writes for a
    decimal port, as [readReply] returns it, the address is the host of the
    server's address joined with that port. *)
Theorem extended_passive_address remoteAddr host rport port' :
  net.SplitHostPort remoteAddr = Some (host, rport) ->
  all_chars is_digit port' = true ->
  Client_initPassiveDataConn_addr true remoteAddr
    (("Entering Extended Passive Mode (|||" +:+ port' +:+ "|).")
     +:+ String CR "")
  = Ret (Ok (net.JoinHostPort host port')).
Proof.
  intros Hs Hd.
  assert (forall c, is_digit c = false -> strings.mem c port' = false) as Hm
    by (intros c Hc; by apply (all_chars_mem is_digit)).
  unfold Client_initPassiveDataConn_addr. rewrite !append_assoc.
  rewrite parseEPSVString_229 by (apply Hm; reflexivity).
  unfold mbind, outcome_bind. by rewrite Hs.
Qed.

Lemma extended_passive_address_witness :
  net.SplitHostPort "10.0.0.7:21" = Some ("10.0.0.7", "21")
  /\ all_chars is_digit "40000" = true
  /\ Client_initPassiveDataConn_addr true "10.0.0.7:21"
       (("Entering Extended Passive Mode (|||" +:+ "40000" +:+ "|).")
        +:+ String CR "")
     = Ret (Ok (net.JoinHostPort "10.0.0.7" "40000")).
Proof.
  refine (conj eq_refl (conj eq_refl _)).
  exact (extended_passive_address "10.0.0.7:21" "10.0.0.7" "21" "40000"
           eq_refl eq_refl).
Defined.

(** ** Changing and printing the working directory *)

(** X20.  PWD prints what CWD stored.  In a logged-in session, a CWD line
    whose path (the argument itself when it is absolute, else the working
    directory joined with the argument) is a directory is answered with 250
    and the PWD line after it with 257 and that very path between double
    quotes, written as it is: an absolute argument is not cleaned and a
    quote in it is not escaped. *)
Theorem CWD_then_PWD h arg e1 e2 info :
  reachable h -> isLoggedIn h = true ->
  strings.mem CR arg = false -> strings.mem LF arg = false ->
  Lstat e1 (if negb (path.IsAbs arg) then path.Join (dir h) arg else arg)
  = Ok info ->
  IsDir info = true ->
  serve [(line (CommandCWD +:+ " " +:+ arg), e1); (line CommandPWD, e2)] h
  = Ret (set_dir (if negb (path.IsAbs arg) then path.Join (dir h) arg
                  else arg) h,
         [EvReply (newReply "250" "Directory change successful.");
          EvReply
            (newReply "257"
               (String DQUOTE
                  (if negb (path.IsAbs arg) then path.Join (dir h) arg
                   else arg)
                +:+ String DQUOTE "" +:+ " is the current directory."))]).
Proof.
  intros Hr Hlog Hcr Hlf Hst Hdir.
  pose proof (reachable_table h Hr) as Ht. unfold table_ok in Ht.
  rewrite Hlog in Ht.
  set (p := if negb (path.IsAbs arg) then path.Join (dir h) arg else arg) in *.
  cbn [serve]. unfold CommandCWD, CommandPWD.
  rewrite turn_line by (assumption || reflexivity).
  unfold dispatch at 1. cbn [Code Arugment].
  change (strings.ToUpper "CWD") with "CWD".
  change (String.eqb "CWD" "QUIT") with false. cbv iota.
  rewrite Ht. change (loggedInTable !! "CWD") with (Some F_HandleCWD).
  cbn [call]. unfold HandleCWD. cbv zeta. fold p. rewrite Hst, Hdir.
  cbn [negb]. unfold writeReply, mbind, outcome_bind.
  change (turn (line "PWD") (set_dir p h) e2)
    with (dispatch (newCommand "PWD" "") (set_dir p h) e2).
  unfold dispatch. cbn [Code Arugment].
  change (strings.ToUpper "PWD") with "PWD".
  change (String.eqb "PWD" "QUIT") with false. cbv iota.
  change (commands (set_dir p h)) with (commands h). rewrite Ht.
  change (loggedInTable !! "PWD") with (Some F_HandlePWD).
  cbn [call]. unfold HandlePWD, writeReply.
  change (negb (String.eqb "" "")) with false. cbv iota.
  reflexivity.
Qed.

Lemma CWD_then_PWD_witness :
  reachable alice_session /\ isLoggedIn alice_session = true
  /\ Lstat sample_env "/tmp/" = Ok (mkFileInfo true false)
  /\ serve [(line (CommandCWD +:+ " " +:+ "/tmp/"), sample_env);
            (line CommandPWD, sample_env)] alice_session
     = Ret (set_dir "/tmp/" alice_session,
            [EvReply (newReply "250" "Directory change successful.");
             EvReply
               (newReply "257"
                  (String DQUOTE "/tmp/" +:+ String DQUOTE ""
                   +:+ " is the current directory."))]).
Proof.
  refine (conj alice_session_reachable (conj eq_refl (conj eq_refl _))).
  exact (CWD_then_PWD alice_session "/tmp/" sample_env sample_env
           (mkFileInfo true false) alice_session_reachable
           eq_refl eq_refl eq_refl eq_refl eq_refl).
Defined.

(** ** The active mode announced by the client *)

Lemma Join_cons x xs sep :
  xs <> [] -> strings.Join (x :: xs) sep = x +:+ sep +:+ strings.Join xs sep.
Proof. by destruct xs. Qed.

Lemma Join_Split s sep :
  strings.Join (strings.Split s sep) (String sep "") = s.
Proof.
  induction s as [|c s IH]; [reflexivity |]. cbn [strings.Split].
  pose proof (Split_not_nil s sep) as Hne.
  destruct (Ascii.eqb c sep) eqn:E.
  - apply Ascii.eqb_eq in E. subst c.
    rewrite Join_cons, IH by exact Hne. reflexivity.
  - destruct (strings.Split s sep) as [|f fs]; [done |].
    destruct fs as [|g fs]; [cbn [strings.Join] in *; by rewrite IH |].
    rewrite Join_cons in IH |- * by done.
    rewrite append_cons. by rewrite IH.
Qed.

Lemma append_not_empty a c t : String.eqb (a +:+ String c t) "" = false.
Proof. by destruct a. Qed.

(** A host for which [getPORTString] builds an argument has four fields. *)
Lemma getPORTString_fields host port' arg :
  getPORTString host port' = Ok arg ->
  exists a b c d,
    host = a +:+ "." +:+ b +:+ "." +:+ c +:+ "." +:+ d
    /\ strings.mem "."%char a = false /\ strings.mem "."%char b = false
    /\ strings.mem "."%char c = false /\ strings.mem "."%char d = false.
Proof.
  unfold getPORTString. intros H.
  pose proof (Join_Split host "."%char) as Hj.
  pose proof (Split_fields host "."%char) as Hf.
  destruct (strings.Split host ".") as [|a [|b [|c [|d [|x l]]]]];
    try discriminate H.
  exists a, b, c, d. split; [by rewrite <- Hj |].
  repeat (apply Forall_cons in Hf as [? Hf]). auto.
Qed.

Lemma dotted_chars P a b c d :
  all_chars P (a +:+ "." +:+ b +:+ "." +:+ c +:+ "." +:+ d) = true ->
  all_chars P a = true /\ all_chars P b = true
  /\ all_chars P c = true /\ all_chars P d = true.
Proof.
  rewrite !all_chars_app. intros H.
  repeat (apply andb_true_iff in H as [? H]). cbn [all_chars] in *.
  repeat match goal with
         | H : _ && _ = true |- _ => apply andb_true_iff in H as [? ?]
         end.
  auto.
Qed.

(** X21.  The announcement of an active data connection from end to end,
    in both flavours.  Whenever the client's [issuePortCommand] builds a
    command for a listener at [host] and a port from 0 to 65535, PORT for
    an IPv4 host when extended commands are off and EPRT otherwise, a
    logged-in session of a server with port mode on reads the line of that
    command, answers 200 and sets its data connection to the address of
    that host and port; the IPv6 loopback is replaced by [127.0.0.1]. *)
Theorem active_announcement_accepted extended host p cmd h e :
  reachable h -> isLoggedIn h = true -> port (hconfig h) = true ->
  0 <= p <= 65535 ->
  issuePortCommand extended host (fmt.Sprintf_d p) = Ok cmd ->
  exists msg,
    turn (InLine (writeCommand cmd)) h e
    = Ret (initActiveDataConn
             (net.JoinHostPort (eprt_host host) (fmt.Sprintf_d p)) h,
           [EvReply (newReply "200" msg)], true).
Proof.
  intros Hr Hlog Hport Hp Hcmd.
  pose proof (reachable_table h Hr) as Ht. unfold table_ok in Ht.
  rewrite Hlog in Ht.
  assert (forall ch, is_digit ch = false ->
            forall n, 0 <= n -> strings.mem ch (fmt.Sprintf_d n) = false)
    as Hdig by (intros ch Hch n Hn; by apply Sprintf_d_no).
  unfold issuePortCommand in Hcmd.
  destruct (net.ParseIP host) as [|b0 ip] eqn:Hip; [discriminate |].
  assert (net.ParseIP host <> []) as Hne by (rewrite Hip; discriminate).
  pose proof (ParseIP_chars host Hne) as Hch.
  destruct (match net.To4 (b0 :: ip) with [] => false | _ :: _ => true end
            && negb extended) eqn:Hsel.
  - (* PORT *)
    apply andb_true_iff in Hsel as [H4 _].
    assert (eprt_host host = host) as ->.
    { unfold eprt_host, is_IPv6_loopback. rewrite Hip.
      by destruct (net.To4 (b0 :: ip)). }
    destruct (getPORTString host (fmt.Sprintf_d p)) as [arg|] eqn:Hget;
      [|discriminate].
    injection Hcmd as <-.
    destruct (getPORTString_fields _ _ _ Hget)
      as (a & b & c & d & -> & Da & Db & Dc & Dd).
    rewrite getPORTString_ok in Hget by assumption. injection Hget as <-.
    destruct (dotted_chars _ _ _ _ _ Hch) as (Ia & Ib & Ic & Id).
    destruct (port_bytes p Hp) as (H1 & H0 & Hsum).
    assert (forall ch, ip_char ch = false -> is_digit ch = false ->
              strings.mem ch
                (a +:+ "," +:+ b +:+ "," +:+ c +:+ "," +:+ d +:+ ","
                 +:+ fmt.Sprintf_d (Z.shiftr p 8) +:+ ","
                 +:+ fmt.Sprintf_d (Z.land p 255))
              = strings.mem ch ",") as Hmem.
    { intros ch Hi Hd. rewrite !mem_app.
      rewrite (all_chars_mem ip_char ch a), (all_chars_mem ip_char ch b),
        (all_chars_mem ip_char ch c), (all_chars_mem ip_char ch d)
        by assumption.
      rewrite !Hdig by (assumption || lia).
      cbn [orb]. by rewrite !orb_false_r, !orb_diag. }
    exists "PORT command accepted.".
    unfold writeCommand, Command_String. cbn [Code Arugment].
    assert (String.eqb
              (a +:+ "," +:+ b +:+ "," +:+ c +:+ "," +:+ d +:+ ","
               +:+ fmt.Sprintf_d (Z.shiftr p 8) +:+ ","
               +:+ fmt.Sprintf_d (Z.land p 255)) "" = false) as ->
      by apply append_not_empty.
    change (InLine ((CommandPORT +:+ " " +:+ ?x) +:+ CRLF))
      with (line (CommandPORT +:+ " " +:+ x)).
    unfold CommandPORT.
    rewrite turn_line
      by (try reflexivity; rewrite Hmem by reflexivity; reflexivity).
    unfold dispatch. cbn [Code Arugment].
    change (strings.ToUpper "PORT") with "PORT".
    change (String.eqb "PORT" "QUIT") with false. cbv iota.
    rewrite Ht. change (loggedInTable !! "PORT") with (Some F_HandlePORT).
    cbn [call]. unfold HandlePORT. rewrite Hport. cbn [negb].
    rewrite hostPortToAddr_ok, Hsum
      by (lia || (apply (all_chars_mem ip_char); [reflexivity | assumption])).
    reflexivity.
  - (* EPRT *)
    rewrite getEPRTString_valid in Hcmd by exact Hne. injection Hcmd as <-.
    assert (eprt_proto host = "1" \/ eprt_proto host = "2") as Hproto.
    { unfold eprt_proto. destruct (net.To4 (net.ParseIP host)); [|auto].
      destruct (net.IsLoopback (net.ParseIP host)); auto. }
    assert (all_chars ip_char (eprt_host host) = true) as Heh.
    { unfold eprt_host. by destruct (is_IPv6_loopback host). }
    assert (forall ch, ip_char ch = false -> is_digit ch = false ->
              strings.mem ch
                ("|" +:+ eprt_proto host +:+ "|" +:+ eprt_host host +:+ "|"
                 +:+ fmt.Sprintf_d p +:+ "|")
              = strings.mem ch "|") as Hmem.
    { intros ch Hi Hd. rewrite !mem_app.
      rewrite (all_chars_mem ip_char ch (eprt_host host)) by assumption.
      rewrite Hdig by (assumption || lia).
      assert (strings.mem ch (eprt_proto host) = false) as ->.
      { destruct Hproto as [-> | ->]; cbn [strings.mem];
          rewrite orb_false_r; apply Ascii.eqb_neq; intros ->; discriminate. }
      cbn [orb]. by rewrite ?orb_false_r, !orb_diag. }
    exists "EPRT command accepted.".
    unfold writeCommand, Command_String. cbn [Code Arugment].
    assert (String.eqb
              ("|" +:+ eprt_proto host +:+ "|" +:+ eprt_host host +:+ "|"
               +:+ fmt.Sprintf_d p +:+ "|") "" = false) as ->
      by reflexivity.
    change (InLine ((CommandEPRT +:+ " " +:+ ?x) +:+ CRLF))
      with (line (CommandEPRT +:+ " " +:+ x)).
    unfold CommandEPRT.
    rewrite turn_line
      by (try reflexivity; rewrite Hmem by reflexivity; reflexivity).
    unfold dispatch. cbn [Code Arugment].
    change (strings.ToUpper "EPRT") with "EPRT".
    change (String.eqb "EPRT" "QUIT") with false. cbv iota.
    rewrite Ht. change (loggedInTable !! "EPRT") with (Some F_HandleEPRT).
    cbn [call]. unfold HandleEPRT. rewrite Hport. cbn [negb].
    rewrite parseEPRTArg_bar.
    + unfold mbind, outcome_bind.
      by destruct Hproto as [-> | ->].
    + by destruct Hproto as [-> | ->].
    + destruct (Sprintf_d_digits p) as (Hn & _ & _); [lia | exact Hn].
    + by destruct Hproto as [-> | ->].
    + by apply (all_chars_mem ip_char).
    + apply Hdig; [reflexivity | lia].
Qed.

Lemma active_announcement_accepted_witness :
  reachable alice_session /\ isLoggedIn alice_session = true
  /\ port (hconfig alice_session) = true
  /\ 0 <= 2121 <= 65535
  /\ issuePortCommand true "::1" (fmt.Sprintf_d 2121)
     = Ok (newCommand CommandEPRT "|1|127.0.0.1|2121|")
  /\ exists msg,
       turn (InLine (writeCommand (newCommand CommandEPRT "|1|127.0.0.1|2121|")))
         alice_session sample_env
       = Ret (initActiveDataConn
                (net.JoinHostPort (eprt_host "::1") (fmt.Sprintf_d 2121))
                alice_session,
              [EvReply (newReply "200" msg)], true).
Proof.
  assert (0 <= 2121 <= 65535) as Hp by lia.
  refine (conj alice_session_reachable (conj eq_refl (conj eq_refl
            (conj Hp (conj eq_refl _))))).
  exact (active_announcement_accepted true "::1" 2121
           (newCommand CommandEPRT "|1|127.0.0.1|2121|") alice_session
           sample_env alice_session_reachable eq_refl eq_refl Hp eq_refl).
Defined.

(** ** Faults of the client's reader *)

Lemma ReadString_Some s l r :
  ReadString s = Some (l, r) ->
  exists x,
    l = x +:+ String LF "" /\ strings.mem LF x = false
    /\ s = x +:+ String LF r.
Proof.
  revert l r. induction s as [|c s IH]; intros l r; [discriminate |].
  cbn [ReadString]. destruct (Ascii.eqb c LF) eqn:E.
  - apply Ascii.eqb_eq in E. subst c. intros [= <- <-]. by exists "".
  - destruct (ReadString s) as [[l' r']|]; [|discriminate].
    intros [= <- <-]. destruct (IH _ _ eq_refl) as (x & -> & Hx & ->).
    exists (String c x). cbn [strings.mem].
    by rewrite Ascii.eqb_sym, E, Hx.
Qed.

Lemma blank_line_from_line b x r :
  strings.mem LF x = false ->
  blank_line_from b (x +:+ String LF r)
  = (if String.eqb x "" then b else false) || blank_line_from true r.
Proof.
  revert b. induction x as [|c x IH]; intros b; cbn [strings.mem].
  - intros _. rewrite append_nil_l. reflexivity.
  - intros H. apply orb_false_iff in H as [Hc Hx].
    rewrite append_cons. cbn [blank_line_from].
    rewrite Ascii.eqb_sym, Hc, (IH false Hx).
    by destruct (String.eqb x "").
Qed.

Lemma logReceive_line_Panic x :
  logReceive (x +:+ String LF "") = Panic -> x = "".
Proof.
  intros H. apply logReceive_Panic in H. rewrite length_app in H.
  cbn [String.length] in H. destruct x; [reflexivity | cbn in H; lia].
Qed.

Lemma readReply_loop_Panic fuel s line ind status :
  readReply_loop fuel s line ind status = Panic ->
  blank_line_from true s = true.
Proof.
  revert s line. induction fuel as [|fuel IH]; intros s line;
    cbn [readReply_loop]; [discriminate |].
  destruct (ReadString s) as [[nl rest]|] eqn:Hr; [|discriminate].
  destruct (ReadString_Some _ _ _ Hr) as (x & -> & Hx & ->).
  rewrite blank_line_from_line by exact Hx.
  unfold mbind, outcome_bind.
  destruct (logReceive (x +:+ String LF "")) eqn:Hl.
  - destruct (_ && _); [discriminate |]. intros H. apply IH in H.
    rewrite H. apply orb_true_r.
  - intros _. apply logReceive_line_Panic in Hl. by subst x.
Qed.

(** X22.  The client's [readReply] faults on blank lines only.  A stream
    that starts with a bare LF makes it panic, in the slice of the logger;
    and whenever it panics, some line of the stream is a bare LF: on a
    stream in which every line has a byte before its LF, [readReply]
    returns a reply or an error. *)
Theorem readReply_faults s :
  (readReply s = Panic -> has_blank_line s = true)
  /\ (forall rest, s = String LF rest -> readReply s = Panic).
Proof.
  split.
  - unfold readReply, has_blank_line.
    destruct (ReadString s) as [[line rest]|] eqn:Hr; [|discriminate].
    destruct (ReadString_Some _ _ _ Hr) as (x & -> & Hx & ->).
    rewrite blank_line_from_line by exact Hx.
    unfold mbind, outcome_bind.
    destruct (logReceive (x +:+ String LF "")) eqn:Hl.
    + destruct (singleLineRegex_MatchString _); [discriminate |].
      destruct (multiLineRegex_MatchString _); [|discriminate].
      intros H. apply readReply_loop_Panic in H. rewrite H.
      apply orb_true_r.
    + intros _. apply logReceive_line_Panic in Hl. by subst x.
  - intros rest ->. reflexivity.
Qed.

Lemma readReply_faults_witness :
  readReply ("220-" +:+ CRLF +:+ String LF "220 ready" +:+ CRLF) = Panic
  /\ has_blank_line ("220-" +:+ CRLF +:+ String LF "220 ready" +:+ CRLF)
     = true.
Proof.
  assert (readReply ("220-" +:+ CRLF +:+ String LF "220 ready" +:+ CRLF)
          = Panic) as H by reflexivity.
  exact (conj H (proj1 (readReply_faults _) H)).
Defined.
